(** * Page fan-out extraction pipeline: aggregator and page processor

    A shallow embedding of the Python sources
      - [combiner/lambda_function.py]       (Page Result Aggregator),
      - [page_processor/lambda_function.py] (Extraction Engine),
      - [page_processor/utils.py]           (fence clean-up, description extraction),
      - [page_processor/yolo_inference.py]  (Region Detector Adapter),
    together with the properties of the specification that concern them.

    Conventions.
      - A Python [str] is a [string]; the text is taken to be ASCII (or UTF-8
        bytes whose non-ASCII bytes are inert): [str.strip], [str.lower] and
        [int()] are modelled on their ASCII behaviour.
      - A value produced by [json.loads] is a [json]; JSON objects keep their
        insertion order, as Python dictionaries do.
      - Exceptions are values: a function that can raise returns a [result].
      - External collaborators (blob store, JSON codec, regular-expression
        engine, vision model, detector) and the module-level configuration
        are the fields of an [env] record, one per component.
      - An event is a record: the keys a handler requires are present and
        have the types the workflow gives them. *)

From Stdlib Require Import ZArith List Bool Ascii String Lia Permutation Sorted.
From Stdlib Require Import DecimalString.
From Stdlib Require DecimalZ.
Import ListNotations.

Set Warnings "-register-all".

Local Open Scope string_scope.
Local Open Scope list_scope.

(* ================================================================= *)
(** ** Python strings *)

Module PyStr.

(** [str.isspace] on the ASCII range: TAB, LF, VT, FF, CR, the four
    information separators 0x1c-0x1f, and SPACE. *)
Definition is_space (c : ascii) : bool :=
  let n := nat_of_ascii c in
  ((9 <=? n) && (n <=? 13) || (28 <=? n) && (n <=? 32))%nat.

Fixpoint lstrip (s : string) : string :=
  match s with
  | EmptyString => EmptyString
  | String c r => if is_space c then lstrip r else s
  end.

Fixpoint rstrip (s : string) : string :=
  match s with
  | EmptyString => EmptyString
  | String c r =>
      match rstrip r with
      | EmptyString => if is_space c then EmptyString else String c EmptyString
      | r' => String c r'
      end
  end.

(** [s.strip()] *)
Definition strip (s : string) : string := rstrip (lstrip s).

(** [s.startswith(p)] *)
Definition startswith (s p : string) : bool := String.prefix p s.

(** [s[n:]] *)
Definition drop (n : nat) (s : string) : string :=
  String.substring n (String.length s - n) s.

(** [s[:-n]] for [0 < n] *)
Definition drop_last (n : nat) (s : string) : string :=
  String.substring 0 (String.length s - n) s.

(** [s.endswith(p)] *)
Definition endswith (s p : string) : bool :=
  (String.length p <=? String.length s)%nat
  && String.eqb (drop (String.length s - String.length p) s) p.

(** [s.replace(pat, "")] for a non-empty [pat]: occurrences are removed
    left to right without overlap.  [skip] counts the characters of the
    occurrence under removal that are still to be dropped. *)
Fixpoint remove_all_from (pat : string) (skip : nat) (s : string) : string :=
  match s with
  | EmptyString => EmptyString
  | String c r =>
      match skip with
      | S k => remove_all_from pat k r
      | O =>
          if String.prefix pat s
          then remove_all_from pat (String.length pat - 1) r
          else String c (remove_all_from pat 0 r)
      end
  end.

Definition remove_all (pat s : string) : string := remove_all_from pat 0 s.

(** [s.split(sep)] for a one-character separator; never the empty list. *)
Fixpoint split_on (sep : ascii) (s : string) : list string :=
  match s with
  | EmptyString => [EmptyString]
  | String c r =>
      if Ascii.eqb c sep then EmptyString :: split_on sep r
      else match split_on sep r with
           | h :: t => String c h :: t
           | [] => [String c EmptyString]
           end
  end.

(** [c in s] for a one-character needle. *)
Fixpoint has_char (c : ascii) (s : string) : bool :=
  match s with
  | EmptyString => false
  | String d r => Ascii.eqb d c || has_char c r
  end.

(** [s.rfind(c)] for a one-character needle. *)
Fixpoint rfind_from (c : ascii) (s : string) (i : nat) (found : option nat)
  : option nat :=
  match s with
  | EmptyString => found
  | String d r => rfind_from c r (S i) (if Ascii.eqb d c then Some i else found)
  end.

Definition rfind (c : ascii) (s : string) : option nat := rfind_from c s 0 None.

(** [l[-k]] for [1 <= k]; [None] stands for [IndexError]. *)
Definition neg_index {A : Type} (l : list A) (k : nat) : option A :=
  nth_error (rev l) (k - 1).

Definition lower_char (c : ascii) : ascii :=
  let n := nat_of_ascii c in
  if ((65 <=? n) && (n <=? 90))%nat then ascii_of_nat (n + 32) else c.

(** [s.lower()] *)
Fixpoint lower (s : string) : string :=
  match s with
  | EmptyString => EmptyString
  | String c r => String (lower_char c) (lower r)
  end.

(** [str(n)] for an [int]. *)
Definition str_of_Z (z : Z) : string := NilZero.string_of_int (Z.to_int z).

Definition digit_of (c : ascii) : option Z :=
  let n := nat_of_ascii c in
  if ((48 <=? n) && (n <=? 57))%nat then Some (Z.of_nat (n - 48)) else None.

Fixpoint digits_from (acc : Z) (s : string) : option Z :=
  match s with
  | EmptyString => Some acc
  | String c r =>
      match digit_of c with
      | Some d => digits_from (10 * acc + d) r
      | None => None
      end
  end.

Definition unsigned_int (s : string) : option Z :=
  match s with
  | EmptyString => None
  | _ => digits_from 0 s
  end.

(** [int(s)] in base ten; [None] stands for [ValueError].  Surrounding
    white space and one sign are accepted.  Digit-grouping underscores are
    not: every caller passes a field of [split('_')]. *)
Definition py_int (s : string) : option Z :=
  match strip s with
  | String "+" r => unsigned_int r
  | String "-" r => option_map Z.opp (unsigned_int r)
  | t => unsigned_int t
  end.

(** *** [pathlib.PurePosixPath] *)

Definition is_path_component (c : string) : bool :=
  negb (String.eqb c "") && negb (String.eqb c ".").

(** [Path(p).name]: the last component that is neither empty nor ["."]. *)
Definition path_name (p : string) : string :=
  match rev (filter is_path_component (split_on "/" p)) with
  | n :: _ => n
  | [] => ""
  end.

(** [Path(p).stem]: the name up to its last dot, when that dot is neither
    the first nor the last character. *)
Definition path_stem (p : string) : string :=
  let name := path_name p in
  match rfind "." name with
  | Some i =>
      if ((0 <? i) && (i <? String.length name - 1))%nat
      then String.substring 0 i name
      else name
  | None => name
  end.

End PyStr.

(* ================================================================= *)
(** ** Python values and exceptions *)

Module Py.

(** An exception: its class name and [str(e)]. *)
Record exn := Exn { exn_class : string; exn_msg : string }.

Inductive result (A : Type) : Type :=
| Ok (a : A)
| Raise (e : exn).
Arguments Ok {A} a.
Arguments Raise {A} e.

Definition bind {A B : Type} (r : result A) (k : A -> result B) : result B :=
  match r with
  | Ok a => k a
  | Raise e => Raise e
  end.

Notation "x <- r ;; k" := (bind r (fun x => k))
  (at level 61, r at next level, right associativity).

(** The result of a computation, passed through a function. *)
Definition lift {X Y : Type} (g : X -> Y) (r : result X) : result Y :=
  match r with
  | Ok x => Ok (g x)
  | Raise e => Raise e
  end.

(** What [json.loads] yields.  A float is the dyadic rational [m * 2^e];
    the non-standard literals NaN and Infinity are not represented. *)
Inductive json : Type :=
| JNull
| JBool (b : bool)
| JInt (z : Z)
| JFloat (m e : Z)
| JStr (s : string)
| JArr (items : list json)
| JObj (fields : list (string * json)).

Definition dict := list (string * json).

(** [type(v).__name__] *)
Definition type_name (v : json) : string :=
  match v with
  | JNull => "NoneType"
  | JBool _ => "bool"
  | JInt _ => "int"
  | JFloat _ _ => "float"
  | JStr _ => "str"
  | JArr _ => "list"
  | JObj _ => "dict"
  end.

(** [bool(v)] *)
Definition truthy (v : json) : bool :=
  match v with
  | JNull => false
  | JBool b => b
  | JInt z => negb (z =? 0)%Z
  | JFloat m _ => negb (m =? 0)%Z
  | JStr s => negb (String.eqb s "")
  | JArr items => match items with [] => false | _ => true end
  | JObj fields => match fields with [] => false | _ => true end
  end.

(** [d.get(k)], as an option *)
Fixpoint dict_get (k : string) (d : dict) : option json :=
  match d with
  | [] => None
  | (k', v) :: r => if String.eqb k k' then Some v else dict_get k r
  end.

(** [k in d] *)
Definition dict_has (k : string) (d : dict) : bool :=
  match dict_get k d with Some _ => true | None => false end.

(** [d.get(k, default)] *)
Definition dict_get_default (k : string) (default : json) (d : dict) : json :=
  match dict_get k d with Some v => v | None => default end.

(** [d[k] = v]: an existing key keeps its position. *)
Fixpoint dict_set (k : string) (v : json) (d : dict) : dict :=
  match d with
  | [] => [(k, v)]
  | (k', v') :: r =>
      if String.eqb k k' then (k, v) :: r else (k', v') :: dict_set k v r
  end.

(** *** Comparison *)

(** The numeric value of [bool], [int] and [float] objects, and of
    [float('inf')]. *)
Inductive number := Dyadic (m e : Z) | PosInf.

Definition as_number (v : json) : option number :=
  match v with
  | JBool b => Some (Dyadic (if b then 1 else 0) 0)
  | JInt z => Some (Dyadic z 0)
  | JFloat m e => Some (Dyadic m e)
  | _ => None
  end.

Definition scale (m e base : Z) : Z := (m * 2 ^ (e - base))%Z.

Definition num_lt (a b : number) : bool :=
  match a, b with
  | Dyadic m1 e1, Dyadic m2 e2 =>
      let base := Z.min e1 e2 in (scale m1 e1 base <? scale m2 e2 base)%Z
  | Dyadic _ _, PosInf => true
  | PosInf, _ => false
  end.

Definition num_eq (a b : number) : bool :=
  match a, b with
  | Dyadic m1 e1, Dyadic m2 e2 =>
      let base := Z.min e1 e2 in (scale m1 e1 base =? scale m2 e2 base)%Z
  | PosInf, PosInf => true
  | _, _ => false
  end.

(** [a == b] *)
Fixpoint py_eq (a b : json) : bool :=
  match a, b with
  | JNull, JNull => true
  | JStr s, JStr t => String.eqb s t
  | JArr l1, JArr l2 =>
      (fix all2 (l1 l2 : list json) : bool :=
         match l1, l2 with
         | [], [] => true
         | x :: xs, y :: ys => py_eq x y && all2 xs ys
         | _, _ => false
         end) l1 l2
  | JObj d1, JObj d2 =>
      (List.length d1 =? List.length d2)%nat
      && (fix sub (d : list (string * json)) : bool :=
            match d with
            | [] => true
            | (k, v) :: r =>
                match dict_get k d2 with
                | Some w => py_eq v w && sub r
                | None => false
                end
            end) d1
  | _, _ =>
      match as_number a, as_number b with
      | Some x, Some y => num_eq x y
      | _, _ => false
      end
  end.

Definition not_supported (op a b : string) : exn :=
  Exn "TypeError"
      ("'" ++ op ++ "' not supported between instances of '"
           ++ a ++ "' and '" ++ b ++ "'").

(** [a < b] *)
Fixpoint py_lt (a b : json) : result bool :=
  match a, b with
  | JStr s, JStr t => Ok (String.ltb s t)
  | JArr l1, JArr l2 =>
      (fix lex (l1 l2 : list json) : result bool :=
         match l1, l2 with
         | x :: xs, y :: ys => if py_eq x y then lex xs ys else py_lt x y
         | [], _ :: _ => Ok true
         | _, [] => Ok false
         end) l1 l2
  | _, _ =>
      match as_number a, as_number b with
      | Some x, Some y => Ok (num_lt x y)
      | _, _ => Raise (not_supported "<" (type_name a) (type_name b))
      end
  end.

(** A sort key: a value, or the default [float('inf')]. *)
Inductive sort_key := KVal (v : json) | KInf.

Definition key_lt (a b : sort_key) : result bool :=
  match a, b with
  | KVal x, KVal y => py_lt x y
  | KInf, KInf => Ok false
  | KVal x, KInf =>
      match as_number x with
      | Some n => Ok (num_lt n PosInf)
      | None => Raise (not_supported "<" (type_name x) "float")
      end
  | KInf, KVal y =>
      match as_number y with
      | Some n => Ok (num_lt PosInf n)
      | None => Raise (not_supported "<" "float" (type_name y))
      end
  end.

(** The position of a key among integers, with [float('inf')] above them
    all: [Some z] for the integer [z], [None] for infinity. *)
Definition key_rank (k : sort_key) : option Z :=
  match k with
  | KVal (JInt z) => Some z
  | _ => None
  end.

(** The keys the pages of a run normally carry. *)
Definition orderable (k : sort_key) : Prop :=
  match k with
  | KVal (JInt _) | KInf => True
  | _ => False
  end.

Definition rank_ltb (a b : option Z) : bool :=
  match a, b with
  | Some x, Some y => (x <? y)%Z
  | Some _, None => true
  | None, _ => false
  end.

Definition rank_le (a b : option Z) : Prop := rank_ltb b a = false.

(** A keyed element, with the element replaced by its image. *)
Definition relabel {A B : Type} (f : A -> B) (x : sort_key * A) : sort_key * B :=
  (fst x, f (snd x)).

(** *** [list.sort(key=...)]

    The sort is stable and uses [<] on keys only; a comparison that raises
    aborts it.  Timsort's schedule of comparisons is rendered as a stable
    insertion: each element is placed in front of the sorted remainder,
    behind the elements whose key is strictly smaller. *)
Section Sort.
Context {A : Type}.

Fixpoint insert_sorted (x : sort_key * A) (l : list (sort_key * A))
  : result (list (sort_key * A)) :=
  match l with
  | [] => Ok [x]
  | y :: r =>
      b <- key_lt (fst y) (fst x) ;;
      if b : bool then (r' <- insert_sorted x r ;; Ok (y :: r'))
      else Ok (x :: y :: r)
  end.

Fixpoint sort_keyed (l : list (sort_key * A)) : result (list (sort_key * A)) :=
  match l with
  | [] => Ok []
  | x :: r => s <- sort_keyed r ;; insert_sorted x s
  end.

(** The keys are computed for every element before any comparison. *)
Fixpoint decorate (key : A -> result sort_key) (l : list A)
  : result (list (sort_key * A)) :=
  match l with
  | [] => Ok []
  | x :: r => k <- key x ;; d <- decorate key r ;; Ok ((k, x) :: d)
  end.

Definition sort_by (key : A -> result sort_key) (l : list A) : result (list A) :=
  d <- decorate key l ;;
  s <- sort_keyed d ;;
  Ok (map snd s).
End Sort.

(** Ascending order of the keys of keyed elements. *)
Definition key_le {A : Type} (a b : sort_key * A) : Prop :=
  rank_le (key_rank (fst a)) (key_rank (fst b)).

Definition all_orderable {A : Type} (l : list (sort_key * A)) : Prop :=
  Forall (fun x => orderable (fst x)) l.

End Py.

(* ================================================================= *)
(** ** Page Result Aggregator: [combiner/lambda_function.py] *)

Module Combiner.
Import Py.

Definition nl : string := String (ascii_of_nat 10) EmptyString.
Definition dq : string := String (ascii_of_nat 34) EmptyString.

(** The module-level configuration and the collaborators of the handler. *)
Record env := Env {
  BUCKET_NAME : option string;
  FINAL_OUTPUT_PREFIX : string;
  (** [s3_client.get_object(Bucket, Key)['Body'].read().decode('utf-8')] *)
  get_object_text : string -> result string;
  json_loads : string -> result json;
  (** [json.dumps(v)]; used with [indent=2] for the aggregate *)
  json_dumps : json -> string;
  (** [s3_client.put_object(Bucket, Key, Body, ContentType)] *)
  put_object : string -> string -> string -> result unit
}.

(** *** Helper functions *)

Definition part_is (p : option string) (s : string) : bool :=
  match p with Some t => String.eqb t s | None => false end.

Definition int_of_part (p : option string) : option Z :=
  match p with Some t => PyStr.py_int t | None => None end.

(** [ValueError] and [IndexError] are caught: the answer is then [None]. *)
Definition extract_page_number_from_path (file_path_str : string) : option Z :=
  let parts := PyStr.split_on "_" (PyStr.path_stem file_path_str) in
  if (3 <=? List.length parts)%nat && part_is (PyStr.neg_index parts 2) "page"
  then int_of_part (PyStr.neg_index parts 1)
  else if (4 <=? List.length parts)%nat
          && part_is (PyStr.neg_index parts 3) "page"
          && part_is (PyStr.neg_index parts 1) "result"
  then int_of_part (PyStr.neg_index parts 2)
  else None.

Definition validate_and_extract_page_data (page_data : json) : bool * dict :=
  match page_data with
  | JObj d =>
      if negb (dict_has "grounded_output" d)
      then (false, [("error", JStr "Missing 'grounded_output' key")])
      else if negb (dict_has "output_format" d)
      then (false, [("error", JStr "Missing 'output_format' key")])
      else
        (true,
         [ ("page_number", dict_get_default "page_number" JNull d);
           ("original_image_s3_uri", dict_get_default "original_image_s3_uri" JNull d);
           ("original_raw_text_s3_uri",
            dict_get_default "original_raw_text_s3_uri" JNull d);
           ("output_format", dict_get_default "output_format" JNull d);
           ("grounded_output", dict_get_default "grounded_output" JNull d);
           ("extracted_output", dict_get_default "extracted_output" JNull d);
           ("image_descriptions", dict_get_default "image_descriptions" (JArr []) d) ])
  | _ => (false, [("error", JStr "Data is not a dictionary")])
  end.

(** [v.lower()]: only a [str] has the method. *)
Definition method_lower (v : json) : result string :=
  match v with
  | JStr s => Ok (PyStr.lower s)
  | _ => Raise (Exn "AttributeError"
                    ("'" ++ type_name v ++ "' object has no attribute 'lower'"))
  end.

(** The text of a message held in a dictionary. *)
Definition message_text (v : json) : string :=
  match v with JStr s => s | _ => EmptyString end.

(** *** Rendering: [generate_format_from_json] *)

Definition supported_formats : list string := ["markdown"; "html"; "txt"].

Definition in_list (s : string) (l : list string) : bool :=
  existsb (String.eqb s) l.

Definition no_attribute (v : json) (attr : string) : exn :=
  Exn "AttributeError"
      ("'" ++ type_name v ++ "' object has no attribute '" ++ attr ++ "'").

(** [x.get('page_number', float('inf'))] on a dictionary *)
Definition page_key (d : dict) : sort_key :=
  match dict_get "page_number" d with Some v => KVal v | None => KInf end.

(** [lambda x: x.get('page_number', float('inf'))] *)
Definition page_sort_key (x : json) : result sort_key :=
  match x with
  | JObj d => Ok (page_key d)
  | _ => Raise (no_attribute x "get")
  end.

Section Render.
Variable dumps : json -> string.

(** The loop over the pages: a page without grounded output is skipped,
    a string is appended as it is, anything else is serialised. *)
Fixpoint collect_parts (pages : list json) (output_parts : list string)
  : result (list string) :=
  match pages with
  | [] => Ok output_parts
  | page :: rest =>
      match page with
      | JObj d =>
          _ <- method_lower (dict_get_default "output_format" (JStr "") d) ;;
          let grounded_output := dict_get_default "grounded_output" JNull d in
          if negb (truthy grounded_output) then collect_parts rest output_parts
          else
            match grounded_output with
            | JStr s => collect_parts rest (output_parts ++ [s])
            | v => collect_parts rest (output_parts ++ [dumps v])
            end
      | _ => Raise (no_attribute page "get")
      end
  end.

(** What one page contributes to [output_parts]. *)
Definition page_part (page : dict) : list string :=
  let grounded_output := dict_get_default "grounded_output" JNull page in
  if truthy grounded_output
  then [match grounded_output with JStr s => s | v => dumps v end]
  else [].

Definition html_head : string :=
  "<!DOCTYPE html>" ++ nl ++ "<html>" ++ nl ++ "<head>" ++ nl
    ++ "<meta charset=" ++ dq ++ "UTF-8" ++ dq ++ ">" ++ nl
    ++ "<title>Document</title>" ++ nl ++ "</head>" ++ nl ++ "<body>" ++ nl.

Definition html_foot : string := nl ++ "</body>" ++ nl ++ "</html>".

Definition page_div (i : nat) (part : string) : string :=
  "<div class=" ++ dq ++ "page" ++ dq ++ " id=" ++ dq ++ "page-"
    ++ PyStr.str_of_Z (Z.of_nat i + 1) ++ dq ++ ">" ++ nl ++ part ++ nl ++ "</div>".

(** [for i, part in enumerate(output_parts): page_divs.append(...)] *)
Fixpoint number_divs (i : nat) (output_parts : list string) (page_divs : list string)
  : list string :=
  match output_parts with
  | [] => page_divs
  | part :: rest => number_divs (S i) rest (page_divs ++ [page_div i part])
  end.

Definition page_separator : string := nl ++ nl ++ "---" ++ nl ++ nl.

Definition join_parts (output_format_lower : string) (output_parts : list string)
  : option string :=
  if String.eqb output_format_lower "markdown"
  then Some (String.concat page_separator output_parts)
  else if String.eqb output_format_lower "html"
  then Some (html_head ++ String.concat nl (number_divs 0 output_parts [])
                       ++ html_foot)%string
  else if String.eqb output_format_lower "txt"
  then Some (String.concat (nl ++ nl)%string output_parts)
  else None.

(** The body of the [try]. *)
Definition generate_body (aggregated_json_data : json) (output_format : string)
  : result (option string) :=
  match aggregated_json_data with
  | JObj d =>
      let pages := dict_get_default "pages" (JArr []) d in
      if negb (truthy pages) then Ok None
      else
        match pages with
        | JArr items =>
            sorted <- sort_by page_sort_key items ;;
            output_parts <- collect_parts sorted [] ;;
            Ok (join_parts (PyStr.lower output_format) output_parts)
        | _ => Raise (no_attribute pages "sort")
        end
  | _ => Raise (no_attribute aggregated_json_data "get")
  end.

(** Every exception of the body is caught and turned into [None]. *)
Definition generate_format_from_json (aggregated_json_data : json)
           (output_format : string) : option string :=
  if negb (in_list output_format supported_formats) then None
  else match generate_body aggregated_json_data output_format with
       | Ok r => r
       | Raise _ => None
       end.
End Render.

(** A page whose [output_format], when there is one, is a string. *)
Definition format_is_text (page : dict) : Prop :=
  exists f, dict_get_default "output_format" (JStr "") page = JStr f.

(** Whether the grounded output of a page is a non-empty string. *)
Definition carries_text (page : dict) : bool :=
  match dict_get "grounded_output" page with
  | Some (JStr s) => negb (String.eqb s "")
  | _ => false
  end.

(** The grounded output of a page, when it is a string. *)
Definition grounded_text (page : dict) : string :=
  match dict_get "grounded_output" page with
  | Some (JStr s) => s
  | _ => EmptyString
  end.

(** Ascending order of page numbers, pages without one last. *)
Definition page_order (p q : dict) : Prop :=
  rank_le (key_rank (page_key p)) (key_rank (page_key q)).

(** *** The handler *)

Record event := Event {
  run_uuid : string;
  s3_page_result_uris : list string;
  original_base_filename : string;
  original_s3_uri : string;
  output_format : string
}.

Record load_error := LoadError {
  s3_uri : string;
  reason : string;
  page_num_estimated : option Z
}.

(** The four variables the loading loop updates. *)
Record load_state := LoadState {
  combined_pages_data : list dict;
  load_errors : list load_error;
  successful_page_count : nat;
  encountered_formats : list string
}.

Definition initial_state : load_state := LoadState [] [] 0 [].

(** [set.add] *)
Definition set_add (s : string) (l : list string) : list string :=
  if in_list s l then l else l ++ [s].

Fixpoint insert_string (s : string) (l : list string) : list string :=
  match l with
  | [] => [s]
  | t :: r => if String.leb s t then s :: l else t :: insert_string s r
  end.

(** [sorted(list(formats))] *)
Definition sorted_strings (l : list string) : list string :=
  fold_right insert_string [] l.

Record put_request := Put {
  put_key : string;
  put_body : string;
  put_content_type : string
}.

Record response := Response {
  resp_run_uuid : string;
  final_outputs_s3_uris : list (string * string);
  status : string;
  summary : list (string * Z)
}.

(** How an invocation ends: an HTTP-style error object, the regular
    response, or an exception that leaves the handler. *)
Inductive handler_result :=
| HttpError (statusCode : Z) (body : string)
| Returned (r : response)
| Uncaught (e : exn).

Section Handler.
Variable E : env.
(** The value of [BUCKET_NAME], once known to be set. *)
Variable bucket : string.

(** The first half of the [try] for one reference: download, parse,
    validate, and read the page format.  It does not depend on the loop
    variables. *)
Definition fetch_page (s3_key : string) : result (dict * string) :=
  page_data_str <- get_object_text E s3_key ;;
  page_data_loaded <- json_loads E page_data_str ;;
  let (is_valid, extracted_data) :=
    validate_and_extract_page_data page_data_loaded in
  if negb is_valid
  then Raise (Exn "ValueError"
                  (message_text
                     (dict_get_default "error" (JStr "Invalid page data structure")
                                       extracted_data)))
  else
    page_format <-
      method_lower (dict_get_default "output_format" (JStr "unknown") extracted_data) ;;
    Ok (extracted_data, page_format).

(** "Set page number if missing": the number of the page itself, else the
    estimate from the reference, else the count of pages loaded so far
    plus one. *)
Definition backfill_page_number (extracted_data : dict)
           (page_num_estimated : option Z) (successful_page_count : nat) : dict :=
  match dict_get_default "page_number" JNull extracted_data with
  | JNull =>
      match page_num_estimated with
      | Some n => dict_set "page_number" (JInt n) extracted_data
      | None =>
          dict_set "page_number" (JInt (Z.of_nat successful_page_count + 1))
                   extracted_data
      end
  | _ => extracted_data
  end.

(** The body of the [try] for one reference. *)
Definition load_page (st : load_state) (s3_key : string)
           (page_num_estimated : option Z) : result load_state :=
  fetched <- fetch_page s3_key ;;
  let extracted_data :=
    backfill_page_number (fst fetched) page_num_estimated (successful_page_count st) in
  Ok (LoadState (combined_pages_data st ++ [extracted_data])
                (load_errors st)
                (S (successful_page_count st))
                (set_add (snd fetched) (encountered_formats st))).

(** The key a reference is fetched under. *)
Definition s3_key_of (result_uri : string) : string :=
  PyStr.remove_all ("s3://" ++ bucket ++ "/") result_uri.

(** The record appended by the [except] clause. *)
Definition error_record (result_uri : string) (e : exn)
           (page_num_estimated : option Z) : load_error :=
  LoadError result_uri
            ("Failed to load/process result from " ++ result_uri ++ ": " ++ exn_msg e)
            page_num_estimated.

(** Whether the [try] for a reference runs to its end. *)
Definition loads (result_uri : string) : bool :=
  match fetch_page (s3_key_of result_uri) with
  | Ok _ => true
  | Raise _ => false
  end.

(** One iteration of [for result_uri in s3_page_result_uris]. *)
Definition process_uri (st : load_state) (result_uri : string) : load_state :=
  let s3_key := s3_key_of result_uri in
  let page_num_estimated := extract_page_number_from_path s3_key in
  match load_page st s3_key page_num_estimated with
  | Ok st' => st'
  | Raise e =>
      LoadState (combined_pages_data st)
                (load_errors st ++ [error_record result_uri e page_num_estimated])
                (successful_page_count st)
                (encountered_formats st)
  end.

(** What a reference contributes, seen from outside the loop: the error
    record when its [try] fails ... *)
Definition error_of (result_uri : string) : list load_error :=
  match fetch_page (s3_key_of result_uri) with
  | Ok _ => []
  | Raise e =>
      [error_record result_uri e (extract_page_number_from_path (s3_key_of result_uri))]
  end.

(** ... and the page when it succeeds, numbered as it is after
    [successful_page_count] pages. *)
Definition page_of (successful_page_count : nat) (result_uri : string) : list dict :=
  match fetch_page (s3_key_of result_uri) with
  | Ok fetched =>
      [backfill_page_number (fst fetched)
                            (extract_page_number_from_path (s3_key_of result_uri))
                            successful_page_count]
  | Raise _ => []
  end.

(** A reference whose page, if it loads, is numbered by its content or by
    its name, and so without recourse to the counter. *)
Definition counter_free (result_uri : string) : Prop :=
  forall extracted_data page_format,
    fetch_page (s3_key_of result_uri) = Ok (extracted_data, page_format) ->
    dict_get_default "page_number" JNull extracted_data <> JNull
    \/ extract_page_number_from_path (s3_key_of result_uri) <> None.

Definition load_all (uris : list string) : load_state :=
  fold_left process_uri uris initial_state.

(** The pages of a run, after [combined_pages_data.sort(...)]. *)
Definition sorted_pages (uris : list string) : result (list dict) :=
  sort_by (fun x => page_sort_key (JObj x)) (combined_pages_data (load_all uris)).

Definition processing_status (st : load_state) (uris : list string) : string :=
  let processing_status := "Completed" in
  let processing_status :=
    match load_errors st with
    | [] => processing_status
    | _ :: _ => "CompletedWithErrors"
    end in
  if (successful_page_count st =? 0)%nat && (0 <? List.length uris)%nat
  then "Failed" else processing_status.

Definition json_of_error (e : load_error) : json :=
  JObj [ ("s3_uri", JStr (s3_uri e));
         ("reason", JStr (reason e));
         ("page_num_estimated",
          match page_num_estimated e with Some n => JInt n | None => JNull end) ].

Definition len {A : Type} (l : list A) : Z := Z.of_nat (List.length l).

Definition aggregated_json (ev : event) (st : load_state) (pages : list dict)
  : json :=
  JObj [ ("document_metadata",
          JObj [ ("run_uuid", JStr (run_uuid ev));
                 ("original_s3_uri", JStr (original_s3_uri ev));
                 ("original_base_filename", JStr (original_base_filename ev));
                 ("total_pages_input_to_combiner", JInt (len (s3_page_result_uris ev)));
                 ("successful_pages_loaded",
                  JInt (Z.of_nat (successful_page_count st)));
                 ("page_load_errors", JInt (len (load_errors st)));
                 ("processing_status",
                  JStr (processing_status st (s3_page_result_uris ev)));
                 ("requested_output_format", JStr (output_format ev));
                 ("formats_in_page_results",
                  JArr (map JStr (sorted_strings (encountered_formats st)))) ]);
         ("pages", JArr (map JObj pages));
         ("errors_encountered_during_load", JArr (map json_of_error (load_errors st))) ].

Definition format_extension (fmt : string) : string :=
  if String.eqb fmt "markdown" then ".md"
  else if String.eqb fmt "html" then ".html"
  else ".txt".

Definition format_content_type (fmt : string) : string :=
  if String.eqb fmt "markdown" then "text/markdown"
  else if String.eqb fmt "html" then "text/html"
  else "text/plain".

(** Step 4b: the rendered artifact.  Returns the entry added to
    [final_output_s3_uris] and the upload attempted, if any; nothing it
    does touches [save_error_occurred]. *)
Definition render_and_upload (ev : event) (aggregated_json_data : json)
  : list (string * string) * list put_request :=
  let requested_format_lower := PyStr.lower (output_format ev) in
  if in_list requested_format_lower supported_formats then
    match generate_format_from_json (json_dumps E) aggregated_json_data
                                    requested_format_lower with
    | Some generated_content =>
        if String.eqb generated_content "" then ([], [])
        else
          let s3_format_key :=
            (FINAL_OUTPUT_PREFIX E ++ "/" ++ run_uuid ev ++ "/"
               ++ original_base_filename ev ++ "_combined"
               ++ format_extension requested_format_lower)%string in
          let content_type := format_content_type requested_format_lower in
          let attempt := [Put s3_format_key generated_content content_type] in
          match put_object E s3_format_key generated_content content_type with
          | Ok _ =>
              ([(requested_format_lower,
                 ("s3://" ++ bucket ++ "/" ++ s3_format_key)%string)], attempt)
          | Raise _ => ([], attempt)
          end
    | None => ([], [])
    end
  else ([], []).

Definition final_status (processing_status : string) (save_error_occurred : bool)
  : string :=
  if String.eqb processing_status "Failed" || save_error_occurred then "Failure"
  else if String.eqb processing_status "CompletedWithErrors" then "SuccessWithErrors"
  else "Success".

(** [f"{s3_final_output_prefix_run}{json_filename}"] *)
Definition s3_final_key_of (ev : event) : string :=
  FINAL_OUTPUT_PREFIX E ++ "/" ++ run_uuid ev ++ "/"
    ++ original_base_filename ev ++ "_aggregated_results.json".

(** The handler past the configuration check, for a non-empty list of
    references.  The second component lists the uploads attempted. *)
Definition combine (ev : event) : handler_result * list put_request :=
  let uris := s3_page_result_uris ev in
  let st := load_all uris in
  match sort_by (fun x => page_sort_key (JObj x)) (combined_pages_data st) with
  | Raise e => (Uncaught e, [])
  | Ok pages =>
      let processing_status := processing_status st uris in
      let aggregated_json_data := aggregated_json ev st pages in
      let s3_final_key := s3_final_key_of ev in
      let body := json_dumps E aggregated_json_data in
      let json_put := Put s3_final_key body "application/json" in
      let '(json_uris, save_error_occurred) :=
        match put_object E s3_final_key body "application/json" with
        | Ok _ => ([("json", ("s3://" ++ bucket ++ "/" ++ s3_final_key)%string)], false)
        | Raise _ => ([], true)
        end in
      let '(format_uris, format_puts) := render_and_upload ev aggregated_json_data in
      (Returned
         (Response (run_uuid ev)
                   (json_uris ++ format_uris)
                   (final_status processing_status save_error_occurred)
                   [ ("total_pages_input", len uris);
                     ("successful_pages_loaded",
                      Z.of_nat (successful_page_count st));
                     ("load_error_count", len (load_errors st)) ]),
       json_put :: format_puts)
  end.
End Handler.

(** The same configuration and collaborators, with another blob-store
    upload. *)
Definition with_put_object (E : env)
           (put : string -> string -> string -> result unit) : env :=
  Env (BUCKET_NAME E) (FINAL_OUTPUT_PREFIX E) (get_object_text E) (json_loads E)
      (json_dumps E) put.

(** Whether the upload of the structured aggregate raises. *)
Definition save_error (E : env) (ev : event) (st : load_state) (pages : list dict)
  : bool :=
  match put_object E (s3_final_key_of E ev) (json_dumps E (aggregated_json ev st pages))
                   "application/json" with
  | Ok _ => false
  | Raise _ => true
  end.


Definition lambda_handler (E : env) (ev : event) : handler_result * list put_request :=
  match BUCKET_NAME E with
  | None | Some EmptyString =>
      (HttpError 500 (json_dumps E (JStr "Error: S3_BUCKET_NAME not configured.")), [])
  | Some bucket =>
      match s3_page_result_uris ev with
      | [] =>
          (Returned
             (Response (run_uuid ev) [] "Success"
                       [ ("total_pages_input", 0%Z);
                         ("successful_pages", 0%Z);
                         ("error_count", 0%Z) ]),
           [])
      | _ :: _ => combine E bucket ev
      end
  end.

End Combiner.

(* ================================================================= *)
(** ** Region Detector Adapter: [page_processor/yolo_inference.py] *)

Module Detector.

Section Detector.
(** Images, pixel coordinates and confidence scores are kept abstract:
    the adapter only moves them around and hands them to the runtime. *)
Variables image coord score : Type.

Definition box := list coord.

(** One row [x1, y1, x2, y2, confidence, class_id] of the model output,
    the class already cast to [int]. *)
Record raw_detection := RawDetection {
  raw_box : box;
  confidence : score;
  class_id : Z
}.

(** The shape of [outputs[0][0]]; an array of three or more dimensions is
    not represented. *)
Inductive model_output :=
| Rows (rows : list raw_detection)   (* two-dimensional, six columns *)
| Flat                               (* empty or one-dimensional otherwise *)
| OtherColumns.                      (* a second dimension that is not 6 *)

Record env := Env {
  (** model loading, preprocessing and [session.run]; [None] when any of
      them raises or the image is invalid *)
  infer : image -> option model_output;
  (** [confidences >= conf_thres] *)
  score_ge : score -> score -> bool;
  (** rescaling to the page image and clipping to its bounds *)
  rescale_clip : image -> box -> box;
  (** the drawing of [draw_indexed_detections]; [None] when it raises *)
  draw : image -> list box -> option image
}.

Variable E : env.

(** [indices.append(i + 1)] for [i, box in enumerate(boxes)] *)
Definition one_based_indices (boxes : list box) : list Z :=
  map (fun i => Z.of_nat i + 1)%Z (seq 0 (List.length boxes)).

Definition draw_indexed_detections (img : image) (boxes : list box)
  : option (image * list Z) :=
  match draw E img boxes with
  | Some img_copy => Some (img_copy, one_based_indices boxes)
  | None => None
  end.

Definition keep (conf_thres : score) (target_class_id : option Z)
           (d : raw_detection) : bool :=
  score_ge E (confidence d) conf_thres
  && match target_class_id with
     | Some c => (class_id d =? c)%Z
     | None => true
     end.

(** [None] stands for the triple [(None, None, None)].  With no row kept,
    the annotated image is [image.copy()], the image itself. *)
Definition run_yolo_inference (img : image) (conf_thres : score)
           (target_class_id : option Z) : option (image * list box * list Z) :=
  match infer E img with
  | None => None
  | Some OtherColumns => None
  | Some Flat =>
      (* [boxes_raw] is a one-dimensional empty array: [boxes_raw[mask, :]]
         raises [IndexError], which the postprocessing handler catches *)
      None
  | Some (Rows rows) =>
      match filter (keep conf_thres target_class_id) rows with
      | [] => Some (img, [], [])
      | filtered =>
          let boxes_list := map (fun d => rescale_clip E img (raw_box d)) filtered in
          match draw_indexed_detections img boxes_list with
          | Some (annotated_image, indices) =>
              Some (annotated_image, boxes_list, indices)
          | None => None
          end
      end
  end.
End Detector.

End Detector.

(* ================================================================= *)
(** ** Extraction Engine: [page_processor/utils.py] and
       [page_processor/lambda_function.py] *)

Module PageProcessor.
Import Py.

Definition dq : string := String (ascii_of_nat 34) EmptyString.

(** *** [utils.cleanup_gemini_response] *)

Definition generic_fence : string := "```".

(** [format_fences.get(output_format)] *)
Definition format_fence (output_format : string) : option string :=
  if String.eqb output_format "json" then Some "```json"
  else if String.eqb output_format "markdown" then Some "```markdown"
  else if String.eqb output_format "html" then Some "```html"
  else None.

(** Drop a start fence that is known to be there, then the end fence if
    there is one. *)
Definition unwrap (start_fence text : string) : string :=
  let text := PyStr.strip (PyStr.drop (String.length start_fence) text) in
  if PyStr.endswith text generic_fence
  then PyStr.strip (PyStr.drop_last (String.length generic_fence) text)
  else text.

Definition starts_with_format_fence (text output_format : string) : option string :=
  match format_fence output_format with
  | Some start_fence =>
      if PyStr.startswith text start_fence then Some start_fence else None
  | None => None
  end.

Definition cleanup_gemini_response (text output_format : string) : string :=
  let text := PyStr.strip text in
  match starts_with_format_fence text output_format with
  | Some start_fence => unwrap start_fence text
  | None =>
      if PyStr.startswith text generic_fence then unwrap generic_fence text
      else text
  end.

(** *** [_clean_description_tokens] *)

Definition START_DESCRIPTION : string := "[START DESCRIPTION]".
Definition END_DESCRIPTION : string := "[END DESCRIPTION]".

(** [re.sub(r'\[START DESCRIPTION\]|\[END DESCRIPTION\]', '', s)]: the two
    literal tokens are removed, scanning from the left. *)
Fixpoint strip_tokens_from (skip : nat) (s : string) : string :=
  match s with
  | EmptyString => EmptyString
  | String c r =>
      match skip with
      | S k => strip_tokens_from k r
      | O =>
          if String.prefix START_DESCRIPTION s
          then strip_tokens_from (String.length START_DESCRIPTION - 1) r
          else if String.prefix END_DESCRIPTION s
          then strip_tokens_from (String.length END_DESCRIPTION - 1) r
          else String c (strip_tokens_from 0 r)
      end
  end.

Definition strip_tokens (s : string) : string := strip_tokens_from 0 s.

(** The recursion through a parsed value: strings held directly by a
    dictionary or a list are cleaned, nested containers are visited, and
    every other value, a top-level string included, is returned as it is. *)
Fixpoint clean_parsed (data : json) : json :=
  match data with
  | JObj fields =>
      JObj ((fix each (l : list (string * json)) : list (string * json) :=
               match l with
               | [] => []
               | (k, v) :: r =>
                   (k, match v with
                       | JStr s => JStr (strip_tokens s)
                       | JObj _ | JArr _ => clean_parsed v
                       | _ => v
                       end) :: each r
               end) fields)
  | JArr items =>
      JArr ((fix each (l : list json) : list json :=
               match l with
               | [] => []
               | v :: r =>
                   match v with
                   | JStr s => JStr (strip_tokens s)
                   | JObj _ | JArr _ => clean_parsed v
                   | _ => v
                   end :: each r
               end) items)
  | _ => data
  end.

(** *** Dictionaries keyed by detection index *)

Section IndexDict.
Context {V : Type}.

Definition idict := list (Z * V).

Fixpoint idict_get (k : Z) (d : idict) : option V :=
  match d with
  | [] => None
  | (k', v) :: r => if (k =? k')%Z then Some v else idict_get k r
  end.

Fixpoint idict_set (k : Z) (v : V) (d : idict) : idict :=
  match d with
  | [] => [(k, v)]
  | (k', v') :: r =>
      if (k =? k')%Z then (k, v) :: r else (k', v') :: idict_set k v r
  end.

(** [{idx: box for idx, box in zip(indices, boxes)}]: a later pair
    replaces an earlier one with the same index. *)
Definition dict_of_zip (keys : list Z) (values : list V) : idict :=
  fold_left (fun d kv => idict_set (fst kv) (snd kv) d) (combine keys values) [].
End IndexDict.
Arguments idict V : clear implicits.

(** The [int] key a value is equal to, if it is hashable: [True == 1] and
    [2.0 == 2] find the entries of [1] and [2]. *)
Definition as_index_key (v : json) : result (option Z) :=
  match v with
  | JArr _ | JObj _ =>
      Raise (Exn "TypeError" ("unhashable type: '" ++ type_name v ++ "'"))
  | JBool b => Ok (Some (if b then 1 else 0)%Z)
  | JInt z => Ok (Some z)
  | JFloat m e =>
      if (0 <=? e)%Z then Ok (Some (m * 2 ^ e)%Z)
      else if (m mod 2 ^ (- e) =? 0)%Z then Ok (Some (m / 2 ^ (- e))%Z)
      else Ok None
  | _ => Ok None
  end.

(** [needle in s] for strings *)
Fixpoint contains (needle s : string) : bool :=
  String.prefix needle s
  || match s with
     | EmptyString => false
     | String _ r => contains needle r
     end.

Definition not_iterable (v : json) : exn :=
  Exn "TypeError" ("argument of type '" ++ type_name v ++ "' is not iterable").

(** ["page_content" in data] *)
Definition has_page_content (data : json) : result bool :=
  match data with
  | JObj d => Ok (dict_has "page_content" d)
  | JArr items => Ok (existsb (py_eq (JStr "page_content")) items)
  | JStr s => Ok (contains "page_content" s)
  | _ => Raise (not_iterable data)
  end.

(** [data["page_content"]], once the membership test has succeeded *)
Definition page_content_of (data : json) : result json :=
  match data with
  | JObj d =>
      match dict_get "page_content" d with
      | Some v => Ok v
      | None => Raise (Exn "KeyError" "'page_content'")
      end
  | JArr _ => Raise (Exn "TypeError" "list indices must be integers or slices, not str")
  | JStr _ => Raise (Exn "TypeError" "string indices must be integers, not 'str'")
  | _ => Raise (Exn "TypeError"
                    ("'" ++ type_name data ++ "' object is not subscriptable"))
  end.

Fixpoint chars (s : string) : list json :=
  match s with
  | EmptyString => []
  | String c r => JStr (String c EmptyString) :: chars r
  end.

(** [for item in v] *)
Definition iterate (v : json) : result (list json) :=
  match v with
  | JArr items => Ok items
  | JObj d => Ok (map (fun kv => JStr (fst kv)) d)
  | JStr s => Ok (chars s)
  | _ => Raise (Exn "TypeError" ("'" ++ type_name v ++ "' object is not iterable"))
  end.

(** The four patterns, with the index interpolated. *)
Definition description_body : string :=
  ":\s*\[START DESCRIPTION\](.*?)\[END DESCRIPTION\]".

Definition markdown_pattern (idx : string) : string :=
  "Image #" ++ idx ++ description_body.

Definition html_pattern (idx : string) : string :=
  "data-image-id=" ++ dq ++ idx ++ dq ++ "[^>]*>\[Image #" ++ idx
    ++ description_body ++ "\]".

Definition txt_pattern (idx : string) : string :=
  "\[Image #" ++ idx ++ description_body ++ "\]".

Definition json_pattern (idx : string) : string :=
  dq ++ "image_id" ++ dq ++ ":\s*" ++ idx ++ "[^}]*" ++ dq ++ "description" ++ dq
     ++ ":\s*" ++ dq ++ "\s*\[START DESCRIPTION\](.*?)\[END DESCRIPTION\]\s*" ++ dq.

(** [patterns.get(output_format, <the markdown pattern>)] *)
Definition pattern_for (output_format idx : string) : string :=
  if String.eqb output_format "markdown" then markdown_pattern idx
  else if String.eqb output_format "html" then html_pattern idx
  else if String.eqb output_format "txt" then txt_pattern idx
  else if String.eqb output_format "json" then json_pattern idx
  else markdown_pattern idx.

(** *** The handler and its collaborators *)

Inductive prompt_template :=
| JSON_EXTRACTION_PROMPT
| TXT_EXTRACTION_PROMPT
| HTML_EXTRACTION_PROMPT
| MARKDOWN_EXTRACTION_PROMPT.

(** [prompt_mapping.get(output_format)] *)
Definition _get_prompt_for_format (output_format : string) : option prompt_template :=
  if String.eqb output_format "json" then Some JSON_EXTRACTION_PROMPT
  else if String.eqb output_format "txt" then Some TXT_EXTRACTION_PROMPT
  else if String.eqb output_format "html" then Some HTML_EXTRACTION_PROMPT
  else if String.eqb output_format "markdown" then Some MARKDOWN_EXTRACTION_PROMPT
  else None.

(** One call of [llm_apis.analyze_image]. *)
Record llm_call := LlmCall {
  prompt : string;
  with_image : bool
}.

Record event := Event {
  run_uuid : string;
  s3_image_uri : string;
  s3_raw_text_uri : option string;
  output_format : string;
  page_number : Z;
  original_base_filename : string
}.

Section Engine.
Variables image coord : Type.

Definition box := list coord.

Record image_description := ImageDescription {
  image_id : json;
  description : json;
  coordinates : box;
  cropped_image_path : option string
}.

Record env := Env {
  json_loads : string -> result json;
  (** [re.search(pattern, text, re.DOTALL | re.IGNORECASE)], as the text of
      group 1 of the match *)
  re_search : string -> string -> option string;
  (** [llm_apis.analyze_image]; it raises for an unknown provider *)
  analyze_image : llm_call -> result (option string);
  (** [template.format(num_images=..., max_image_index=...)] *)
  format_extraction_prompt : prompt_template -> Z -> Z -> string;
  (** [GROUNDING_PROMPT_TEXT.format(raw_text=..., extracted_text=...)] *)
  format_grounding_prompt : string -> string -> string;
  (** [run_yolo_inference] on the page image *)
  detect : image -> option (image * list box * list Z);
  (** step 2b: crops written to the store, by detection index *)
  crop_and_upload : image -> list box -> list Z -> result (idict string);
  (** [cv2.imencode(".jpg", annotated_image)] succeeds *)
  encode_jpeg : image -> bool;
  (** step 1: the download of the page image and the choice of the model
      file; then [cv2.imread] on the local copy, [None] when it fails *)
  read_image : string -> result (option image);
  (** step 1: the raw text behind a reference; empty when unreadable *)
  read_raw_text : string -> result string;
  (** the upload of the page result under a key *)
  write_result : string -> result unit;
  BUCKET_NAME : option string;
  PAGE_RESULTS_PREFIX : string
}.

Variable E : env.

(** [_clean_description_tokens(text, output_format)] on a string *)
Definition _clean_description_tokens (text output_format : string) : json :=
  if String.eqb output_format "json" then
    match json_loads E text with
    | Ok data => clean_parsed data
    | Raise _ => JStr (strip_tokens text)
    end
  else JStr (strip_tokens text).

(** [_format_output_based_on_type]: [json.loads] of a value that is not
    a string raises [TypeError], which is not caught. *)
Definition _format_output_based_on_type (output : json) (output_format : string)
  : result json :=
  if String.eqb output_format "json" then
    match output with
    | JObj _ => Ok output
    | JStr s =>
        match json_loads E s with
        | Ok v => Ok v
        | Raise _ => Ok output
        end
    | _ => Raise (Exn "TypeError"
                      ("the JSON object must be str, bytes or bytearray, not "
                         ++ type_name output))
    end
  else Ok output.

(** *** [utils._extract_image_descriptions] *)

(** The loop over [data["page_content"]]. *)
Fixpoint json_items (items : list json) (index_to_box : idict box)
         (cropped_image_paths : idict string)
         (image_descriptions : list image_description)
  : result (list image_description) :=
  match items with
  | [] => Ok image_descriptions
  | item :: rest =>
      match item with
      | JObj d =>
          if py_eq (dict_get_default "type" JNull d) (JStr "image_description")
          then
            let image_id := dict_get_default "image_id" JNull d in
            if truthy image_id then
              key <- as_index_key image_id ;;
              match key with
              | Some idx =>
                  match idict_get idx index_to_box with
                  | Some b =>
                      json_items rest index_to_box cropped_image_paths
                        (image_descriptions
                           ++ [ImageDescription image_id
                                  (dict_get_default "description" (JStr "") d)
                                  b
                                  (idict_get idx cropped_image_paths)])
                  | None =>
                      json_items rest index_to_box cropped_image_paths
                                 image_descriptions
                  end
              | None =>
                  json_items rest index_to_box cropped_image_paths image_descriptions
              end
            else json_items rest index_to_box cropped_image_paths image_descriptions
          else json_items rest index_to_box cropped_image_paths image_descriptions
      | _ => Raise (Exn "AttributeError"
                        ("'" ++ type_name item ++ "' object has no attribute 'get'"))
      end
  end.

(** The [try] of the JSON strategy.  A [JSONDecodeError] is caught; the
    [TypeError] and [AttributeError] of a value of another shape are not. *)
Definition json_strategy (output : string) (index_to_box : idict box)
           (cropped_image_paths : idict string) : result (list image_description) :=
  match json_loads E output with
  | Raise _ => Ok []
  | Ok data =>
      present <- has_page_content data ;;
      if present : bool then
        content <- page_content_of data ;;
        items <- iterate content ;;
        json_items items index_to_box cropped_image_paths []
      else Ok []
  end.

(** The loop [for idx in indices] of the text strategy. *)
Fixpoint text_strategy (output output_format : string) (indices : list Z)
         (index_to_box : idict box) (cropped_image_paths : idict string)
         (image_descriptions : list image_description) : list image_description :=
  match indices with
  | [] => image_descriptions
  | idx :: rest =>
      let pattern := pattern_for output_format (PyStr.str_of_Z idx) in
      match re_search E pattern output with
      | Some group1 =>
          text_strategy output output_format rest index_to_box cropped_image_paths
            (image_descriptions
               ++ [ImageDescription (JInt idx) (JStr (PyStr.strip group1))
                      (match idict_get idx index_to_box with
                       | Some b => b
                       | None => []
                       end)
                      (idict_get idx cropped_image_paths)])
      | None =>
          text_strategy output output_format rest index_to_box cropped_image_paths
                        image_descriptions
      end
  end.

Definition _extract_image_descriptions (output output_format : string)
           (boxes : list box) (indices : list Z)
           (cropped_image_paths : idict string) : result (list image_description) :=
  let index_to_box := dict_of_zip indices boxes in
  image_descriptions <-
    (if String.eqb output_format "json"
     then json_strategy output index_to_box cropped_image_paths
     else Ok []) ;;
  match image_descriptions with
  | [] => Ok (text_strategy output output_format indices index_to_box
                            cropped_image_paths [])
  | _ :: _ => Ok image_descriptions
  end.

(** What ties a description to a detection: its identifier is equal to a
    detection index, and its box and crop are the entries of that index. *)
Definition bound_to (index_to_box : idict box) (crops : idict string)
           (d : image_description) (idx : Z) : Prop :=
  as_index_key (image_id d) = Ok (Some idx)
  /\ coordinates d
     = match idict_get idx index_to_box with Some b => b | None => [] end
  /\ cropped_image_path d = idict_get idx crops.

(** *** [lambda_handler] *)

(** The dictionary written as the page result. *)
Record page_result := PageResult {
  res_run_uuid : string;
  res_page_number : json;
  res_original_base_filename : string;
  res_output_format : string;
  res_s3_image_uri : string;
  res_s3_raw_text_uri : option string;
  grounded_output : json;
  extracted_output : json;
  page_content_extracted : json;
  page_content_grounded : json;
  s3_detected_image_uris : idict string;
  image_descriptions : list image_description
}.

Inductive outcome :=
| HttpError (statusCode : Z) (message : string)
| Persisted (r : page_result) (s3_result_key : string)
| Uncaught (e : exn).

(** [max(indices) if indices else -1] *)
Definition max_image_index (indices : list Z) : Z :=
  match indices with
  | [] => (-1)%Z
  | i :: r => fold_left Z.max r i
  end.

(** Step 2e.  The second component lists the model calls made. *)
Definition ground (raw_text extracted_output output_format : string)
  : result json * list llm_call :=
  if negb (String.eqb raw_text "") then
    let call :=
      LlmCall (format_grounding_prompt E raw_text extracted_output) false in
    match analyze_image E call with
    | Raise e => (Raise e, [call])
    | Ok None | Ok (Some EmptyString) => (Ok (JStr extracted_output), [call])
    | Ok (Some raw_grounded_output) =>
        let grounded_output_cleaned :=
          cleanup_gemini_response raw_grounded_output output_format in
        (Ok (_clean_description_tokens grounded_output_cleaned output_format), [call])
    end
  else (Ok (_clean_description_tokens extracted_output output_format), []).

(** What steps 2a to 2e hand to step 3. *)
Record processed := Processed {
  p_extracted_output : string;
  p_grounded_output : json;
  p_cropped_image_s3_uris : idict string;
  p_image_descriptions : list image_description
}.

Definition extraction_failed : exn :=
  Exn "RuntimeError" "LLM extraction call failed or returned empty.".

(** Steps 2a to 2e, the body of the second [try]. *)
Definition process (ev : event) (img : image) (raw_text : string)
  : result processed * list llm_call :=
  match detect E img with
  | None => (Raise (Exn "RuntimeError" "YOLO inference failed"), [])
  | Some (annotated_image, boxes, indices) =>
      match (match indices with
             | [] => Ok []
             | _ :: _ => crop_and_upload E img boxes indices
             end) with
      | Raise e => (Raise e, [])
      | Ok cropped_image_s3_uris =>
          match _get_prompt_for_format (output_format ev) with
          | None =>
              (Raise (Exn "AttributeError"
                          "'NoneType' object has no attribute 'format'"), [])
          | Some prompt_template =>
              let prompt :=
                format_extraction_prompt E prompt_template
                  (Z.of_nat (List.length indices)) (max_image_index indices) in
              if negb (encode_jpeg E annotated_image)
              then (Raise (Exn "RuntimeError"
                               "Failed to encode annotated image to JPEG bytes"), [])
              else
                let call := LlmCall prompt true in
                match analyze_image E call with
                | Raise e => (Raise e, [call])
                | Ok None | Ok (Some EmptyString) => (Raise extraction_failed, [call])
                | Ok (Some raw_extracted_output) =>
                    let extracted_output :=
                      cleanup_gemini_response raw_extracted_output (output_format ev) in
                    let image_desc_input :=
                      if String.eqb (output_format ev) "json"
                      then raw_extracted_output else extracted_output in
                    match _extract_image_descriptions image_desc_input
                            (output_format ev) boxes indices cropped_image_s3_uris with
                    | Raise e => (Raise e, [call])
                    | Ok image_descriptions =>
                        let '(grounded, calls) :=
                          ground raw_text extracted_output (output_format ev) in
                        match grounded with
                        | Raise e => (Raise e, call :: calls)
                        | Ok grounded_output =>
                            (Ok (Processed extracted_output grounded_output
                                           cropped_image_s3_uris image_descriptions),
                             call :: calls)
                        end
                    end
                end
          end
      end
  end.

(** [_format_output_based_on_type(grounded_output, output_format)
     if grounded_output else None] *)
Definition persisted_grounded (grounded_output : json) (output_format : string)
  : result json :=
  if truthy grounded_output
  then _format_output_based_on_type grounded_output output_format
  else Ok JNull.

(** Step 3: the result dictionary. *)
Definition build_result (ev : event) (p : processed) : result page_result :=
  g <- persisted_grounded (p_grounded_output p) (output_format ev) ;;
  x <- _format_output_based_on_type (JStr (p_extracted_output p)) (output_format ev) ;;
  Ok (PageResult (run_uuid ev) (JInt (page_number ev)) (original_base_filename ev)
                 (output_format ev) (s3_image_uri ev) (s3_raw_text_uri ev)
                 g x x g (p_cropped_image_s3_uris p) (p_image_descriptions p)).

Definition result_filename (ev : event) : string :=
  original_base_filename ev ++ "_page_" ++ PyStr.str_of_Z (page_number ev)
    ++ "_results.json".

(** [Path('/tmp') / f"{run_uuid}_page_{page_number}_{Path(s3_image_uri).name}"] *)
Definition local_image_path (ev : event) : string :=
  "/tmp/" ++ run_uuid ev ++ "_page_" ++ PyStr.str_of_Z (page_number ev) ++ "_"
    ++ PyStr.path_name (s3_image_uri ev).

(** Step 2 from [cv2.imread] on. *)
Definition read_and_process (ev : event) (img : option image) (raw_text : string)
  : result processed * list llm_call :=
  match img with
  | Some img => process ev img raw_text
  | None =>
      (Raise (Exn "ValueError"
                  ("Failed to read image file: " ++ local_image_path ev)), [])
  end.

Definition lambda_handler (ev : event) : outcome * list llm_call :=
  match BUCKET_NAME E with
  | None | Some EmptyString => (HttpError 500 "Error: S3_BUCKET_NAME not configured.", [])
  | Some _ =>
      match (img <- read_image E (s3_image_uri ev) ;;
             raw_text <- match s3_raw_text_uri ev with
                         | Some uri => read_raw_text E uri
                         | None => Ok EmptyString
                         end ;;
             Ok (img, raw_text)) with
      | Raise e =>
          (HttpError 500 ("Error downloading inputs/model: " ++ exn_msg e), [])
      | Ok (img, raw_text) =>
          match read_and_process ev img raw_text with
          | (Raise e, calls) =>
              (HttpError 500 ("Error during page processing: " ++ exn_msg e), calls)
          | (Ok p, calls) =>
              match build_result ev p with
              | Raise e => (Uncaught e, calls)
              | Ok r =>
                  let s3_result_key :=
                    (PAGE_RESULTS_PREFIX E ++ "/" ++ run_uuid ev ++ "/"
                       ++ result_filename ev)%string in
                  match write_result E s3_result_key with
                  | Ok _ => (Persisted r s3_result_key, calls)
                  | Raise e => (Uncaught e, calls)
                  end
              end
          end
      end
  end.
End Engine.

End PageProcessor.

(* ================================================================= *)
(** ** Concrete runs *)

Module Fixtures.
Import Py.

Definition quoted (s : string) : string := Combiner.dq ++ s ++ Combiner.dq.

(** The text of a minimal page result, with or without its page number. *)
Definition page_body (number : option Z) (fmt grounded : string) : string :=
  "{"
    ++ match number with
       | Some n => quoted "page_number" ++ ": " ++ PyStr.str_of_Z n ++ ", "
       | None => EmptyString
       end
    ++ quoted "output_format" ++ ": " ++ quoted fmt ++ ", "
    ++ quoted "grounded_output" ++ ": " ++ quoted grounded ++ "}".

(** What [json.loads] makes of that text. *)
Definition page_value (number : option Z) (fmt grounded : string) : json :=
  JObj (match number with
        | Some n => [("page_number", JInt n)]
        | None => []
        end
        ++ [("output_format", JStr fmt); ("grounded_output", JStr grounded)]).

Fixpoint assoc {V : Type} (k : string) (l : list (string * V)) : option V :=
  match l with
  | [] => None
  | (k', v) :: r => if String.eqb k k' then Some v else assoc k r
  end.

Definition no_such_key : exn :=
  Exn "NoSuchKey"
      "An error occurred (NoSuchKey) when calling the GetObject operation: The specified key does not exist.".

Definition decode_error : exn :=
  Exn "JSONDecodeError"
      "Expecting property name enclosed in double quotes: line 1 column 2 (char 1)".

Definition access_denied : exn :=
  Exn "ClientError"
      "An error occurred (AccessDenied) when calling the PutObject operation: Access Denied".

(** A blob store holding [store]; [parsed] tabulates [json.loads] on the
    bodies in use; uploads to the keys in [denied] fail. *)
Definition store_env (store : list (string * string)) (parsed : list (string * json))
           (denied : list string) (dumps : json -> string) : Combiner.env :=
  Combiner.Env (Some "bkt") "final-outputs"
    (fun key => match assoc key store with
                | Some body => Ok body
                | None => Raise no_such_key
                end)
    (fun body => match assoc body parsed with
                 | Some v => Ok v
                 | None => Raise decode_error
                 end)
    dumps
    (fun key _ _ => if Combiner.in_list key denied then Raise access_denied else Ok tt).

Definition result_key (n : Z) : string :=
  "intermediate-page-results/run1/doc_page_" ++ PyStr.str_of_Z n ++ "_results.json".

Definition result_uri (n : Z) : string := "s3://bkt/" ++ result_key n.

(** Three page results, the second of which is not JSON. *)
Definition three_pages_store : list (string * string) :=
  [ (result_key 1, page_body (Some 1%Z) "markdown" "First");
    (result_key 2, "{not json");
    (result_key 3, page_body (Some 3%Z) "markdown" "Third") ].

Definition three_pages_parsed : list (string * json) :=
  [ (page_body (Some 1%Z) "markdown" "First", page_value (Some 1%Z) "markdown" "First");
    (page_body (Some 3%Z) "markdown" "Third", page_value (Some 3%Z) "markdown" "Third") ].

Definition three_pages_event (fmt : string) : Combiner.event :=
  Combiner.Event "run1" [result_uri 1; result_uri 2; result_uri 3] "doc"
                 "s3://bkt/inputs/doc.pdf" fmt.

(** Two page results that carry no page number. *)
Definition unnumbered_store : list (string * string) :=
  [ (result_key 1, page_body None "markdown" "First");
    (result_key 2, page_body None "markdown" "Second") ].

Definition unnumbered_parsed : list (string * json) :=
  [ (page_body None "markdown" "First", page_value None "markdown" "First");
    (page_body None "markdown" "Second", page_value None "markdown" "Second") ].

Definition text_page (number : Z) (fmt grounded : string) : dict :=
  [ ("page_number", JInt number); ("output_format", JStr fmt);
    ("grounded_output", JStr grounded) ].

(** An aggregate of two pages, listed with the second page first. *)
Definition two_pages_doc (fmt : string) : dict :=
  [ ("pages", JArr [ JObj (text_page 2 fmt "Second"); JObj (text_page 1 fmt "First") ]) ].

(** An aggregate whose first page has no grounded content. *)
Definition skipped_first_doc : dict :=
  [ ("pages", JArr [ JObj (text_page 1 "html" "");
                     JObj (text_page 2 "html" "<p>Second</p>") ]) ].

(** *** Page processor *)

(** A page processor on unit images and integer coordinates.  [parsed]
    tabulates [json.loads]; the model answers [extraction] to the call with
    the image and [grounding] to the call without; [detections] is what the
    detector returns.  The regular-expression engine is never consulted in
    the runs below, which have no detection or use the JSON strategy. *)
Definition page_env (parsed : list (string * json))
           (extraction grounding : option string)
           (detections : option (unit * list (list Z) * list Z))
           (raw_text : string) : PageProcessor.env unit Z :=
  PageProcessor.Env unit Z
    (fun body => match assoc body parsed with
                 | Some v => Ok v
                 | None => Raise decode_error
                 end)
    (fun _ _ => None)
    (fun call => Ok (if PageProcessor.with_image call then extraction else grounding))
    (fun _ num_images max_image_index =>
       ("Extract " ++ PyStr.str_of_Z num_images ++ " images up to "
          ++ PyStr.str_of_Z max_image_index)%string)
    (fun raw extracted =>
       ("[Raw Text]" ++ raw ++ "[Extracted Text]" ++ extracted)%string)
    (fun _ => detections)
    (fun _ _ indices =>
       Ok (map (fun i => (i, ("s3://bkt/cropped-images/run1/img_" ++ PyStr.str_of_Z i
                                ++ ".jpg")%string)) indices))
    (fun _ => true)
    (fun _ => Ok (Some tt))
    (fun _ => Ok raw_text)
    (fun _ => Ok tt)
    (Some "bkt")
    "intermediate-page-results".

Definition page_event (fmt : string) (raw_text_uri : option string)
  : PageProcessor.event :=
  PageProcessor.Event "run1" "s3://bkt/intermediate-images/run1/doc_page_1.png"
                      raw_text_uri fmt 1%Z "doc".

(** A page on which nothing was detected and whose extraction consists of
    an empty description. *)
Definition only_tokens : string := "[START DESCRIPTION][END DESCRIPTION]".

(** A JSON extraction whose [page_content] lists a plain string. *)
Definition plain_string_content : string :=
  "{" ++ quoted "page_content" ++ ": [" ++ quoted "Quarterly report" ++ "]}".

Definition plain_string_content_value : json :=
  JObj [("page_content", JArr [JStr "Quarterly report"])].

(** A JSON extraction that describes the first detected image. *)
Definition described_image : string :=
  "{" ++ quoted "page_content" ++ ": [{" ++ quoted "type" ++ ": "
    ++ quoted "image_description" ++ ", " ++ quoted "image_id" ++ ": 1, "
    ++ quoted "description" ++ ": " ++ quoted "[START DESCRIPTION]A chart[END DESCRIPTION]"
    ++ "}]}".

Definition described_image_value : json :=
  JObj [("page_content",
         JArr [JObj [ ("type", JStr "image_description");
                      ("image_id", JInt 1);
                      ("description", JStr "[START DESCRIPTION]A chart[END DESCRIPTION]") ]])].

End Fixtures.

(* ================================================================= *)
(** ** Splitter: [splitter/lambda_function.py] *)

Module Splitter.
Import Py.

Definition nl : string := String (ascii_of_nat 10) EmptyString.

(** [Path(p).suffix]: the name from its last dot on, when that dot is
    neither the first nor the last character. *)
Definition path_suffix (p : string) : string :=
  let name := PyStr.path_name p in
  match PyStr.rfind "." name with
  | Some i =>
      if ((0 <? i) && (i <? String.length name - 1))%nat
      then PyStr.drop i name
      else EmptyString
  | None => EmptyString
  end.

Definition get_doc_type (file_extension : string) : string :=
  let ext := PyStr.lower file_extension in
  if String.eqb ext ".pdf" then "pdf"
  else if Combiner.in_list ext [".docx"; ".doc"] then "docx"
  else if Combiner.in_list ext [".pptx"; ".ppt"] then "pptx"
  else if Combiner.in_list ext [".png"; ".jpg"; ".jpeg"] then "image"
  else "unsupported".

(** [dir / name] for a relative [name] *)
Definition joinpath (dir name : string) : string := dir ++ "/" ++ name.

Record event := Event {
  s3_input_uri : string;
  output_format : string
}.

Record response := Response {
  run_uuid : string;
  original_s3_uri : string;
  original_s3_key : string;
  original_base_filename : string;
  doc_type : string;
  resp_output_format : string;
  s3_page_text_uris : list (option string);
  s3_page_image_uris : list string
}.

Inductive outcome :=
| HttpError (statusCode : Z) (message : string)
| Returned (r : response).

Section Splitter.
(** A rendered page, as [pdf2image] and [PIL] hand it over. *)
Variable page_image : Type.

(** The configuration, the document libraries, the local file system and
    the blob store. *)
Record env := Env {
  BUCKET_NAME : option string;
  INTERMEDIATE_IMAGES_PREFIX : string;
  INTERMEDIATE_RAW_TEXT_PREFIX : string;
  (** [str(uuid.uuid4())] of the invocation *)
  uuid4 : string;
  (** [s3_utils.read_file_from_s3_path(key, local_path)] *)
  read_file_from_s3_path : string -> string -> result unit;
  (** [path.mkdir(parents=True, exist_ok=True)] *)
  mkdir : string -> result unit;
  (** [fitz.open(path)] and [page.get_text("text")] of every page *)
  pdf_page_texts : string -> result (list string);
  (** [docx2txt.process(path)] *)
  docx2txt_process : string -> result string;
  (** [Presentation(path).slides]: for every slide, [shape.text] of the
      shapes that have one *)
  pptx_slides : string -> result (list (list string));
  (** [convert_from_path(path, dpi)] *)
  convert_from_path : string -> result (list page_image);
  (** [convert_office_to_pdf(office_path, temp_dir)] *)
  convert_office_to_pdf : string -> string -> result string;
  (** [Image.open(path)] *)
  image_open : string -> result page_image;
  (** [save_content_to_local_file(content, output_path)] *)
  save_content_to_local_file : string -> string -> bool;
  (** [img.save(path, "PNG")] *)
  image_save : page_image -> string -> result unit;
  (** [Path(path).is_file()] at the time of the upload *)
  is_file : string -> bool;
  (** [s3_utils.write_file_to_s3(local_path, key)], which answers
      [s3://<bucket>/<key>] when the upload does not raise *)
  write_file_to_s3 : string -> string -> result unit
}.

Variable E : env.

(** *** Text extraction *)

Definition page_text_filename (base_filename : string) (page_num : nat) : string :=
  base_filename ++ "_page_" ++ PyStr.str_of_Z (Z.of_nat page_num + 1) ++ "_text.txt".

(** The loop [for page_num in range(doc.page_count)]. *)
Fixpoint pdf_text_loop (text_output_dir base_filename : string) (page_num : nat)
         (page_texts : list string) (page_text_paths : list string) : list string :=
  match page_texts with
  | [] => page_text_paths
  | page_text :: rest =>
      if negb (String.eqb (PyStr.strip page_text) "") then
        let text_path :=
          joinpath text_output_dir (page_text_filename base_filename page_num) in
        if save_content_to_local_file E page_text text_path
        then pdf_text_loop text_output_dir base_filename (S page_num) rest
                           (page_text_paths ++ [text_path])
        else pdf_text_loop text_output_dir base_filename (S page_num) rest
                           page_text_paths
      else pdf_text_loop text_output_dir base_filename (S page_num) rest
                         page_text_paths
  end.

(** Only the creation of the directory can raise: every exception of the
    [try] gives the empty list. *)
Definition extract_text_from_pdf (pdf_path text_output_dir base_filename : string)
  : result (list string) :=
  _ <- mkdir E text_output_dir ;;
  match pdf_page_texts E pdf_path with
  | Ok page_texts => Ok (pdf_text_loop text_output_dir base_filename 0 page_texts [])
  | Raise _ => Ok []
  end.

Definition extract_text_from_docx (docx_path text_output_dir base_filename : string)
  : result (list string) :=
  _ <- mkdir E text_output_dir ;;
  match docx2txt_process E docx_path with
  | Ok docx_text =>
      if negb (String.eqb (PyStr.strip docx_text) "") then
        let text_path := joinpath text_output_dir (base_filename ++ "_full_text.txt") in
        if save_content_to_local_file E docx_text text_path
        then Ok [text_path] else Ok []
      else Ok []
  | Raise _ => Ok []
  end.

(** [shape.text.strip()] of the shapes whose text is not blank *)
Definition text_items (shapes : list string) : list string :=
  map PyStr.strip
      (filter (fun text => negb (String.eqb (PyStr.strip text) "")) shapes).

Fixpoint pptx_text_loop (text_output_dir base_filename : string) (slide_num : nat)
         (slides : list (list string)) (page_text_paths : list string) : list string :=
  match slides with
  | [] => page_text_paths
  | shapes :: rest =>
      let slide_text := String.concat nl (text_items shapes) in
      if negb (String.eqb slide_text "") then
        let text_path :=
          joinpath text_output_dir
                   (base_filename ++ "_slide_"
                      ++ PyStr.str_of_Z (Z.of_nat slide_num + 1) ++ "_text.txt") in
        if save_content_to_local_file E slide_text text_path
        then pptx_text_loop text_output_dir base_filename (S slide_num) rest
                            (page_text_paths ++ [text_path])
        else pptx_text_loop text_output_dir base_filename (S slide_num) rest
                            page_text_paths
      else pptx_text_loop text_output_dir base_filename (S slide_num) rest
                          page_text_paths
  end.

Definition extract_text_from_pptx (pptx_path text_output_dir base_filename : string)
  : result (list string) :=
  _ <- mkdir E text_output_dir ;;
  match pptx_slides E pptx_path with
  | Ok slides => Ok (pptx_text_loop text_output_dir base_filename 0 slides [])
  | Raise _ => Ok []
  end.

(** *** Page images *)

Definition page_image_filename (base_filename : string) (i : nat) : string :=
  base_filename ++ "_page_" ++ PyStr.str_of_Z (Z.of_nat i + 1) ++ ".png".

(** The loop [for i, img in enumerate(images)]: a page whose image cannot
    be saved is left out. *)
Fixpoint save_images_loop (image_output_dir base_filename : string) (i : nat)
         (images : list page_image) (image_paths : list string) : list string :=
  match images with
  | [] => image_paths
  | img :: rest =>
      let local_img_path :=
        joinpath image_output_dir (page_image_filename base_filename i) in
      match image_save E img local_img_path with
      | Ok _ => save_images_loop image_output_dir base_filename (S i) rest
                                 (image_paths ++ [local_img_path])
      | Raise _ => save_images_loop image_output_dir base_filename (S i) rest
                                    image_paths
      end
  end.

Definition convert_pdf_to_images (pdf_path image_output_dir base_filename : string)
  : result (list string) :=
  _ <- mkdir E image_output_dir ;;
  match convert_from_path E pdf_path with
  | Ok images => Ok (save_images_loop image_output_dir base_filename 0 images [])
  | Raise _ => Ok []
  end.

Definition convert_office_to_images
           (office_path image_output_dir base_filename temp_dir : string)
  : result (list string) :=
  _ <- mkdir E image_output_dir ;;
  match (pdf_path <- convert_office_to_pdf E office_path temp_dir ;;
         convert_pdf_to_images pdf_path image_output_dir base_filename) with
  | Ok image_paths => Ok image_paths
  | Raise _ => Ok []
  end.

Definition process_input_image (image_path image_output_dir base_filename : string)
  : result (list string) :=
  _ <- mkdir E image_output_dir ;;
  let output_img_path := joinpath image_output_dir (base_filename ++ "_image.png") in
  match (img <- image_open E image_path ;; image_save E img output_img_path) with
  | Ok _ => Ok [output_img_path]
  | Raise _ => Ok []
  end.

(** *** [run_splitter_logic]: every exception gives two empty lists. *)
Definition run_splitter_logic
           (source_file_path file_extension base_filename local_temp_dir
              local_image_output_dir local_text_output_dir : string)
  : list string * list string :=
  let doc_type := get_doc_type file_extension in
  match (page_text_paths <-
           (if String.eqb doc_type "pdf"
            then extract_text_from_pdf source_file_path local_text_output_dir
                                       base_filename
            else if String.eqb doc_type "docx"
            then extract_text_from_docx source_file_path local_text_output_dir
                                        base_filename
            else if String.eqb doc_type "pptx"
            then extract_text_from_pptx source_file_path local_text_output_dir
                                        base_filename
            else Ok []) ;;
         page_image_paths <-
           (if String.eqb doc_type "pdf"
            then convert_pdf_to_images source_file_path local_image_output_dir
                                       base_filename
            else if Combiner.in_list doc_type ["docx"; "pptx"]
            then convert_office_to_images source_file_path local_image_output_dir
                                          base_filename local_temp_dir
            else if String.eqb doc_type "image"
            then process_input_image source_file_path local_image_output_dir
                                     base_filename
            else Ok []) ;;
         Ok (page_text_paths, page_image_paths)) with
  | Ok paths => paths
  | Raise _ => ([], [])
  end.

(** *** Upload *)

(** [async_upload_files_to_s3]: a path that is not a file, or whose upload
    raises, is left out. *)
Fixpoint async_upload_files_to_s3 (bucket : string) (local_paths : list string)
         (s3_prefix : string) : list string :=
  match local_paths with
  | [] => []
  | local_path :: rest =>
      if negb (is_file E local_path)
      then async_upload_files_to_s3 bucket rest s3_prefix
      else
        let s3_key := (s3_prefix ++ PyStr.path_name local_path)%string in
        match write_file_to_s3 E local_path s3_key with
        | Ok _ =>
            ("s3://" ++ bucket ++ "/" ++ s3_key)%string
              :: async_upload_files_to_s3 bucket rest s3_prefix
        | Raise _ => async_upload_files_to_s3 bucket rest s3_prefix
        end
  end.

(** *** The handler *)

Definition lambda_handler (ev : event) : outcome :=
  match BUCKET_NAME E with
  | None | Some EmptyString => HttpError 500 "Error: S3_BUCKET_NAME not configured."
  | Some bucket =>
      let input_key := s3_input_uri ev in
      if String.eqb input_key ""
      then HttpError 400
             "Error: Missing or invalid required key: 's3_input_uri (object key) must be a non-empty string.'"
      else if PyStr.startswith input_key "s3://"
      then HttpError 400
             "Invalid input: s3_input_uri should be an S3 object key (e.g., 'path/to/file.pdf'), not a full S3 URI."
      else
        let original_filename := PyStr.path_name input_key in
        let base_filename := PyStr.path_stem original_filename in
        let file_extension := PyStr.lower (path_suffix original_filename) in
        let run_uuid := uuid4 E in
        let doc_type := get_doc_type file_extension in
        if String.eqb doc_type "unsupported"
        then HttpError 400 ("Invalid input: Unsupported file type: " ++ file_extension)
        else
          let local_input_path :=
            joinpath "/tmp" (run_uuid ++ "_" ++ original_filename) in
          match read_file_from_s3_path E input_key local_input_path with
          | Raise e => HttpError 500 ("Error downloading input file: " ++ exn_msg e)
          | Ok _ =>
              let local_temp_dir := joinpath "/tmp" run_uuid in
              let local_image_output_dir := joinpath local_temp_dir "images" in
              let local_text_output_dir := joinpath local_temp_dir "text" in
              match (_ <- mkdir E local_image_output_dir ;;
                     _ <- mkdir E local_text_output_dir ;;
                     Ok (run_splitter_logic local_input_path file_extension
                           base_filename local_temp_dir local_image_output_dir
                           local_text_output_dir)) with
              | Raise e => HttpError 500 ("Error during splitting: " ++ exn_msg e)
              | Ok (page_text_local_paths, page_image_local_paths) =>
                  let s3_image_output_prefix :=
                    (INTERMEDIATE_IMAGES_PREFIX E ++ "/" ++ run_uuid ++ "/")%string in
                  let s3_text_output_prefix :=
                    (INTERMEDIATE_RAW_TEXT_PREFIX E ++ "/" ++ run_uuid ++ "/")%string in
                  let s3_page_text_uris :=
                    async_upload_files_to_s3 bucket page_text_local_paths
                                             s3_text_output_prefix in
                  let s3_page_image_uris :=
                    async_upload_files_to_s3 bucket page_image_local_paths
                                             s3_image_output_prefix in
                  Returned
                    (Response run_uuid
                       ("s3://" ++ bucket ++ "/" ++ input_key)
                       input_key base_filename doc_type (output_format ev)
                       (if String.eqb doc_type "image"
                        then map (fun _ => None) s3_page_image_uris
                        else map Some s3_page_text_uris)
                       s3_page_image_uris)
              end
          end
  end.
End Splitter.

(** The one-based numbers of the pages whose text is not blank. *)
Fixpoint pages_with_text (page_num : nat) (page_texts : list string) : list nat :=
  match page_texts with
  | [] => []
  | page_text :: rest =>
      if negb (String.eqb (PyStr.strip page_text) "")
      then S page_num :: pages_with_text (S page_num) rest
      else pages_with_text (S page_num) rest
  end.

End Splitter.

(* ================================================================= *)
(** ** Local orchestration: [run_pipeline.py] *)

Module Pipeline.
Import Py.

Record args := Args {
  s3_object_key : string;
  output_format : string
}.

(** The services whose answers [main] reads, behind [invoke_service];
    [None] stands for a request that failed. *)
Record env := Env {
  splitter : Splitter.event -> option Splitter.outcome;
  (** the [s3_result_uri] of the response, when it has one *)
  page_processor : PageProcessor.event -> option string
}.

(** What a run asked of the services. *)
Record trace := Trace {
  page_processor_payloads : list PageProcessor.event;
  combiner_payload : option Combiner.event
}.

Section Pipeline.
Variable E : env.

(** [s3_page_text_uris[i] if i < len(s3_page_text_uris) else None] *)
Definition text_uri_at (s3_page_text_uris : list (option string)) (i : nat)
  : option string :=
  match nth_error s3_page_text_uris i with
  | Some uri => uri
  | None => None
  end.

(** The payload of page [i + 1].  The page processor reads
    [s3_page_image_uri] and [s3_page_text_uri] as its image and raw-text
    references. *)
Definition page_processor_payload (a : args) (r : Splitter.response) (i : nat)
           (s3_page_image_uri : string) : PageProcessor.event :=
  PageProcessor.Event (Splitter.run_uuid r) s3_page_image_uri
                      (text_uri_at (Splitter.s3_page_text_uris r) i)
                      (output_format a) (Z.of_nat i + 1)
                      (Splitter.original_base_filename r).

(** The loop [for i in range(num_pages)]: the payloads sent and the result
    references collected. *)
Fixpoint process_pages (a : args) (r : Splitter.response) (i : nat)
         (s3_page_image_uris : list string)
  : list PageProcessor.event * list string :=
  match s3_page_image_uris with
  | [] => ([], [])
  | s3_page_image_uri :: rest =>
      let '(payloads, results) := process_pages a r (S i) rest in
      if String.eqb s3_page_image_uri "" then (payloads, results)
      else
        let payload := page_processor_payload a r i s3_page_image_uri in
        match page_processor E payload with
        | Some s3_result_uri => (payload :: payloads, s3_result_uri :: results)
        | None => (payload :: payloads, results)
        end
  end.

Definition main (a : args) : trace :=
  match splitter E (Splitter.Event (s3_object_key a) (output_format a)) with
  | Some (Splitter.Returned r) =>
      match Splitter.s3_page_image_uris r with
      | [] => Trace [] None
      | s3_page_image_uris =>
          let '(payloads, processed_page_results_s3_uris) :=
            process_pages a r 0 s3_page_image_uris in
          match processed_page_results_s3_uris with
          | [] => Trace payloads None
          | _ :: _ =>
              Trace payloads
                    (Some (Combiner.Event (Splitter.run_uuid r)
                             processed_page_results_s3_uris
                             (Splitter.original_base_filename r)
                             (Splitter.original_s3_uri r)
                             (output_format a)))
          end
      end
  | _ => Trace [] None
  end.
End Pipeline.

End Pipeline.

(* ================================================================= *)
(** ** From the page processor to the aggregator *)

Module Handoff.
Import Py.

Definition json_of_option (s : option string) : json :=
  match s with Some t => JStr t | None => JNull end.

Section Handoff.
Variable coord : Type.
(** A coordinate, written by [json.dump] and read back by [json.loads]. *)
Variable json_of_coord : coord -> json.

(** One entry of [image_descriptions], as it is read back. *)
Definition json_of_description (d : PageProcessor.image_description coord) : json :=
  JObj [ ("image_id", PageProcessor.image_id coord d);
         ("description", PageProcessor.description coord d);
         ("coordinates",
          JArr (map json_of_coord (PageProcessor.coordinates coord d)));
         ("cropped_image_path",
          json_of_option (PageProcessor.cropped_image_path coord d)) ].

(** The result dictionary of step 3, as [json.loads] reads back what
    [json.dump] wrote: the integer keys of [s3_detected_image_uris] have
    become strings. *)
Definition json_of_page_result (r : PageProcessor.page_result coord) : dict :=
  [ ("run_uuid", JStr (PageProcessor.res_run_uuid coord r));
    ("page_number", PageProcessor.res_page_number coord r);
    ("original_base_filename",
     JStr (PageProcessor.res_original_base_filename coord r));
    ("output_format", JStr (PageProcessor.res_output_format coord r));
    ("s3_image_uri", JStr (PageProcessor.res_s3_image_uri coord r));
    ("s3_raw_text_uri", json_of_option (PageProcessor.res_s3_raw_text_uri coord r));
    ("grounded_output", PageProcessor.grounded_output coord r);
    ("extracted_output", PageProcessor.extracted_output coord r);
    ("page_content",
     JObj [ ("extracted", PageProcessor.page_content_extracted coord r);
            ("grounded", PageProcessor.page_content_grounded coord r) ]);
    ("s3_detected_image_uris",
     JObj (map (fun kv => (PyStr.str_of_Z (fst kv), JStr (snd kv)))
               (PageProcessor.s3_detected_image_uris coord r)));
    ("image_descriptions",
     JArr (map json_of_description (PageProcessor.image_descriptions coord r))) ].
End Handoff.

End Handoff.

(* ================================================================= *)
(** ** Further runs *)

Module Scenarios.
Import Py.

(** *** Aggregator *)

(** A page result whose page number is a string. *)
Definition string_numbered_body : string :=
  "{" ++ Fixtures.quoted "page_number" ++ ": " ++ Fixtures.quoted "2" ++ ", "
    ++ Fixtures.quoted "output_format" ++ ": " ++ Fixtures.quoted "markdown" ++ ", "
    ++ Fixtures.quoted "grounded_output" ++ ": " ++ Fixtures.quoted "Second" ++ "}".

Definition string_numbered_value : json :=
  JObj [ ("page_number", JStr "2"); ("output_format", JStr "markdown");
         ("grounded_output", JStr "Second") ].

(** Two page results, numbered [1] and ["2"]. *)
Definition mixed_store : list (string * string) :=
  [ (Fixtures.result_key 1, Fixtures.page_body (Some 1%Z) "markdown" "First");
    (Fixtures.result_key 2, string_numbered_body) ].

Definition mixed_parsed : list (string * json) :=
  [ (Fixtures.page_body (Some 1%Z) "markdown" "First",
     Fixtures.page_value (Some 1%Z) "markdown" "First");
    (string_numbered_body, string_numbered_value) ].

Definition two_pages_event (fmt : string) : Combiner.event :=
  Combiner.Event "run1" [Fixtures.result_uri 1; Fixtures.result_uri 2] "doc"
                 "s3://bkt/inputs/doc.pdf" fmt.

(** An aggregate whose only page has no grounded content. *)
Definition empty_page_doc : dict :=
  [ ("pages", JArr [ JObj (Fixtures.text_page 1 "html" "") ]) ].

(** *** Page processor *)

(** A JSON extraction that is an array rather than an object. *)
Definition array_answer : string :=
  "[{" ++ Fixtures.quoted "type" ++ ": " ++ Fixtures.quoted "text" ++ ", "
    ++ Fixtures.quoted "content" ++ ": " ++ Fixtures.quoted "Hello" ++ "}]".

Definition array_answer_value : json :=
  JArr [ JObj [ ("type", JStr "text"); ("content", JStr "Hello") ] ].

(** The page result of a page titled [# Title], as the page processor
    writes it, and what [json.loads] makes of it. *)
Definition title_page_result : PageProcessor.page_result Z :=
  PageProcessor.PageResult Z
    "run1" (JInt 1) "doc" "markdown"
    "s3://bkt/intermediate-images/run1/doc_page_1.png"
    (Some "s3://bkt/raw/doc_page_1_text.txt")
    (JStr "# Title") (JStr "# Title") (JStr "# Title") (JStr "# Title") [] [].

Definition title_page_body : string :=
  "{" ++ Fixtures.quoted "run_uuid" ++ ": " ++ Fixtures.quoted "run1" ++ ", "
    ++ Fixtures.quoted "page_number" ++ ": 1, "
    ++ Fixtures.quoted "original_base_filename" ++ ": " ++ Fixtures.quoted "doc" ++ ", "
    ++ Fixtures.quoted "output_format" ++ ": " ++ Fixtures.quoted "markdown" ++ ", "
    ++ Fixtures.quoted "s3_image_uri" ++ ": "
    ++ Fixtures.quoted "s3://bkt/intermediate-images/run1/doc_page_1.png" ++ ", "
    ++ Fixtures.quoted "s3_raw_text_uri" ++ ": "
    ++ Fixtures.quoted "s3://bkt/raw/doc_page_1_text.txt" ++ ", "
    ++ Fixtures.quoted "grounded_output" ++ ": " ++ Fixtures.quoted "# Title" ++ ", "
    ++ Fixtures.quoted "extracted_output" ++ ": " ++ Fixtures.quoted "# Title" ++ ", "
    ++ Fixtures.quoted "page_content" ++ ": {"
    ++ Fixtures.quoted "extracted" ++ ": " ++ Fixtures.quoted "# Title" ++ ", "
    ++ Fixtures.quoted "grounded" ++ ": " ++ Fixtures.quoted "# Title" ++ "}, "
    ++ Fixtures.quoted "s3_detected_image_uris" ++ ": {}, "
    ++ Fixtures.quoted "image_descriptions" ++ ": []}".

(** *** Splitter and orchestration *)

(** A splitter on which nothing fails, for a PDF with the given page
    texts and page images. *)
Definition splitter_env (page_texts : list string) (images : list unit)
  : Splitter.env unit :=
  Splitter.Env unit
    (Some "bkt") "intermediate-images" "intermediate-raw-text" "run1"
    (fun _ _ => Ok tt)
    (fun _ => Ok tt)
    (fun _ => Ok page_texts)
    (fun _ => Ok EmptyString)
    (fun _ => Ok [])
    (fun _ => Ok images)
    (fun office_path _ => Ok office_path)
    (fun _ => Ok tt)
    (fun _ _ => true)
    (fun _ _ => Ok tt)
    (fun _ => true)
    (fun _ _ => Ok tt).

(** Three pages, the second of which has no text. *)
Definition blank_second_page : list string :=
  ["First page"; ("  " ++ Splitter.nl)%string; "Third page"].

(** The services of a local run: the splitter above, and a page processor
    that answers every page. *)
Definition pipeline_env (page_texts : list string) (images : list unit)
  : Pipeline.env :=
  Pipeline.Env
    (fun ev => Some (Splitter.lambda_handler unit (splitter_env page_texts images) ev))
    (fun payload =>
       Some ("s3://bkt/intermediate-page-results/run1/doc_page_"
               ++ PyStr.str_of_Z (PageProcessor.page_number payload)
               ++ "_results.json")%string).

(** A splitter on which nothing fails, for a Word document with the given
    text and page images. *)
Definition word_splitter_env (docx_text : string) (images : list unit)
  : Splitter.env unit :=
  Splitter.Env unit
    (Some "bkt") "intermediate-images" "intermediate-raw-text" "run1"
    (fun _ _ => Ok tt)
    (fun _ => Ok tt)
    (fun _ => Ok [])
    (fun _ => Ok docx_text)
    (fun _ => Ok [])
    (fun _ => Ok images)
    (fun office_path _ => Ok office_path)
    (fun _ => Ok tt)
    (fun _ _ => true)
    (fun _ _ => Ok tt)
    (fun _ => true)
    (fun _ _ => Ok tt).

Definition word_pipeline_env (docx_text : string) (images : list unit)
  : Pipeline.env :=
  Pipeline.Env
    (fun ev => Some (Splitter.lambda_handler unit (word_splitter_env docx_text images) ev))
    (fun payload =>
       Some ("s3://bkt/intermediate-page-results/run1/report_page_"
               ++ PyStr.str_of_Z (PageProcessor.page_number payload)
               ++ "_results.json")%string).

End Scenarios.

(* ================================================================= *)
(** * Properties *)

(** ** Strings *)

Module PyStrFacts.
Import PyStr.

Lemma split_on_not_nil (c : ascii) (s : string) : split_on c s <> [].
Proof.
  destruct s as [|d r]; simpl; [discriminate|].
  destruct (Ascii.eqb d c); [discriminate|].
  destruct (split_on c r); discriminate.
Qed.

(** Splitting at an occurrence of the separator splits the two sides. *)
Lemma split_on_app_sep (c : ascii) (a b : string) :
  split_on c (a ++ String c b) = split_on c a ++ split_on c b.
Proof.
  induction a as [|d a IH]; simpl.
  - rewrite Ascii.eqb_refl. reflexivity.
  - destruct (Ascii.eqb d c).
    + rewrite IH. reflexivity.
    + rewrite IH. pose proof (split_on_not_nil c a) as Hne.
      destruct (split_on c a) as [|h t]; [contradiction|]. reflexivity.
Qed.

Lemma concat_cons (sep x : string) (l : list string) :
  l <> [] -> String.concat sep (x :: l) = (x ++ sep ++ String.concat sep l)%string.
Proof. destruct l; [contradiction|reflexivity]. Qed.

Lemma append_assoc (a b c : string) :
  ((a ++ b) ++ c = a ++ (b ++ c))%string.
Proof. induction a; simpl; congruence. Qed.

Lemma append_empty_r (a : string) : (a ++ "")%string = a.
Proof. induction a; simpl; congruence. Qed.

(** [sep.join(l1 + l2)] for two non-empty lists. *)
Lemma concat_app (sep : string) (l1 l2 : list string) :
  l1 <> [] -> l2 <> [] ->
  String.concat sep (l1 ++ l2)
  = (String.concat sep l1 ++ sep ++ String.concat sep l2)%string.
Proof.
  induction l1 as [|x l1 IH]; intros H1 H2; [contradiction|].
  destruct l1 as [|y l1].
  - simpl app. rewrite concat_cons by assumption. reflexivity.
  - change ((x :: y :: l1) ++ l2) with (x :: ((y :: l1) ++ l2)).
    rewrite concat_cons by discriminate.
    rewrite IH by (discriminate || assumption).
    rewrite (concat_cons sep x (y :: l1)) by discriminate.
    rewrite !append_assoc. reflexivity.
Qed.

(** ['_'.join(s.split('_')) == s] *)
Lemma concat_split_on (c : ascii) (s : string) :
  String.concat (String c "") (split_on c s) = s.
Proof.
  induction s as [|d r IH]; [reflexivity|].
  simpl split_on. destruct (Ascii.eqb d c) eqn:Hd.
  - apply Ascii.eqb_eq in Hd. subst d.
    rewrite concat_cons by apply split_on_not_nil.
    rewrite IH. reflexivity.
  - pose proof (split_on_not_nil c r) as Hne.
    destruct (split_on c r) as [|h t]; [contradiction|].
    destruct t as [|h' t].
    + simpl in *. congruence.
    + rewrite concat_cons by discriminate.
      rewrite concat_cons in IH by discriminate.
      change (String d h ++ String c "" ++ String.concat (String c "") (h' :: t))%string
        with (String d (h ++ String c "" ++ String.concat (String c "") (h' :: t)))%string.
      rewrite IH. reflexivity.
Qed.

Lemma split_on_no_sep (c : ascii) (s : string) :
  has_char c s = false -> split_on c s = [s].
Proof.
  induction s as [|d r IH]; simpl; [reflexivity|].
  destruct (Ascii.eqb d c); simpl; [discriminate|].
  intros H. rewrite (IH H). reflexivity.
Qed.

(** Text without separator appended to a string extends its last field. *)
Lemma split_on_app_no_sep (c : ascii) (a t : string) :
  has_char c t = false ->
  exists init last,
    split_on c a = init ++ [last] /\ split_on c (a ++ t) = init ++ [(last ++ t)%string].
Proof.
  intros Ht. induction a as [|d a (init & last & Ha & Hat)]; simpl.
  - exists [], EmptyString. rewrite (split_on_no_sep c t Ht). split; reflexivity.
  - rewrite Ha, Hat. destruct (Ascii.eqb d c).
    + exists (EmptyString :: init), last. split; reflexivity.
    + destruct init as [|h init]; simpl.
      * exists [], (String d last). split; reflexivity.
      * exists (String d h :: init), last. split; reflexivity.
Qed.

Lemma length_append (a b : string) :
  String.length (a ++ b) = String.length a + String.length b.
Proof. induction a; simpl; congruence. Qed.

Lemma substring_prefix (a b : string) :
  String.substring 0 (String.length a) (a ++ b) = a.
Proof.
  induction a as [|c a IH]; simpl.
  - destruct b; reflexivity.
  - rewrite IH. reflexivity.
Qed.

(** The last occurrence of a character, when none follows it. *)
Lemma rfind_from_last (c : ascii) (a b : string) (i : nat) (found : option nat) :
  has_char c b = false ->
  rfind_from c (a ++ String c b) i found = Some (i + String.length a).
Proof.
  intros Hb. revert i found. induction a as [|d a IH]; intros i found; simpl.
  - rewrite Ascii.eqb_refl, Nat.add_0_r.
    assert (Hkeep : forall s j acc, has_char c s = false -> rfind_from c s j acc = acc).
    { induction s as [|e s IHs]; intros j acc; simpl; [reflexivity|].
      destruct (Ascii.eqb e c); simpl; [discriminate|]. apply IHs. }
    apply Hkeep. exact Hb.
  - rewrite IH. f_equal. lia.
Qed.

(** The name and the stem of a path that ends in [<text>.json], where the
    text holds no slash. *)
Lemma path_stem_json (a t : string) :
  has_char "/" t = false ->
  t <> EmptyString ->
  exists last,
    path_stem (a ++ t ++ ".json") = (last ++ t)%string.
Proof.
  intros Ht Hne.
  assert (Hslash : has_char "/" (t ++ ".json") = false).
  { clear Hne. induction t as [|c t IH]; [reflexivity|]. simpl in *.
    destruct (Ascii.eqb c "/"); [discriminate|]. apply IH. exact Ht. }
  destruct (split_on_app_no_sep "/" a (t ++ ".json") Hslash) as (init & last & _ & Hsplit).
  exists last. unfold path_stem, path_name. rewrite Hsplit.
  assert (Hlen : 5 <= String.length (last ++ t ++ ".json")).
  { rewrite !length_append. simpl. lia. }
  assert (Hcomp : is_path_component (last ++ t ++ ".json") = true).
  { unfold is_path_component.
    destruct (last ++ t ++ ".json")%string as [|c1 [|c2 r]]; simpl in Hlen; try lia.
    simpl. destruct (Ascii.eqb c1 "."); reflexivity. }
  rewrite filter_app. simpl filter. rewrite Hcomp, rev_app_distr. simpl.
  rewrite <- (append_assoc last t ".json").
  assert (Hpos : 0 < String.length (last ++ t)).
  { rewrite length_append. destruct t; [contradiction|]. simpl. lia. }
  set (x := (last ++ t)%string) in *.
  change (x ++ ".json")%string with (x ++ String "." "json")%string.
  unfold rfind. rewrite rfind_from_last by reflexivity. simpl Nat.add.
  rewrite (length_append x (String "." "json")). simpl String.length.
  destruct (Nat.ltb_spec 0 (String.length x)); [|lia].
  destruct (Nat.ltb_spec (String.length x) (String.length x + 5 - 1)); [|lia].
  simpl andb. cbv iota. apply substring_prefix.
Qed.

(** Decimal numerals hold no slash. *)
Lemma str_of_Z_no_slash (z : Z) : has_char "/" (str_of_Z z) = false.
Proof.
  assert (Hu : forall d, has_char "/" (NilEmpty.string_of_uint d) = false).
  { induction d; simpl; auto. }
  assert (Hz : forall d, has_char "/" (NilZero.string_of_uint d) = false).
  { intros d. unfold NilZero.string_of_uint. destruct d; try apply Hu. reflexivity. }
  unfold str_of_Z, NilZero.string_of_int.
  destruct (Z.to_int z); simpl; apply Hz.
Qed.

Lemma has_char_append (c : ascii) (a b : string) :
  has_char c (a ++ b) = has_char c a || has_char c b.
Proof.
  induction a as [|d a IH]; simpl; [reflexivity|].
  rewrite IH. apply orb_assoc.
Qed.

Lemma neg_index_last {A : Type} (l : list A) (x : A) :
  neg_index (l ++ [x]) 1 = Some x.
Proof. unfold neg_index. rewrite rev_app_distr. reflexivity. Qed.

Example strip_example :
  strip (String (ascii_of_nat 10) "  a b " ++ String (ascii_of_nat 9) "") = "a b".
Proof. reflexivity. Qed.

Example split_example :
  split_on "_" "my_doc_page_12" = ["my"; "doc"; "page"; "12"].
Proof. reflexivity. Qed.

Example stem_example :
  path_stem "intermediate-page-results/uuid/mydoc_page_1_result.json"
  = "mydoc_page_1_result".
Proof. reflexivity. Qed.

Example remove_all_example :
  remove_all "s3://bkt/" "s3://bkt/a/s3://bkt/b.json" = "a/b.json".
Proof. reflexivity. Qed.

Example py_int_example :
  py_int " -042" = Some (-42)%Z /\ py_int "x1" = None /\ py_int "" = None
  /\ py_int "results" = None /\ str_of_Z 12 = "12".
Proof. repeat split. Qed.

End PyStrFacts.

(** ** The page-number estimator *)

Module EstimatorFacts.
Import Py PyStr PyStrFacts Combiner.

(** A stem whose last field is [results] yields no estimate, whatever
    precedes it. *)
Lemma no_estimate_for_results_suffix (key pre : string) :
  path_stem key = (pre ++ "_results")%string ->
  extract_page_number_from_path key = None.
Proof.
  intros Hstem. unfold extract_page_number_from_path. rewrite Hstem.
  change (pre ++ "_results")%string with (pre ++ String "_" "results")%string.
  rewrite split_on_app_sep.
  change (split_on "_" "results") with ["results"].
  rewrite neg_index_last.
  destruct ((3 <=? List.length (split_on "_" pre ++ ["results"]))%nat
            && part_is (neg_index (split_on "_" pre ++ ["results"]) 2) "page").
  - reflexivity.
  - cbn [part_is]. change (String.eqb "results" "result") with false.
    rewrite andb_false_r. reflexivity.
Qed.

Lemma part_is_eq (p : option string) (s : string) :
  part_is p s = true -> p = Some s.
Proof.
  destruct p as [t|]; simpl; [|discriminate].
  intros H. apply String.eqb_eq in H. congruence.
Qed.

Lemma int_of_part_some (p : option string) (n : Z) :
  int_of_part p = Some n -> exists s, p = Some s /\ py_int s = Some n.
Proof. destruct p as [s|]; simpl; [eauto|discriminate]. Qed.

(** An estimate is only ever read off a stem of the form
    [<pre>_page_<s>] or [<pre>_page_<s>_result], with [int(s)] the estimate. *)
Lemma estimate_only_for_page_suffix (key : string) (n : Z) :
  extract_page_number_from_path key = Some n ->
  exists pre s,
    (path_stem key = (pre ++ "_page_" ++ s)%string
     \/ path_stem key = (pre ++ "_page_" ++ s ++ "_result")%string)
    /\ py_int s = Some n.
Proof.
  unfold extract_page_number_from_path, neg_index.
  pose proof (concat_split_on "_" (path_stem key)) as Hjoin.
  rewrite <- (rev_involutive (split_on "_" (path_stem key))) in Hjoin.
  rewrite <- (length_rev (split_on "_" (path_stem key))).
  destruct (rev (split_on "_" (path_stem key))) as [|p1 [|p2 [|p3 rest]]];
    try discriminate.
  assert (Hne : rev (p3 :: rest) <> []).
  { simpl. destruct (rev rest); discriminate. }
  destruct ((3 <=? List.length (p1 :: p2 :: p3 :: rest))%nat
            && part_is (nth_error (p1 :: p2 :: p3 :: rest) (2 - 1)) "page") eqn:H1.
  - intros Hint. apply andb_prop in H1. destruct H1 as [_ Hp].
    apply part_is_eq in Hp. simpl in Hp. injection Hp as ->.
    apply int_of_part_some in Hint. destruct Hint as (s & Hs & Hn).
    simpl in Hs. injection Hs as ->.
    exists (String.concat "_" (rev (p3 :: rest))), s. split; [|assumption].
    left. rewrite <- Hjoin.
    change (rev (s :: "page" :: p3 :: rest)) with ((rev (p3 :: rest) ++ ["page"]) ++ [s]).
    rewrite <- app_assoc. rewrite concat_app by (assumption || discriminate).
    reflexivity.
  - destruct ((4 <=? List.length (p1 :: p2 :: p3 :: rest))%nat
              && part_is (nth_error (p1 :: p2 :: p3 :: rest) (3 - 1)) "page"
              && part_is (nth_error (p1 :: p2 :: p3 :: rest) (1 - 1)) "result") eqn:H2;
      [|discriminate].
    intros Hint. apply andb_prop in H2. destruct H2 as [H2 Hres].
    apply andb_prop in H2. destruct H2 as [Hlen Hp].
    apply part_is_eq in Hp. apply part_is_eq in Hres. simpl in Hp, Hres.
    injection Hp as ->. injection Hres as ->.
    apply int_of_part_some in Hint. destruct Hint as (s & Hs & Hn).
    simpl in Hs. injection Hs as ->.
    destruct rest as [|p4 rest]; [discriminate|].
    assert (Hne' : rev (p4 :: rest) <> []).
    { simpl. destruct (rev rest); discriminate. }
    exists (String.concat "_" (rev (p4 :: rest))), s. split; [|assumption].
    right. rewrite <- Hjoin.
    change (rev ("result" :: s :: "page" :: p4 :: rest))
      with (((rev (p4 :: rest) ++ ["page"]) ++ [s]) ++ ["result"]).
    rewrite <- !app_assoc. rewrite concat_app by (assumption || discriminate).
    reflexivity.
Qed.

(** The key under which the page processor writes a page result has no
    estimate, whatever the prefix, the run, the base name and the page. *)
Lemma page_processor_key_not_estimated
      (image coord : Type) (E : PageProcessor.env image coord)
      (ev : PageProcessor.event) :
  extract_page_number_from_path
    (PageProcessor.PAGE_RESULTS_PREFIX image coord E ++ "/"
       ++ PageProcessor.run_uuid ev ++ "/" ++ PageProcessor.result_filename ev)
  = None.
Proof.
  unfold PageProcessor.result_filename.
  set (n := str_of_Z (PageProcessor.page_number ev)).
  set (t := ("_page_" ++ n ++ "_results")%string).
  assert (Ht : has_char "/" t = false).
  { unfold t. rewrite !has_char_append. unfold n. rewrite str_of_Z_no_slash.
    reflexivity. }
  destruct (path_stem_json
              (PageProcessor.PAGE_RESULTS_PREFIX image coord E ++ "/"
                 ++ PageProcessor.run_uuid ev ++ "/"
                 ++ PageProcessor.original_base_filename ev) t Ht)
    as (last & Hstem); [discriminate|].
  apply (no_estimate_for_results_suffix _ (last ++ "_page_" ++ n)).
  subst t. rewrite !append_assoc in Hstem. rewrite !append_assoc.
  exact Hstem.
Qed.

Example estimate_examples :
  extract_page_number_from_path "intermediate-page-results/u/mydoc_page_3.json" = Some 3%Z
  /\ extract_page_number_from_path "intermediate-page-results/u/mydoc_page_3_result.json"
     = Some 3%Z
  /\ extract_page_number_from_path "intermediate-page-results/u/mydoc_page_3_results.json"
     = None
  /\ extract_page_number_from_path "page_3.json" = None.
Proof. repeat split. Qed.

End EstimatorFacts.

(** ** The loading loop *)

Module LoadFacts.
Import Py Combiner.

Section Loop.
Variable E : env.
Variable bucket : string.

Local Abbreviation step := (process_uri E bucket).
Local Abbreviation loads := (Combiner.loads E bucket).

(** A reference that loads adds one page and nothing else. *)
Lemma process_uri_loaded (st : load_state) (uri : string) :
  loads uri = true ->
  exists page fmt,
    fetch_page E (s3_key_of bucket uri) = Ok (page, fmt)
    /\ step st uri
       = LoadState
           (combined_pages_data st
              ++ [backfill_page_number page
                    (extract_page_number_from_path (s3_key_of bucket uri))
                    (successful_page_count st)])
           (load_errors st) (S (successful_page_count st))
           (set_add fmt (encountered_formats st)).
Proof.
  unfold Combiner.loads, process_uri, load_page.
  destruct (fetch_page E (s3_key_of bucket uri)) as [[page fmt]|e]; [|discriminate].
  intros _. exists page, fmt. split; reflexivity.
Qed.

(** A reference that does not load adds one error record and nothing else. *)
Lemma process_uri_failed (st : load_state) (uri : string) :
  loads uri = false ->
  exists e,
    fetch_page E (s3_key_of bucket uri) = Raise e
    /\ step st uri
       = LoadState (combined_pages_data st)
           (load_errors st
              ++ [error_record uri e
                    (extract_page_number_from_path (s3_key_of bucket uri))])
           (successful_page_count st) (encountered_formats st).
Proof.
  unfold Combiner.loads, process_uri, load_page.
  destruct (fetch_page E (s3_key_of bucket uri)) as [[page fmt]|e]; [discriminate|].
  intros _. exists e. split; reflexivity.
Qed.

(** What the loop adds to the state it starts from. *)
Lemma fold_process_uri (uris : list string) (st : load_state) :
  let st' := fold_left step uris st in
  successful_page_count st'
  = successful_page_count st + List.length (filter loads uris)
  /\ List.length (combined_pages_data st')
     = List.length (combined_pages_data st) + List.length (filter loads uris)
  /\ map s3_uri (load_errors st')
     = map s3_uri (load_errors st) ++ filter (fun u => negb (loads u)) uris.
Proof.
  revert st. induction uris as [|uri uris IH]; intros st; simpl.
  - rewrite app_nil_r. repeat split; lia.
  - specialize (IH (step st uri)). simpl in IH. destruct IH as (Hc & Hp & He).
    destruct (loads uri) eqn:Hl; simpl.
    + destruct (process_uri_loaded st uri Hl) as (page & fmt & _ & Hstep).
      rewrite Hc, Hp, He, Hstep. simpl. rewrite length_app. simpl.
      repeat split; lia.
    + destruct (process_uri_failed st uri Hl) as (e & _ & Hstep).
      rewrite Hc, Hp, He, Hstep. simpl. rewrite map_app, <- app_assoc.
      repeat split; reflexivity.
Qed.

Lemma filter_partition_length {A : Type} (p : A -> bool) (l : list A) :
  List.length (filter p l) + List.length (filter (fun x => negb (p x)) l)
  = List.length l.
Proof.
  induction l as [|x l IH]; simpl; [reflexivity|].
  destruct (p x); simpl; lia.
Qed.

Lemma load_all_counts (uris : list string) :
  let st := load_all E bucket uris in
  List.length (combined_pages_data st) = successful_page_count st
  /\ successful_page_count st = List.length (filter loads uris)
  /\ map s3_uri (load_errors st) = filter (fun u => negb (loads u)) uris
  /\ successful_page_count st + List.length (load_errors st) = List.length uris.
Proof.
  simpl. unfold load_all.
  destruct (fold_process_uri uris initial_state) as (Hc & Hp & He).
  simpl in Hc, Hp, He. repeat split; try assumption; try lia.
  rewrite Hc. rewrite <- (length_map s3_uri), He.
  apply filter_partition_length.
Qed.

End Loop.
End LoadFacts.

(** ** The aggregator's handler *)

Module AggregatorFacts.
Import Py Combiner LoadFacts.

(** The handler, once the bucket is configured and the list of references
    is not empty, is [combine]. *)
Lemma lambda_handler_combine (E : env) (ev : event) (bucket : string)
      (r : response) (puts : list put_request) :
  BUCKET_NAME E = Some bucket ->
  s3_page_result_uris ev <> [] ->
  lambda_handler E ev = (Returned r, puts) ->
  combine E bucket ev = (Returned r, puts).
Proof.
  unfold lambda_handler. intros -> Hne.
  destruct bucket; [discriminate|].
  destruct (s3_page_result_uris ev); [contradiction|]. tauto.
Qed.

Lemma lambda_handler_bucket (E : env) (ev : event) (bucket : string)
      (r : response) (puts : list put_request) :
  BUCKET_NAME E = Some bucket ->
  lambda_handler E ev = (Returned r, puts) ->
  bucket <> EmptyString.
Proof.
  unfold lambda_handler. intros -> H ->. discriminate.
Qed.

(** What a regular response of [combine] is made of. *)
Lemma combine_returned (E : env) (ev : event) (bucket : string)
      (r : response) (puts : list put_request) :
  combine E bucket ev = (Returned r, puts) ->
  let uris := s3_page_result_uris ev in
  let st := load_all E bucket uris in
  exists pages format_uris format_puts,
    sort_by (fun x => page_sort_key (JObj x)) (combined_pages_data st) = Ok pages
    /\ render_and_upload E bucket ev (aggregated_json ev st pages)
       = (format_uris, format_puts)
    /\ puts = Put (s3_final_key_of E ev) (json_dumps E (aggregated_json ev st pages))
                  "application/json" :: format_puts
    /\ status r
       = final_status (processing_status st uris)
           (match put_object E (s3_final_key_of E ev)
                             (json_dumps E (aggregated_json ev st pages))
                             "application/json" with
            | Ok _ => false
            | Raise _ => true
            end)
    /\ summary r
       = [ ("total_pages_input", len uris);
           ("successful_pages_loaded", Z.of_nat (successful_page_count st));
           ("load_error_count", len (load_errors st)) ].
Proof.
  unfold combine. cbv zeta.
  destruct (sort_by _ _) as [pages|e]; [|discriminate].
  destruct (render_and_upload E bucket ev _) as [format_uris format_puts] eqn:Hr.
  destruct (put_object E _ _ _) as [u|e] eqn:Hput; intros H; injection H as <- <-;
    exists pages, format_uris, format_puts; rewrite Hput;
    repeat split; solve [reflexivity | exact Hr].
Qed.


(** C1.  In a run over a non-empty list of references, every reference is
    counted once: as a loaded page when its load, parse and validation
    succeed, and as a load-error record otherwise.  The loop runs over the
    whole list whatever fails, so pages plus errors equals the number of
    references.  The counts the handler answers are those of the loop, and
    the aggregate it uploads first is built from the pages and the error
    records of the loop. *)
Theorem every_reference_is_a_page_or_an_error
        (E : env) (ev : event) (bucket : string) :
  s3_page_result_uris ev <> [] ->
  let uris := s3_page_result_uris ev in
  let st := load_all E bucket uris in
  successful_page_count st = List.length (filter (loads E bucket) uris)
  /\ List.length (combined_pages_data st) = successful_page_count st
  /\ map s3_uri (load_errors st) = filter (fun u => negb (loads E bucket u)) uris
  /\ successful_page_count st + List.length (load_errors st) = List.length uris
  /\ (forall r puts,
         BUCKET_NAME E = Some bucket ->
         lambda_handler E ev = (Returned r, puts) ->
         summary r = [ ("total_pages_input", len uris);
                       ("successful_pages_loaded",
                        Z.of_nat (List.length (filter (loads E bucket) uris)));
                       ("load_error_count",
                        len (filter (fun u => negb (loads E bucket u)) uris)) ]
         /\ (Z.of_nat (List.length (filter (loads E bucket) uris))
               + len (filter (fun u => negb (loads E bucket u)) uris)
             = len uris)%Z
         /\ exists pages rest,
             sort_by (fun x => page_sort_key (JObj x)) (combined_pages_data st)
             = Ok pages
             /\ puts = Put (s3_final_key_of E ev)
                           (json_dumps E (aggregated_json ev st pages))
                           "application/json" :: rest).
Proof.
  intros Hne uris st.
  destruct (load_all_counts E bucket uris) as (Hp & Hc & He & Hsum).
  fold st in Hp, Hc, He, Hsum.
  split; [exact Hc|]. split; [exact Hp|]. split; [exact He|]. split; [exact Hsum|].
  intros r puts Hb Hr.
  apply (lambda_handler_combine E ev bucket r puts Hb Hne) in Hr.
  apply combine_returned in Hr.
  destruct Hr as (pages & fu & fp & Hsort & _ & Hputs & _ & Hs).
  assert (Herrors : len (filter (fun u => negb (loads E bucket u)) uris)
                    = len (load_errors st)).
  { unfold len. rewrite <- He, length_map. reflexivity. }
  split; [|split].
  - rewrite Herrors, <- Hc. exact Hs.
  - rewrite Herrors, <- Hc. unfold len. lia.
  - exists pages, fp. split; [exact Hsort|exact Hputs].
Qed.

(** C1, on three references of which the second is not JSON. *)
Lemma every_reference_is_a_page_or_an_error_witness :
  let E := Fixtures.store_env Fixtures.three_pages_store Fixtures.three_pages_parsed []
                              (fun _ => "{}") in
  let ev := Fixtures.three_pages_event "markdown" in
  let st := load_all E "bkt" (s3_page_result_uris ev) in
  exists r puts,
    (s3_page_result_uris ev <> []
     /\ BUCKET_NAME E = Some "bkt"
     /\ lambda_handler E ev = (Returned r, puts))
    /\ summary r = [ ("total_pages_input", 3%Z);
                     ("successful_pages_loaded", 2%Z);
                     ("load_error_count", 1%Z) ]
    /\ successful_page_count st = 2
    /\ map s3_uri (load_errors st) = [Fixtures.result_uri 2]
    /\ successful_page_count st + List.length (load_errors st) = 3.
Proof.
  intros E ev st.
  assert (Hne : s3_page_result_uris ev <> []) by discriminate.
  assert (Hb : BUCKET_NAME E = Some "bkt") by reflexivity.
  destruct (lambda_handler E ev) as [[code msg|r|e] puts] eqn:Hrun;
    try (vm_compute in Hrun; discriminate).
  exists r, puts.
  destruct (every_reference_is_a_page_or_an_error E ev "bkt" Hne)
    as (Hc & _ & He & Hsum & Hresp).
  destruct (Hresp r puts Hb Hrun) as (Hsummary & _).
  split; [split; [exact Hne|split; [exact Hb|reflexivity]]|].
  split; [rewrite Hsummary; reflexivity|].
  split; [exact Hc|]. split; [exact He|exact Hsum].
Defined.



(** The three values of the overall status. *)
Lemma processing_status_values (st : load_state) (uris : list string) :
  processing_status st uris = "Completed"
  \/ processing_status st uris = "CompletedWithErrors"
  \/ processing_status st uris = "Failed".
Proof.
  unfold processing_status.
  destruct ((successful_page_count st =? 0)%nat && (0 <? List.length uris)%nat);
    [tauto|].
  destruct (load_errors st); tauto.
Qed.

Lemma final_status_table (ps : string) (save_error_occurred : bool) :
  ps = "Completed" \/ ps = "CompletedWithErrors" \/ ps = "Failed" ->
  (final_status ps save_error_occurred = "Failure"
   <-> ps = "Failed" \/ save_error_occurred = true)
  /\ (final_status ps save_error_occurred = "SuccessWithErrors"
      <-> ps = "CompletedWithErrors" /\ save_error_occurred = false)
  /\ (final_status ps save_error_occurred = "Success"
      <-> ps = "Completed" /\ save_error_occurred = false).
Proof.
  intros [-> | [-> | ->]]; destruct save_error_occurred; cbn;
    repeat split; intros; try discriminate; try tauto;
    repeat match goal with H : _ \/ _ |- _ => destruct H
                      | H : _ /\ _ |- _ => destruct H end;
    try discriminate; auto.
Qed.

(** C5.  The final status is [Failure] exactly when the overall status is
    [Failed] or the structured aggregate could not be saved; otherwise it is
    [SuccessWithErrors] for [CompletedWithErrors] and [Success] for
    [Completed].  The rendered artifact plays no part: whether it is
    generated, and whatever the blob store answers to an upload under any
    other key than the aggregate's, the final status is the same. *)
Theorem final_status_ignores_rendering
        (E : env) (ev : event) (bucket : string)
        (r : response) (puts : list put_request) :
  BUCKET_NAME E = Some bucket ->
  s3_page_result_uris ev <> [] ->
  lambda_handler E ev = (Returned r, puts) ->
  let uris := s3_page_result_uris ev in
  let st := load_all E bucket uris in
  (exists pages,
      sort_by (fun x => page_sort_key (JObj x)) (combined_pages_data st) = Ok pages
      /\ (status r = "Failure"
          <-> processing_status st uris = "Failed" \/ save_error E ev st pages = true)
      /\ (status r = "SuccessWithErrors"
          <-> processing_status st uris = "CompletedWithErrors"
              /\ save_error E ev st pages = false)
      /\ (status r = "Success"
          <-> processing_status st uris = "Completed"
              /\ save_error E ev st pages = false))
  /\ (forall put,
         (forall body content_type,
             put (s3_final_key_of E ev) body content_type
             = put_object E (s3_final_key_of E ev) body content_type) ->
         exists r' puts',
           lambda_handler (with_put_object E put) ev = (Returned r', puts')
           /\ status r' = status r).
Proof.
  intros Hb Hne Hr uris st.
  pose proof (lambda_handler_bucket E ev bucket r puts Hb Hr) as Hbne.
  apply (lambda_handler_combine E ev bucket r puts Hb Hne) in Hr.
  apply combine_returned in Hr. fold uris st in Hr.
  destruct Hr as (pages & fu & fp & Hsort & _ & _ & Hstatus & _).
  split.
  - exists pages. split; [exact Hsort|].
    rewrite Hstatus. fold (save_error E ev st pages).
    apply final_status_table, processing_status_values.
  - intros put Hput.
    unfold lambda_handler. simpl BUCKET_NAME. rewrite Hb.
    destruct bucket; [contradiction|].
    destruct (s3_page_result_uris ev) eqn:Huris; [contradiction|].
    unfold combine. rewrite Huris. fold uris. cbv zeta.
    change (load_all (with_put_object E put) (String a bucket) uris) with st.
    unfold uris in Hsort. rewrite Hsort.
    destruct (render_and_upload (with_put_object E put) _ ev _) as [fu' fp'].
    change (s3_final_key_of (with_put_object E put) ev) with (s3_final_key_of E ev).
    simpl put_object. simpl json_dumps. rewrite Hput.
    rewrite Hstatus.
    destruct (put_object E _ _ _); eexists; eexists; split; reflexivity.
Qed.

(** C5, on the three references above, with the upload of the rendered
    Markdown refused by the store. *)
Lemma final_status_ignores_rendering_witness :
  let E := Fixtures.store_env Fixtures.three_pages_store Fixtures.three_pages_parsed
                              ["final-outputs/run1/doc_combined.md"] (fun _ => "{}") in
  let ev := Fixtures.three_pages_event "markdown" in
  exists r puts,
    (BUCKET_NAME E = Some "bkt"
     /\ s3_page_result_uris ev <> []
     /\ lambda_handler E ev = (Returned r, puts))
    /\ status r = "SuccessWithErrors"
    /\ map fst (final_outputs_s3_uris r) = ["json"]
    /\ map put_key puts
       = ["final-outputs/run1/doc_aggregated_results.json";
          "final-outputs/run1/doc_combined.md"].
Proof.
  intros E ev.
  destruct (lambda_handler E ev) as [res puts] eqn:Hrun.
  vm_compute in Hrun. injection Hrun as <- <-.
  eexists. eexists.
  assert (Hb : BUCKET_NAME E = Some "bkt") by reflexivity.
  assert (Hne : s3_page_result_uris ev <> []) by discriminate.
  assert (Hr : lambda_handler E ev = _) by (vm_compute; reflexivity).
  split; [split; [exact Hb|split; [exact Hne|exact Hr]]|].
  destruct (final_status_ignores_rendering E ev "bkt" _ _ Hb Hne Hr)
    as ((pages & Hsort & _ & Hwith & _) & _).
  split; [|split; reflexivity].
  apply Hwith. vm_compute in Hsort. injection Hsort as <-.
  split; vm_compute; reflexivity.
Defined.

(** C10.  The estimator answers [N] only for a stem that ends in [_page_N]
    or [_page_N_result].  A stem that ends in [_page_N_results], the name
    the page processor writes, has no estimate: the error record of such a
    reference carries no page number, and a page loaded from it without a
    page number of its own is numbered by the count of pages loaded so far
    plus one. *)
Theorem results_suffix_is_not_estimated :
  (forall key n,
      extract_page_number_from_path key = Some n ->
      exists pre s,
        (PyStr.path_stem key = (pre ++ "_page_" ++ s)%string
         \/ PyStr.path_stem key = (pre ++ "_page_" ++ s ++ "_result")%string)
        /\ PyStr.py_int s = Some n)
  /\ (forall (E : env) (bucket : string) (st : load_state) (uri pre N : string),
         PyStr.path_stem (s3_key_of bucket uri)
         = (pre ++ "_page_" ++ N ++ "_results")%string ->
         extract_page_number_from_path (s3_key_of bucket uri) = None
         /\ (loads E bucket uri = false ->
             exists why,
               load_errors (process_uri E bucket st uri)
               = load_errors st ++ [LoadError uri why None])
         /\ (forall page fmt,
                fetch_page E (s3_key_of bucket uri) = Ok (page, fmt) ->
                dict_get_default "page_number" JNull page = JNull ->
                combined_pages_data (process_uri E bucket st uri)
                = combined_pages_data st
                    ++ [dict_set "page_number"
                                 (JInt (Z.of_nat (successful_page_count st) + 1))
                                 page]))
  /\ (forall (image coord : Type) (P : PageProcessor.env image coord)
             (page : PageProcessor.event),
         extract_page_number_from_path
           (PageProcessor.PAGE_RESULTS_PREFIX image coord P ++ "/"
              ++ PageProcessor.run_uuid page ++ "/"
              ++ PageProcessor.result_filename page)
         = None).
Proof.
  split; [exact EstimatorFacts.estimate_only_for_page_suffix|].
  split; [|exact EstimatorFacts.page_processor_key_not_estimated].
  intros E bucket st uri pre N Hstem.
  assert (Hnone : extract_page_number_from_path (s3_key_of bucket uri) = None).
  { apply (EstimatorFacts.no_estimate_for_results_suffix _ (pre ++ "_page_" ++ N)).
    rewrite Hstem. rewrite !PyStrFacts.append_assoc. reflexivity. }
  split; [exact Hnone|]. split.
  - intros Hl. destruct (process_uri_failed E bucket st uri Hl) as (e & _ & Hstep).
    rewrite Hstep, Hnone. eexists. reflexivity.
  - intros page fmt Hfetch Hnull.
    unfold process_uri, load_page. rewrite Hfetch, Hnone. simpl.
    unfold backfill_page_number. rewrite Hnull. reflexivity.
Qed.

(** C10, on references named as the page processor names them. *)
Lemma results_suffix_is_not_estimated_witness :
  let broken := Fixtures.store_env Fixtures.three_pages_store
                                   Fixtures.three_pages_parsed [] (fun _ => "{}") in
  let bare := Fixtures.store_env Fixtures.unnumbered_store
                                 Fixtures.unnumbered_parsed [] (fun _ => "{}") in
  let st := load_all bare "bkt" [Fixtures.result_uri 2] in
  PyStr.path_stem (s3_key_of "bkt" (Fixtures.result_uri 2)) = "doc_page_2_results"
  /\ extract_page_number_from_path (s3_key_of "bkt" (Fixtures.result_uri 2)) = None
  /\ map page_num_estimated
         (load_errors (process_uri broken "bkt" initial_state (Fixtures.result_uri 2)))
     = [None]
  /\ map (dict_get "page_number")
         (combined_pages_data (process_uri bare "bkt" st (Fixtures.result_uri 1)))
     = [Some (JInt 1); Some (JInt 2)].
Proof.
  intros broken bare st.
  assert (Hstem : PyStr.path_stem (s3_key_of "bkt" (Fixtures.result_uri 2))
                  = ("doc" ++ "_page_" ++ "2" ++ "_results")%string) by reflexivity.
  destruct results_suffix_is_not_estimated as (_ & Hrule & _).
  destruct (Hrule broken "bkt" initial_state (Fixtures.result_uri 2) "doc" "2" Hstem)
    as (Hnone & Herr & _).
  split; [exact Hstem|]. split; [exact Hnone|]. split.
  - destruct (Herr eq_refl) as (why & Hwhy). rewrite Hwhy. reflexivity.
  - assert (Hstem1 : PyStr.path_stem (s3_key_of "bkt" (Fixtures.result_uri 1))
                     = ("doc" ++ "_page_" ++ "1" ++ "_results")%string) by reflexivity.
    destruct (Hrule bare "bkt" st (Fixtures.result_uri 1) "doc" "1" Hstem1)
      as (_ & _ & Hpage).
    rewrite (Hpage _ _ eq_refl eq_refl). reflexivity.
Defined.

End AggregatorFacts.

(** ** Sorting by page number *)

Module SortFacts.
Import Py.

Lemma key_lt_orderable (a b : sort_key) :
  orderable a -> orderable b ->
  key_lt a b = Ok (rank_ltb (key_rank a) (key_rank b)).
Proof.
  destruct a as [[| | x | | | |]|]; simpl; try contradiction; intros _;
    destruct b as [[| | y | | | |]|]; simpl; try contradiction; intros _;
    try reflexivity.
  unfold scale. rewrite Z.min_id, Z.sub_diag, Z.pow_0_r, !Z.mul_1_r. reflexivity.
Qed.

Lemma rank_le_trans (a b c : option Z) :
  rank_le a b -> rank_le b c -> rank_le a c.
Proof.
  unfold rank_le.
  destruct a as [x|], b as [y|], c as [z|]; simpl; try congruence;
    rewrite ?Z.ltb_ge; lia.
Qed.

Lemma rank_ltb_le (a b : option Z) : rank_ltb a b = true -> rank_le a b.
Proof.
  unfold rank_le. destruct a as [x|], b as [y|]; simpl; try congruence.
  rewrite Z.ltb_lt, Z.ltb_ge. lia.
Qed.

Lemma rank_le_antisym (a b : option Z) : rank_le a b -> rank_le b a -> a = b.
Proof.
  unfold rank_le. destruct a as [x|], b as [y|]; simpl; try congruence.
  rewrite !Z.ltb_ge. intros. f_equal. lia.
Qed.

Section Keyed.
Context {A : Type}.

Local Abbreviation keyed := (sort_key * A)%type.

Lemma insert_sorted_spec (x : keyed) (l : list keyed) :
  orderable (fst x) -> all_orderable l ->
  exists r,
    insert_sorted x l = Ok r
    /\ Permutation (x :: l) r
    /\ (StronglySorted key_le l -> StronglySorted key_le r).
Proof.
  intros Hx. induction l as [|y l IH]; intros Hl.
  - exists [x]. repeat split; auto. intros _. repeat constructor.
  - inversion Hl as [|? ? Hy Hl']; subst.
    destruct (IH Hl') as (r & Hr & Hperm & Hsorted).
    simpl. rewrite (key_lt_orderable _ _ Hy Hx). simpl.
    destruct (rank_ltb (key_rank (fst y)) (key_rank (fst x))) eqn:Hlt.
    + rewrite Hr. simpl. exists (y :: r). split; [reflexivity|]. split.
      * rewrite perm_swap. apply perm_skip. exact Hperm.
      * intros Hs. inversion Hs as [|? ? Hs' Hall]; subst.
        constructor; [auto|].
        apply (Permutation_Forall Hperm). constructor; [|exact Hall].
        apply rank_ltb_le. exact Hlt.
    + exists (x :: y :: l). split; [reflexivity|]. split; [reflexivity|].
      intros Hs. constructor; [exact Hs|].
      inversion Hs as [|? ? Hs' Hall]; subst.
      constructor; [exact Hlt|].
      eapply Forall_impl; [|exact Hall]. intros z Hz.
      eapply rank_le_trans; [exact Hlt|exact Hz].
Qed.

Lemma sort_keyed_spec (l : list keyed) :
  all_orderable l ->
  exists r,
    sort_keyed l = Ok r /\ Permutation l r /\ StronglySorted key_le r.
Proof.
  induction l as [|x l IH]; intros Hl.
  - exists []. repeat split; auto. constructor.
  - inversion Hl as [|? ? Hx Hl']; subst.
    destruct (IH Hl') as (s & Hs & Hperm & Hsorted).
    assert (Hso : all_orderable s) by (apply (Permutation_Forall Hperm); exact Hl').
    destruct (insert_sorted_spec x s Hx Hso) as (r & Hr & Hperm' & Hsorted').
    exists r. simpl. rewrite Hs. simpl. split; [exact Hr|]. split.
    + rewrite <- Hperm'. apply perm_skip. exact Hperm.
    + auto.
Qed.

(** Two ascending arrangements of the same elements coincide when elements
    with the same key are the same element. *)
Lemma sorted_permutation_unique (l1 l2 : list keyed) :
  StronglySorted key_le l1 -> StronglySorted key_le l2 ->
  Permutation l1 l2 ->
  (forall a b, In a l1 -> In b l1 ->
               key_rank (fst a) = key_rank (fst b) -> a = b) ->
  l1 = l2.
Proof.
  revert l2. induction l1 as [|a l1 IH]; intros l2 H1 H2 Hperm Hinj.
  - apply Permutation_nil in Hperm. congruence.
  - destruct l2 as [|b l2].
    + apply Permutation_sym, Permutation_nil in Hperm. discriminate.
    + inversion H1 as [|? ? H1' Ha]; subst.
      inversion H2 as [|? ? H2' Hb]; subst.
      assert (Hab : a = b).
      { assert (Hina : In a (b :: l2)) by (apply (Permutation_in _ Hperm); left; reflexivity).
        assert (Hinb : In b (a :: l1))
          by (apply (Permutation_in _ (Permutation_sym Hperm)); left; reflexivity).
        destruct Hina as [->|Hina]; [reflexivity|].
        destruct Hinb as [->|Hinb]; [reflexivity|].
        apply Hinj; [left; reflexivity|right; exact Hinb|].
        apply rank_le_antisym.
        - rewrite Forall_forall in Ha. exact (Ha b Hinb).
        - rewrite Forall_forall in Hb. exact (Hb a Hina). }
      subst b. f_equal.
      apply IH; try assumption.
      * eapply Permutation_cons_inv. exact Hperm.
      * intros x y Hx Hy. apply Hinj; right; assumption.
Qed.
End Keyed.

(** A sort that succeeds rearranges its input, whatever the keys. *)
Lemma insert_sorted_permutes {A : Type} (x : sort_key * A) (l r : list (sort_key * A)) :
  insert_sorted x l = Ok r -> Permutation (x :: l) r.
Proof.
  revert r. induction l as [|y l IH]; intros r; simpl.
  - intros H. injection H as <-. apply Permutation_refl.
  - destruct (key_lt (fst y) (fst x)) as [[|]|e]; simpl; try discriminate.
    + destruct (insert_sorted x l) as [r'|e]; simpl; [|discriminate].
      intros H. injection H as <-.
      apply (perm_trans (l' := y :: x :: l)); [apply perm_swap|].
      apply perm_skip. apply IH. reflexivity.
    + intros H. injection H as <-. apply Permutation_refl.
Qed.

Lemma sort_keyed_permutes {A : Type} (l r : list (sort_key * A)) :
  sort_keyed l = Ok r -> Permutation l r.
Proof.
  revert r. induction l as [|x l IH]; intros r; simpl.
  - intros H. injection H as <-. constructor.
  - destruct (sort_keyed l) as [s|e]; simpl; [|discriminate].
    intros H. apply insert_sorted_permutes in H.
    apply (perm_trans (l' := x :: s)); [apply perm_skip; apply IH; reflexivity|exact H].
Qed.

Lemma decorate_elements {A : Type} (key : A -> result sort_key)
      (l : list A) (d : list (sort_key * A)) :
  decorate key l = Ok d -> map snd d = l.
Proof.
  revert d. induction l as [|x l IH]; intros d; simpl.
  - intros H. injection H as <-. reflexivity.
  - destruct (key x) as [k|e]; simpl; [|discriminate].
    destruct (decorate key l) as [d'|e]; simpl; [|discriminate].
    intros H. injection H as <-. simpl. rewrite (IH d' eq_refl). reflexivity.
Qed.

Lemma sort_by_permutes {A : Type} (key : A -> result sort_key) (l r : list A) :
  sort_by key l = Ok r -> Permutation l r.
Proof.
  unfold sort_by.
  destruct (decorate key l) as [d|e] eqn:Hd; simpl; [|discriminate].
  destruct (sort_keyed d) as [s|e] eqn:Hs; simpl; [|discriminate].
  intros H. injection H as <-.
  rewrite <- (decorate_elements key l d Hd).
  apply Permutation_map. apply sort_keyed_permutes. exact Hs.
Qed.

(** The sort of a list whose keys are integers or infinity: it succeeds,
    rearranges, and puts the keys in ascending order. *)
Lemma sort_by_spec {A : Type} (key : A -> sort_key) (l : list A) :
  Forall (fun x => orderable (key x)) l ->
  exists r,
    sort_by (fun x => Ok (key x)) l = Ok r
    /\ Permutation l r
    /\ StronglySorted (fun a b => rank_le (key_rank (key a)) (key_rank (key b))) r
    /\ sort_keyed (map (fun x => (key x, x)) l) = Ok (map (fun x => (key x, x)) r).
Proof.
  intros Hl.
  assert (Hdec : decorate (fun x => Ok (key x)) l = Ok (map (fun x => (key x, x)) l)).
  { clear Hl. induction l as [|x l IH]; [reflexivity|]. simpl. rewrite IH. reflexivity. }
  assert (Hko : all_orderable (map (fun x => (key x, x)) l)).
  { unfold all_orderable. rewrite Forall_map. exact Hl. }
  destruct (sort_keyed_spec _ Hko) as (s & Hs & Hperm & Hsorted).
  assert (Hshape : s = map (fun x => (key x, x)) (map snd s)).
  { assert (Hall : Forall (fun p => fst p = key (snd p)) s).
    { apply (Permutation_Forall Hperm). rewrite Forall_map.
      apply Forall_forall. reflexivity. }
    clear - Hall. induction Hall as [|[k x] s Hk _ IH]; [reflexivity|].
    simpl in *. rewrite <- IH. congruence. }
  exists (map snd s). unfold sort_by. rewrite Hdec. simpl. rewrite Hs. simpl.
  split; [reflexivity|]. split; [|split].
  - apply (Permutation_map snd) in Hperm. rewrite map_map in Hperm. simpl in Hperm.
    rewrite map_id in Hperm. exact Hperm.
  - rewrite Hshape in Hsorted. clear - Hsorted.
    induction (map snd s) as [|x r IH]; [constructor|].
    simpl in Hsorted. inversion Hsorted as [|? ? Hs Hall]; subst.
    constructor; [auto|]. rewrite Forall_map in Hall. exact Hall.
  - rewrite <- Hshape. reflexivity.
Qed.

(** Order independence of the sort, for keys that identify their element. *)
Lemma sort_by_permutation {A : Type} (key : A -> sort_key) (l1 l2 : list A) :
  Permutation l1 l2 ->
  Forall (fun x => orderable (key x)) l1 ->
  (forall a b, In a l1 -> In b l1 -> key_rank (key a) = key_rank (key b) -> a = b) ->
  exists r,
    sort_by (fun x => Ok (key x)) l1 = Ok r
    /\ sort_by (fun x => Ok (key x)) l2 = Ok r
    /\ Permutation l1 r
    /\ StronglySorted (fun a b => rank_le (key_rank (key a)) (key_rank (key b))) r.
Proof.
  intros Hperm Hl1 Hinj.
  assert (Hl2 : Forall (fun x => orderable (key x)) l2)
    by (apply (Permutation_Forall Hperm); exact Hl1).
  destruct (sort_by_spec key l1 Hl1) as (r1 & Hr1 & Hp1 & Hs1 & _).
  destruct (sort_by_spec key l2 Hl2) as (r2 & Hr2 & Hp2 & Hs2 & _).
  exists r1. split; [exact Hr1|]. split; [|split; assumption].
  rewrite Hr2. f_equal.
  assert (Heq : map (fun x => (key x, x)) r2 = map (fun x => (key x, x)) r1).
  { apply sorted_permutation_unique.
    - clear - Hs2. induction Hs2 as [|x r _ IH Hall]; simpl; constructor; auto.
      rewrite Forall_map. exact Hall.
    - clear - Hs1. induction Hs1 as [|x r _ IH Hall]; simpl; constructor; auto.
      rewrite Forall_map. exact Hall.
    - apply Permutation_map.
      rewrite <- Hp2, <- Hp1. apply Permutation_sym. exact Hperm.
    - intros a b Ha Hb Hk.
      apply in_map_iff in Ha. destruct Ha as (x & <- & Hx).
      apply in_map_iff in Hb. destruct Hb as (y & <- & Hy).
      simpl in Hk. f_equal; [|].
      + f_equal. apply Hinj; try assumption;
          apply (Permutation_in _ (Permutation_sym (Permutation_trans Hperm Hp2)));
          assumption.
      + apply Hinj; try assumption;
          apply (Permutation_in _ (Permutation_sym (Permutation_trans Hperm Hp2)));
          assumption. }
  apply (f_equal (map snd)) in Heq. rewrite !map_map in Heq. simpl in Heq.
  rewrite !map_id in Heq. exact Heq.
Qed.

End SortFacts.

(** ** Re-aggregation *)

Module ReaggregationFacts.
Import Py Combiner SortFacts.

Section Views.
Variable E : env.
Variable bucket : string.

(** One iteration, in terms of what the reference contributes. *)
Lemma process_uri_views (st : load_state) (uri : string) :
  combined_pages_data (process_uri E bucket st uri)
  = combined_pages_data st ++ page_of E bucket (successful_page_count st) uri
  /\ load_errors (process_uri E bucket st uri)
     = load_errors st ++ error_of E bucket uri.
Proof.
  unfold process_uri, load_page, page_of, error_of.
  destruct (fetch_page E (s3_key_of bucket uri)) as [fetched|e]; simpl.
  - rewrite app_nil_r. split; reflexivity.
  - rewrite app_nil_r. split; reflexivity.
Qed.

Lemma page_of_counter_free (uri : string) (n : nat) :
  counter_free E bucket uri ->
  page_of E bucket n uri = page_of E bucket 0 uri.
Proof.
  unfold counter_free, page_of. intros Hfree.
  destruct (fetch_page E (s3_key_of bucket uri)) as [[x fmt]|e]; [|reflexivity].
  specialize (Hfree x fmt eq_refl). simpl. unfold backfill_page_number.
  destruct (dict_get_default "page_number" JNull x); try reflexivity.
  destruct (extract_page_number_from_path (s3_key_of bucket uri));
    [reflexivity|]. destruct Hfree; congruence.
Qed.

(** The errors of a run are the errors of its references, in order. *)
Lemma load_errors_fold (uris : list string) (st : load_state) :
  load_errors (fold_left (process_uri E bucket) uris st)
  = load_errors st ++ flat_map (error_of E bucket) uris.
Proof.
  revert st. induction uris as [|u uris IH]; intros st; simpl.
  - rewrite app_nil_r. reflexivity.
  - rewrite IH. destruct (process_uri_views st u) as (_ & ->).
    rewrite <- app_assoc. reflexivity.
Qed.

(** So are its pages, when no reference needs the counter. *)
Lemma combined_pages_fold (uris : list string) (st : load_state) :
  (forall u, In u uris -> counter_free E bucket u) ->
  combined_pages_data (fold_left (process_uri E bucket) uris st)
  = combined_pages_data st ++ flat_map (page_of E bucket 0) uris.
Proof.
  revert st. induction uris as [|u uris IH]; intros st Hfree; simpl.
  - rewrite app_nil_r. reflexivity.
  - rewrite IH by (intros v Hv; apply Hfree; right; exact Hv).
    destruct (process_uri_views st u) as (-> & _).
    rewrite page_of_counter_free by (apply Hfree; left; reflexivity).
    rewrite <- app_assoc. reflexivity.
Qed.
Lemma dict_get_set_other (k k' : string) (v : json) (d : dict) :
  k <> k' -> dict_get k (dict_set k' v d) = dict_get k d.
Proof.
  intros Hne. induction d as [|[k0 v0] d IH]; simpl.
  - destruct (String.eqb_spec k k'); [contradiction|reflexivity].
  - destruct (String.eqb_spec k' k0) as [->|Hk0]; simpl.
    + destruct (String.eqb_spec k k0); [contradiction|reflexivity].
    + rewrite IH. reflexivity.
Qed.

Lemma backfill_keeps_format (page : dict) (estimate : option Z) (n : nat) :
  dict_get "output_format" (backfill_page_number page estimate n)
  = dict_get "output_format" page.
Proof.
  unfold backfill_page_number.
  destruct (dict_get_default "page_number" JNull page); try reflexivity.
  destruct estimate; apply dict_get_set_other; discriminate.
Qed.

(** A page that passed the loop has a string as its format. *)
Lemma page_of_format (n : nat) (uri : string) (page : dict) :
  In page (page_of E bucket n uri) -> format_is_text page.
Proof.
  unfold page_of, fetch_page.
  destruct (get_object_text E _) as [body|e]; simpl; [|tauto].
  destruct (json_loads E body) as [data|e]; simpl; [|tauto].
  destruct (validate_and_extract_page_data data) as [valid x].
  destruct valid; simpl; [|tauto].
  destruct (dict_get_default "output_format" (JStr "unknown") x) as [| | | |f| |] eqn:Hf;
    simpl; try tauto.
  intros [<-|[]]. unfold format_is_text, dict_get_default in *.
  rewrite backfill_keeps_format.
  destruct (dict_get "output_format" x) as [v|]; [|eexists; reflexivity].
  subst v. eexists. reflexivity.
Qed.

(** So every page of the aggregate has. *)
Lemma loaded_pages_format (uris : list string) (st : load_state) :
  Forall format_is_text (combined_pages_data st) ->
  Forall format_is_text (combined_pages_data (fold_left (process_uri E bucket) uris st)).
Proof.
  revert st. induction uris as [|u uris IH]; intros st Hst; simpl; [exact Hst|].
  apply IH. destruct (process_uri_views st u) as (-> & _).
  apply Forall_app. split; [exact Hst|].
  apply Forall_forall. intros page. apply page_of_format.
Qed.

Lemma sorted_pages_format (uris : list string) (pages : list dict) :
  sorted_pages E bucket uris = Ok pages -> Forall format_is_text pages.
Proof.
  unfold sorted_pages. intros Hsort.
  apply sort_by_permutes in Hsort. apply (Permutation_Forall Hsort).
  apply loaded_pages_format. constructor.
Qed.
End Views.

(** C7, as amended.  Aggregating the same references in another order
    gives the same list of pages, in ascending order of page number, and the
    same load-error records up to their order, provided that every page
    takes its number from its own content or from the name of its reference
    rather than from the counter of pages loaded so far, that these numbers
    are integers, and that two pages with the same number are the same page. *)
Theorem reaggregation_order_independent
        (E : env) (bucket : string) (uris1 uris2 : list string) :
  Permutation uris1 uris2 ->
  (forall u, In u uris1 -> counter_free E bucket u) ->
  (forall u p, In u uris1 -> In p (page_of E bucket 0 u) ->
               exists z, dict_get "page_number" p = Some (JInt z)) ->
  (forall u v p q,
      In u uris1 -> In v uris1 ->
      In p (page_of E bucket 0 u) -> In q (page_of E bucket 0 v) ->
      dict_get "page_number" p = dict_get "page_number" q -> p = q) ->
  exists pages,
    sorted_pages E bucket uris1 = Ok pages
    /\ sorted_pages E bucket uris2 = Ok pages
    /\ StronglySorted
         (fun p q => rank_le (key_rank (page_key p)) (key_rank (page_key q))) pages
    /\ Permutation (load_errors (load_all E bucket uris1))
                   (load_errors (load_all E bucket uris2)).
Proof.
  intros Hperm Hfree Hint Hinj.
  assert (Hfree2 : forall u, In u uris2 -> counter_free E bucket u).
  { intros u Hu. apply Hfree. apply (Permutation_in _ (Permutation_sym Hperm)). exact Hu. }
  unfold sorted_pages, load_all.
  rewrite !combined_pages_fold by assumption. rewrite !load_errors_fold. simpl.
  assert (Hpages : Permutation (flat_map (page_of E bucket 0) uris1)
                               (flat_map (page_of E bucket 0) uris2))
    by (apply Permutation_flat_map; exact Hperm).
  assert (Hkey : forall p, In p (flat_map (page_of E bucket 0) uris1) ->
                           exists z, page_key p = KVal (JInt z)).
  { intros p Hp. apply in_flat_map in Hp. destruct Hp as (u & Hu & Hp).
    destruct (Hint u p Hu Hp) as (z & Hz). exists z. unfold page_key. rewrite Hz.
    reflexivity. }
  destruct (sort_by_permutation page_key _ _ Hpages) as (r & H1 & H2 & _ & Hsorted).
  - apply Forall_forall. intros p Hp. destruct (Hkey p Hp) as (z & ->). exact I.
  - intros p q Hp Hq Hrank.
    destruct (Hkey p Hp) as (z & Hz). destruct (Hkey q Hq) as (z' & Hz').
    rewrite Hz, Hz' in Hrank. simpl in Hrank.
    apply in_flat_map in Hp. destruct Hp as (u & Hu & Hp).
    apply in_flat_map in Hq. destruct Hq as (v & Hv & Hq).
    apply (Hinj u v p q Hu Hv Hp Hq).
    unfold page_key in Hz, Hz'.
    destruct (dict_get "page_number" p); [|discriminate].
    destruct (dict_get "page_number" q); [|discriminate]. congruence.
  - exists r. split; [exact H1|]. split; [exact H2|]. split; [exact Hsorted|].
    apply Permutation_flat_map. exact Hperm.
Qed.

(** C7 as stated fails: two page results without a page number, under
    names that yield no estimate, are numbered by their position in the
    input, so the order of the pages follows the order of the references. *)
Lemma reaggregation_depends_on_order :
  ~ (forall (E : env) (bucket : string) (uris1 uris2 : list string),
        Permutation uris1 uris2 ->
        sorted_pages E bucket uris1 = sorted_pages E bucket uris2).
Proof.
  intros Hclaim.
  specialize (Hclaim (Fixtures.store_env Fixtures.unnumbered_store
                                         Fixtures.unnumbered_parsed [] (fun _ => "{}"))
                     "bkt"
                     [Fixtures.result_uri 1; Fixtures.result_uri 2]
                     [Fixtures.result_uri 2; Fixtures.result_uri 1]
                     (perm_swap _ _ [])).
  vm_compute in Hclaim. discriminate Hclaim.
Qed.

(** The two runs of the counterexample, page by page. *)
Example unnumbered_pages_follow_input_order :
  let E := Fixtures.store_env Fixtures.unnumbered_store Fixtures.unnumbered_parsed []
                              (fun _ => "{}") in
  let content r :=
    match r with
    | Ok pages =>
        map (fun p => (dict_get "page_number" p, dict_get "grounded_output" p)) pages
    | Raise _ => []
    end in
  content (sorted_pages E "bkt" [Fixtures.result_uri 1; Fixtures.result_uri 2])
  = [ (Some (JInt 1), Some (JStr "First")); (Some (JInt 2), Some (JStr "Second")) ]
  /\ content (sorted_pages E "bkt" [Fixtures.result_uri 2; Fixtures.result_uri 1])
     = [ (Some (JInt 1), Some (JStr "Second")); (Some (JInt 2), Some (JStr "First")) ].
Proof. split; vm_compute; reflexivity. Qed.

(** C7 as amended, on the three references of which the second is not
    JSON, forwards and backwards. *)
Lemma reaggregation_order_independent_witness :
  let E := Fixtures.store_env Fixtures.three_pages_store Fixtures.three_pages_parsed []
                              (fun _ => "{}") in
  let forwards := [Fixtures.result_uri 1; Fixtures.result_uri 2; Fixtures.result_uri 3] in
  let backwards := [Fixtures.result_uri 3; Fixtures.result_uri 2; Fixtures.result_uri 1] in
  Permutation forwards backwards
  /\ (forall u, In u forwards -> counter_free E "bkt" u)
  /\ exists pages,
      sorted_pages E "bkt" forwards = Ok pages
      /\ sorted_pages E "bkt" backwards = Ok pages
      /\ map (dict_get "grounded_output") pages
         = [Some (JStr "First"); Some (JStr "Third")]
      /\ Permutation (load_errors (load_all E "bkt" forwards))
                     (load_errors (load_all E "bkt" backwards)).
Proof.
  intros E forwards backwards.
  assert (Hperm : Permutation forwards backwards).
  { unfold forwards, backwards.
    apply (perm_trans (l' := [Fixtures.result_uri 2; Fixtures.result_uri 3;
                               Fixtures.result_uri 1])).
    - apply (perm_trans (l' := [Fixtures.result_uri 2; Fixtures.result_uri 1;
                                 Fixtures.result_uri 3])).
      + apply perm_swap.
      + apply perm_skip. apply perm_swap.
    - apply perm_swap. }
  assert (Hfree : forall u, In u forwards -> counter_free E "bkt" u).
  { intros u [<-|[<-|[<-|[]]]] x fmt Hfetch; vm_compute in Hfetch;
      try discriminate Hfetch; injection Hfetch as <- <-; left; discriminate. }
  assert (Hint : forall u p, In u forwards -> In p (page_of E "bkt" 0 u) ->
                             exists z, dict_get "page_number" p = Some (JInt z)).
  { intros u p [<-|[<-|[<-|[]]]] Hp; vm_compute in Hp;
      try contradiction; destruct Hp as [<-|[]]; eexists; reflexivity. }
  assert (Hinj : forall u v p q,
             In u forwards -> In v forwards ->
             In p (page_of E "bkt" 0 u) -> In q (page_of E "bkt" 0 v) ->
             dict_get "page_number" p = dict_get "page_number" q -> p = q).
  { intros u v p q [<-|[<-|[<-|[]]]] [<-|[<-|[<-|[]]]] Hp Hq;
      vm_compute in Hp; vm_compute in Hq; try contradiction;
      destruct Hp as [<-|[]]; destruct Hq as [<-|[]]; intros Hk;
      first [reflexivity | discriminate Hk]. }
  split; [exact Hperm|]. split; [exact Hfree|].
  destruct (reaggregation_order_independent E "bkt" forwards backwards
                                            Hperm Hfree Hint Hinj)
    as (pages & H1 & H2 & _ & Herr).
  exists pages. split; [exact H1|]. split; [exact H2|]. split; [|exact Herr].
  vm_compute in H1. injection H1 as <-. reflexivity.
Defined.

End ReaggregationFacts.

(** ** Rendering *)

Module RenderFacts.
Import Py Combiner SortFacts.

Section Payload.
Context {A B : Type} (f : A -> B).

Local Abbreviation relabel := (Py.relabel f).

(** The sort looks at the keys only. *)
Lemma insert_sorted_relabel (x : sort_key * A) (l : list (sort_key * A)) :
  insert_sorted (relabel x) (map relabel l) = lift (map relabel) (insert_sorted x l).
Proof.
  induction l as [|y l IH]; [reflexivity|].
  simpl. destruct (key_lt (fst y) (fst x)) as [[|]|e]; simpl; try reflexivity.
  rewrite IH. destruct (insert_sorted x l); reflexivity.
Qed.

Lemma sort_keyed_relabel (l : list (sort_key * A)) :
  sort_keyed (map relabel l) = lift (map relabel) (sort_keyed l).
Proof.
  induction l as [|x l IH]; [reflexivity|].
  simpl. rewrite IH. destruct (sort_keyed l) as [s|e]; simpl; [|reflexivity].
  apply insert_sorted_relabel.
Qed.

Lemma decorate_map (key : B -> result sort_key) (l : list A) :
  decorate key (map f l) = lift (map relabel) (decorate (fun x => key (f x)) l).
Proof.
  induction l as [|x l IH]; [reflexivity|].
  simpl. destruct (key (f x)); simpl; [|reflexivity].
  rewrite IH. destruct (decorate _ l); reflexivity.
Qed.

Lemma sort_by_map (key : B -> result sort_key) (l : list A) :
  sort_by key (map f l) = lift (map f) (sort_by (fun x => key (f x)) l).
Proof.
  unfold sort_by. rewrite decorate_map.
  destruct (decorate _ l) as [d|e]; simpl; [|reflexivity].
  rewrite sort_keyed_relabel. destruct (sort_keyed d) as [s|e]; simpl; [|reflexivity].
  rewrite !map_map. reflexivity.
Qed.
End Payload.

Section Parts.
Variable dumps : json -> string.

(** The loop over the pages appends the contribution of each page. *)
Lemma collect_parts_spec (pages : list dict) (output_parts : list string) :
  Forall format_is_text pages ->
  collect_parts dumps (map JObj pages) output_parts
  = Ok (output_parts ++ flat_map (page_part dumps) pages).
Proof.
  intros Hfmt. revert output_parts.
  induction Hfmt as [|page pages [f Hf] _ IH]; intros output_parts; simpl.
  - rewrite app_nil_r. reflexivity.
  - rewrite Hf. simpl. unfold page_part.
    destruct (truthy (dict_get_default "grounded_output" JNull page)); simpl.
    + destruct (dict_get_default "grounded_output" JNull page);
        rewrite IH, <- app_assoc; reflexivity.
    + apply IH.
Qed.

(** [enumerate] numbers the parts from [i] on. *)
Lemma number_divs_spec (output_parts : list string) (i : nat) (page_divs : list string) :
  number_divs i output_parts page_divs
  = page_divs
      ++ map (fun ip => page_div (fst ip) (snd ip))
             (List.combine (seq i (List.length output_parts)) output_parts).
Proof.
  revert i page_divs. induction output_parts as [|part rest IH]; intros i page_divs; simpl.
  - rewrite app_nil_r. reflexivity.
  - rewrite IH, <- app_assoc. reflexivity.
Qed.

Lemma page_part_text (page : dict) :
  carries_text page = true -> page_part dumps page = [grounded_text page].
Proof.
  unfold carries_text, page_part, grounded_text, dict_get_default.
  destruct (dict_get "grounded_output" page) as [[| | | |s| |]|]; try discriminate.
  simpl. intros ->. reflexivity.
Qed.

Lemma page_part_skipped (page : dict) :
  truthy (dict_get_default "grounded_output" JNull page) = false ->
  page_part dumps page = [].
Proof. unfold page_part. intros ->. reflexivity. Qed.

(** The body of [generate_format_from_json] for an aggregate whose pages
    carry integer page numbers, or none, and a string format. *)
Lemma generate_sorted_parts (agg : dict) (pages : list dict) (fmt : string) :
  dict_get "pages" agg = Some (JArr (map JObj pages)) ->
  pages <> [] ->
  in_list fmt supported_formats = true ->
  Forall (fun p => orderable (page_key p)) pages ->
  Forall format_is_text pages ->
  exists sorted,
    Permutation pages sorted
    /\ StronglySorted page_order sorted
    /\ generate_format_from_json dumps (JObj agg) fmt
       = join_parts (PyStr.lower fmt) (flat_map (page_part dumps) sorted).
Proof.
  intros Hpages Hne Hin Hord Htext.
  destruct (sort_by_spec page_key pages Hord) as (sorted & Hsort & Hperm & Hsorted & _).
  exists sorted. split; [exact Hperm|]. split; [exact Hsorted|].
  unfold generate_format_from_json. rewrite Hin. simpl.
  unfold generate_body, dict_get_default. rewrite Hpages.
  destruct pages as [|p pages]; [contradiction|].
  cbn [truthy map negb].
  change (JObj p :: map JObj pages) with (map JObj (p :: pages)).
  rewrite (sort_by_map JObj page_sort_key (p :: pages)).
  assert (Hsort' : @sort_by (list (string * json))
                             (fun x => page_sort_key (JObj x)) (p :: pages)
                   = Ok sorted) by exact Hsort.
  rewrite Hsort'. simpl.
  rewrite collect_parts_spec
    by (apply (Permutation_Forall Hperm); exact Htext).
  reflexivity.
Qed.
End Parts.

Lemma concat_starts_with_head (sep x : string) (l : list string) :
  exists rest, String.concat sep (x :: l) = (x ++ rest)%string.
Proof.
  destruct l as [|y l].
  - exists EmptyString. simpl. symmetry. apply PyStrFacts.append_empty_r.
  - eexists. reflexivity.
Qed.

Lemma concat_ends_with_tail (sep : string) (l1 l2 : list string) :
  l2 <> [] ->
  exists front, String.concat sep (l1 ++ l2) = (front ++ String.concat sep l2)%string.
Proof.
  intros Hne. destruct l1 as [|x l1].
  - exists EmptyString. reflexivity.
  - exists (String.concat sep (x :: l1) ++ sep)%string.
    rewrite PyStrFacts.concat_app by (discriminate || assumption).
    rewrite PyStrFacts.append_assoc. reflexivity.
Qed.

(** The separator stands between any two neighbours of a joined list. *)
Lemma concat_between (sep a b : string) (l1 l2 : list string) :
  exists front back,
    String.concat sep (l1 ++ a :: b :: l2) = (front ++ a ++ sep ++ b ++ back)%string.
Proof.
  destruct (concat_ends_with_tail sep l1 (a :: b :: l2)) as (front & Hfront);
    [discriminate|].
  destruct (concat_starts_with_head sep b l2) as (back & Hback).
  exists front, back. rewrite Hfront.
  change (String.concat sep (a :: b :: l2))
    with (a ++ sep ++ String.concat sep (b :: l2))%string.
  rewrite Hback. reflexivity.
Qed.

Example page_separator_literal :
  page_separator
  = String (ascii_of_nat 10) (String (ascii_of_nat 10)
      ("---" ++ String (ascii_of_nat 10) (String (ascii_of_nat 10) ""))).
Proof. reflexivity. Qed.

(** C8.  For an aggregate in which at least two pages carry a non-empty
    string as grounded content, the Markdown artifact is the contents of
    the pages in ascending order of page number, joined by the separator,
    which is two line feeds, three hyphens and two line feeds: between the
    contents of two such pages that follow each other in the artifact
    stands exactly the separator. *)
Theorem markdown_pages_are_separated
        (dumps : json -> string) (agg : dict) (pages : list dict) :
  let separator :=
    String (ascii_of_nat 10) (String (ascii_of_nat 10)
      ("---" ++ String (ascii_of_nat 10) (String (ascii_of_nat 10) ""))) in
  dict_get "pages" agg = Some (JArr (map JObj pages)) ->
  2 <= List.length (filter carries_text pages) ->
  Forall (fun p => orderable (page_key p) /\ format_is_text p) pages ->
  exists sorted,
    Permutation pages sorted
    /\ StronglySorted page_order sorted
    /\ generate_format_from_json dumps (JObj agg) "markdown"
       = Some (String.concat separator (flat_map (page_part dumps) sorted))
    /\ (forallb carries_text pages = true ->
        generate_format_from_json dumps (JObj agg) "markdown"
        = Some (String.concat separator (map grounded_text sorted)))
    /\ (forall before p skipped q after,
           sorted = before ++ p :: skipped ++ q :: after ->
           carries_text p = true ->
           carries_text q = true ->
           (forall m, In m skipped ->
                      truthy (dict_get_default "grounded_output" JNull m) = false) ->
           exists front back,
             generate_format_from_json dumps (JObj agg) "markdown"
             = Some (front ++ grounded_text p ++ separator
                           ++ grounded_text q ++ back)%string).
Proof.
  intros separator Hpages Hlen Hall.
  change separator with page_separator. clear separator.
  assert (Hne : pages <> []) by (destruct pages; [simpl in Hlen; lia|discriminate]).
  assert (Hord : Forall (fun p => orderable (page_key p)) pages).
  { eapply Forall_impl; [|exact Hall]. intros p (H & _). exact H. }
  assert (Hfmt : Forall format_is_text pages).
  { eapply Forall_impl; [|exact Hall]. intros p (_ & H). exact H. }
  destruct (generate_sorted_parts dumps agg pages "markdown" Hpages Hne eq_refl Hord Hfmt)
    as (sorted & Hperm & Hsorted & Hgen).
  assert (Hout : generate_format_from_json dumps (JObj agg) "markdown"
                 = Some (String.concat page_separator
                                       (flat_map (page_part dumps) sorted))).
  { rewrite Hgen. reflexivity. }
  exists sorted. split; [exact Hperm|]. split; [exact Hsorted|]. split; [exact Hout|].
  split.
  - intros Htext. rewrite Hout. do 2 f_equal.
    assert (Hs : Forall (fun p => carries_text p = true) sorted).
    { apply (Permutation_Forall Hperm). apply Forall_forall.
      rewrite forallb_forall in Htext. exact Htext. }
    clear - Hs. induction Hs as [|p l Hp _ IH]; [reflexivity|].
    simpl. rewrite (page_part_text dumps p Hp), IH. reflexivity.
  - intros before p skipped q after -> Hp Hq Hskipped. rewrite Hout.
    rewrite flat_map_app. simpl flat_map. rewrite flat_map_app. simpl flat_map.
    rewrite (page_part_text dumps p Hp), (page_part_text dumps q Hq).
    assert (Hnone : flat_map (page_part dumps) skipped = []).
    { clear - Hskipped. induction skipped as [|m l IH]; [reflexivity|].
      simpl. rewrite page_part_skipped by (apply Hskipped; left; reflexivity).
      apply IH. intros x Hx. apply Hskipped. right. exact Hx. }
    rewrite Hnone. simpl app.
    destruct (concat_between page_separator (grounded_text p) (grounded_text q)
                             (flat_map (page_part dumps) before)
                             (flat_map (page_part dumps) after))
      as (front & back & Heq).
    exists front, back. rewrite Heq. reflexivity.
Qed.

(** C8, on two pages listed in the wrong order. *)
Lemma markdown_pages_are_separated_witness :
  let pages := [Fixtures.text_page 2 "markdown" "Second";
                Fixtures.text_page 1 "markdown" "First"] in
  let agg := Fixtures.two_pages_doc "markdown" in
  let dumps := fun _ : json => "{}" in
  let separator :=
    String (ascii_of_nat 10) (String (ascii_of_nat 10)
      ("---" ++ String (ascii_of_nat 10) (String (ascii_of_nat 10) ""))) in
  (dict_get "pages" agg = Some (JArr (map JObj pages))
   /\ 2 <= List.length (filter carries_text pages))
  /\ generate_format_from_json dumps (JObj agg) "markdown"
     = Some ("First" ++ separator ++ "Second")%string
  /\ exists sorted,
      Permutation pages sorted
      /\ StronglySorted page_order sorted
      /\ map grounded_text sorted = ["First"; "Second"]
      /\ generate_format_from_json dumps (JObj agg) "markdown"
         = Some (String.concat separator (map grounded_text sorted)).
Proof.
  intros pages agg dumps separator.
  assert (Hlen : 2 <= List.length (filter carries_text pages)) by (simpl; lia).
  split; [split; [reflexivity|exact Hlen]|].
  assert (Hall : Forall (fun p => orderable (page_key p) /\ format_is_text p) pages).
  { repeat constructor; eexists; reflexivity. }
  destruct (markdown_pages_are_separated dumps agg pages eq_refl Hlen Hall)
    as (sorted & Hperm & Hsorted & _ & Htext & _).
  specialize (Htext eq_refl). fold separator in Htext.
  assert (Hout : generate_format_from_json dumps (JObj agg) "markdown"
                 = Some ("First" ++ separator ++ "Second")%string) by reflexivity.
  split; [exact Hout|].
  exists sorted. split; [exact Hperm|]. split; [exact Hsorted|].
  split; [|exact Htext].
  rewrite Hout in Htext. injection Htext as Htext.
  destruct sorted as [|p [|q [|x l]]];
    try (apply Permutation_length in Hperm; discriminate Hperm).
  assert (Hin : forall m, In m [p; q] -> In m pages)
    by (intros m Hm; apply (Permutation_in m (Permutation_sym Hperm) Hm)).
  destruct (Hin p (or_introl eq_refl)) as [<-|[<-|[]]];
    destruct (Hin q (or_intror (or_introl eq_refl))) as [<-|[<-|[]]];
    try reflexivity; vm_compute in Htext; discriminate Htext.
Defined.

(** The artifact of that run: page 1 first, then the separator, then page 2. *)
Example markdown_of_two_pages (dumps : json -> string) :
  generate_format_from_json dumps (JObj (Fixtures.two_pages_doc "markdown")) "markdown"
  = Some ("First" ++ page_separator ++ "Second")%string.
Proof. reflexivity. Qed.

(** C9.  In the HTML artifact a page whose grounded content is missing or
    empty contributes nothing, and the remaining contents are wrapped, in
    page order, in divisions numbered [page-1], [page-2], ... by their
    position among the rendered parts.  The number of a division is thus
    not the page number: when page 1 has no content, page 2 is rendered as
    [page-1]. *)
Theorem html_divisions_are_numbered_by_position
        (dumps : json -> string) (agg : dict) (pages : list dict) :
  dict_get "pages" agg = Some (JArr (map JObj pages)) ->
  pages <> [] ->
  Forall (fun p => orderable (page_key p) /\ format_is_text p) pages ->
  (exists sorted,
      Permutation pages sorted
      /\ StronglySorted page_order sorted
      /\ (forall p, In p sorted ->
                    truthy (dict_get_default "grounded_output" JNull p) = false ->
                    page_part dumps p = [])
      /\ generate_format_from_json dumps (JObj agg) "html"
         = Some (html_head
                   ++ String.concat nl
                        (map (fun ip => page_div (fst ip) (snd ip))
                             (List.combine
                                (seq 0 (List.length (flat_map (page_part dumps) sorted)))
                                (flat_map (page_part dumps) sorted)))
                   ++ html_foot)%string)
  /\ (forall (i : nat) (part : string),
         page_div i part
         = ("<div class=" ++ dq ++ "page" ++ dq ++ " id=" ++ dq ++ "page-"
              ++ PyStr.str_of_Z (Z.of_nat i + 1) ++ dq ++ ">" ++ nl ++ part ++ nl
              ++ "</div>")%string)
  /\ (map page_key [Fixtures.text_page 1 "html" ""; Fixtures.text_page 2 "html" "<p>Second</p>"]
      = [KVal (JInt 1); KVal (JInt 2)]
      /\ generate_format_from_json dumps (JObj Fixtures.skipped_first_doc) "html"
         = Some (html_head
                   ++ ("<div class=" ++ dq ++ "page" ++ dq ++ " id=" ++ dq ++ "page-1"
                         ++ dq ++ ">" ++ nl ++ "<p>Second</p>" ++ nl ++ "</div>")
                   ++ html_foot)%string).
Proof.
  intros Hpages Hne Hall.
  assert (Hord : Forall (fun p => orderable (page_key p)) pages).
  { eapply Forall_impl; [|exact Hall]. intros p (H & _). exact H. }
  assert (Hfmt : Forall format_is_text pages).
  { eapply Forall_impl; [|exact Hall]. intros p (_ & H). exact H. }
  split; [|split; [reflexivity|split; reflexivity]].
  destruct (generate_sorted_parts dumps agg pages "html" Hpages Hne eq_refl Hord Hfmt)
    as (sorted & Hperm & Hsorted & Hgen).
  exists sorted. split; [exact Hperm|]. split; [exact Hsorted|]. split.
  - intros p _ Hfalsy. unfold page_part. rewrite Hfalsy. reflexivity.
  - rewrite Hgen. change (PyStr.lower "html") with "html".
    unfold join_parts. cbn [String.eqb Ascii.eqb Bool.eqb].
    rewrite number_divs_spec. reflexivity.
Qed.

(** C9, on an aggregate whose first page has no grounded content. *)
Lemma html_divisions_are_numbered_by_position_witness :
  let pages := [Fixtures.text_page 1 "html" "";
                Fixtures.text_page 2 "html" "<p>Second</p>"] in
  let dumps := fun _ : json => "{}" in
  (dict_get "pages" Fixtures.skipped_first_doc = Some (JArr (map JObj pages))
   /\ pages <> [])
  /\ exists sorted,
      Permutation pages sorted
      /\ generate_format_from_json dumps (JObj Fixtures.skipped_first_doc) "html"
         = Some (html_head
                   ++ String.concat nl
                        (map (fun ip => page_div (fst ip) (snd ip))
                             (List.combine
                                (seq 0 (List.length (flat_map (page_part dumps) sorted)))
                                (flat_map (page_part dumps) sorted)))
                   ++ html_foot)%string.
Proof.
  intros pages dumps.
  assert (Hne : pages <> []) by discriminate.
  split; [split; [reflexivity|exact Hne]|].
  assert (Hall : Forall (fun p => orderable (page_key p) /\ format_is_text p) pages).
  { repeat constructor; eexists; reflexivity. }
  destruct (html_divisions_are_numbered_by_position
              dumps Fixtures.skipped_first_doc pages eq_refl Hne Hall)
    as ((sorted & Hperm & _ & _ & Hgen) & _).
  exists sorted. split; [exact Hperm|exact Hgen].
Defined.

(** The aggregate the handler builds meets the conditions above as soon as
    the page numbers of its pages are integers: its pages have passed the
    format check of the loading loop. *)
Lemma aggregate_renders (E : env) (bucket : string) (ev : event)
      (pages : list dict) (fmt : string) :
  sorted_pages E bucket (s3_page_result_uris ev) = Ok pages ->
  pages <> [] ->
  in_list fmt supported_formats = true ->
  Forall (fun p => orderable (page_key p)) pages ->
  exists sorted,
    Permutation pages sorted
    /\ StronglySorted page_order sorted
    /\ generate_format_from_json
         (json_dumps E)
         (aggregated_json ev (load_all E bucket (s3_page_result_uris ev)) pages) fmt
       = join_parts (PyStr.lower fmt) (flat_map (page_part (json_dumps E)) sorted).
Proof.
  intros Hpages Hne Hfmt Hord.
  apply (generate_sorted_parts (json_dumps E) _ pages fmt); try assumption.
  - reflexivity.
  - exact (ReaggregationFacts.sorted_pages_format E bucket _ pages Hpages).
Qed.

End RenderFacts.

(** ** Image descriptions *)

Module DescriptionFacts.
Import Py PageProcessor.

Section IndexDictFacts.
Context {V : Type}.

Lemma idict_get_set (k k' : Z) (v : V) (d : idict V) :
  idict_get k (idict_set k' v d)
  = if (k =? k')%Z then Some v else idict_get k d.
Proof.
  induction d as [|[k0 v0] d IH]; simpl.
  - reflexivity.
  - destruct (k' =? k0)%Z eqn:H0; simpl.
    + apply Z.eqb_eq in H0. subst k0. destruct (k =? k')%Z; reflexivity.
    + destruct (k =? k0)%Z eqn:H1.
      * apply Z.eqb_eq in H1. subst k0.
        rewrite Z.eqb_sym in H0. rewrite H0. reflexivity.
      * exact IH.
Qed.

(** A key found after a run of assignments was there before or was
    assigned. *)
Lemma idict_get_fold (kvs : list (Z * V)) (d : idict V) (k : Z) (v : V) :
  idict_get k (fold_left (fun d kv => idict_set (fst kv) (snd kv) d) kvs d) = Some v ->
  idict_get k d = Some v \/ In (k, v) kvs.
Proof.
  revert d. induction kvs as [|[k0 v0] kvs IH]; intros d; simpl; [tauto|].
  intros H. destruct (IH _ H) as [Hd|Hin]; [|tauto].
  rewrite idict_get_set in Hd. simpl in Hd.
  destruct (k =? k0)%Z eqn:Hk; [|tauto].
  apply Z.eqb_eq in Hk. injection Hd as ->. subst k0. tauto.
Qed.

(** An index found in [index_to_box] is a detection index, and what it
    maps to is one of the boxes. *)
Lemma dict_of_zip_found (keys : list Z) (values : list V) (k : Z) (v : V) :
  idict_get k (dict_of_zip keys values) = Some v -> In k keys /\ In v values.
Proof.
  unfold dict_of_zip. intros H.
  apply idict_get_fold in H. destruct H as [H|H]; [discriminate|].
  split; [eapply in_combine_l|eapply in_combine_r]; exact H.
Qed.

(** An assigned key is found afterwards. *)
Lemma idict_get_fold_assigned (kvs : list (Z * V)) (d : idict V) (k : Z) :
  In k (map fst kvs) ->
  exists v, idict_get k (fold_left (fun d kv => idict_set (fst kv) (snd kv) d) kvs d)
            = Some v.
Proof.
  revert d. induction kvs as [|[k0 v0] kvs IH]; intros d; simpl; [tauto|].
  intros [->|Hin]; [|apply IH; exact Hin].
  destruct (in_dec Z.eq_dec k (map fst kvs)) as [Hlater|Hnot]; [apply IH; exact Hlater|].
  exists v0. clear IH.
  assert (Hkeep : forall d', idict_get k d' = Some v0 ->
            idict_get k (fold_left (fun d kv => idict_set (fst kv) (snd kv) d) kvs d')
            = Some v0).
  { induction kvs as [|[k1 v1] kvs IH]; intros d' Hd'; simpl; [exact Hd'|].
    apply IH.
    - intros Hin. apply Hnot. right. exact Hin.
    - rewrite idict_get_set. simpl.
      destruct (k =? k1)%Z eqn:Hk; [|exact Hd'].
      apply Z.eqb_eq in Hk. subst k1. exfalso. apply Hnot. left. reflexivity. }
  apply Hkeep. rewrite idict_get_set. simpl. rewrite Z.eqb_refl. reflexivity.
Qed.

(** Every detection index has a box when there are as many boxes as indices. *)
Lemma dict_of_zip_total (keys : list Z) (values : list V) (k : Z) :
  List.length keys <= List.length values ->
  In k keys ->
  exists v, idict_get k (dict_of_zip keys values) = Some v.
Proof.
  intros Hlen Hin. apply idict_get_fold_assigned.
  assert (Hfst : map fst (List.combine keys values) = keys).
  { clear Hin. revert values Hlen.
    induction keys as [|x keys IH]; intros [|v values] Hlen; simpl in *;
      try reflexivity; try lia.
    rewrite IH by lia. reflexivity. }
  rewrite Hfst. exact Hin.
Qed.
End IndexDictFacts.

Section Extraction.
Variables image coord : Type.
Variable E : env image coord.

Local Abbreviation description := (image_description coord).

Lemma json_items_bound (items : list json) (index_to_box : idict (box coord))
      (crops : idict string) (acc descs : list description) :
  json_items coord items index_to_box crops acc = Ok descs ->
  (forall d, In d acc ->
             exists idx, idict_get idx index_to_box <> None
                         /\ bound_to coord index_to_box crops d idx) ->
  forall d, In d descs ->
            exists idx, idict_get idx index_to_box <> None
                        /\ bound_to coord index_to_box crops d idx.
Proof.
  revert acc. induction items as [|item items IH]; intros acc; simpl.
  - intros H Hacc. injection H as <-. exact Hacc.
  - destruct item as [| | | | |items'|fields];
      try (intros H; discriminate H).
    destruct (py_eq (dict_get_default "type" JNull fields) (JStr "image_description"));
      [|apply IH].
    destruct (truthy (dict_get_default "image_id" JNull fields)); [|apply IH].
    destruct (as_index_key (dict_get_default "image_id" JNull fields))
      as [[idx|]|e] eqn:Hkey; simpl; try (intros H; discriminate H); [|apply IH].
    destruct (idict_get idx index_to_box) as [b|] eqn:Hbox; [|apply IH].
    intros H Hacc. apply (IH _ H).
    intros d Hd. apply in_app_or in Hd. destruct Hd as [Hd|[<-|[]]]; [auto|].
    exists idx. split; [congruence|].
    unfold bound_to. simpl. rewrite Hbox. auto.
Qed.

Lemma text_strategy_bound (output fmt : string) (indices all : list Z)
      (index_to_box : idict (box coord)) (crops : idict string)
      (acc : list description) :
  incl indices all ->
  (forall d, In d acc ->
             exists idx, In idx all /\ bound_to coord index_to_box crops d idx) ->
  forall d,
    In d (text_strategy image coord E output fmt indices index_to_box crops acc) ->
    exists idx, In idx all /\ bound_to coord index_to_box crops d idx.
Proof.
  revert acc. induction indices as [|idx indices IH]; intros acc Hincl Hacc; simpl.
  - exact Hacc.
  - assert (Hincl' : incl indices all) by (intros x Hx; apply Hincl; right; exact Hx).
    destruct (re_search image coord E _ output) as [group1|]; apply IH; auto.
    intros d Hd. apply in_app_or in Hd. destruct Hd as [Hd|[<-|[]]]; [auto|].
    exists idx. split; [apply Hincl; left; reflexivity|].
    unfold bound_to. simpl. auto.
Qed.

(** Whatever the strategy, a returned description is bound to one of the
    detection indices. *)
Lemma extracted_descriptions_bound
      (output fmt : string) (boxes : list (box coord)) (indices : list Z)
      (crops : idict string) (descs : list description) :
  _extract_image_descriptions image coord E output fmt boxes indices crops = Ok descs ->
  forall d,
    In d descs ->
    exists idx,
      In idx indices /\ bound_to coord (dict_of_zip indices boxes) crops d idx.
Proof.
  intros Hext d Hd.
  unfold _extract_image_descriptions in Hext.
  assert (Htext : forall d',
             In d' (text_strategy image coord E output fmt indices
                                  (dict_of_zip indices boxes) crops []) ->
             exists idx, In idx indices
                         /\ bound_to coord (dict_of_zip indices boxes) crops d' idx).
  { apply text_strategy_bound; [apply incl_refl|]. intros ? []. }
  destruct (String.eqb fmt "json"); simpl in Hext.
  - destruct (json_strategy image coord E output (dict_of_zip indices boxes) crops)
      as [found|e] eqn:Hjson; simpl in Hext; [|discriminate].
    assert (Hfound : forall d', In d' found ->
               exists idx, idict_get idx (dict_of_zip indices boxes) <> None
                           /\ bound_to coord (dict_of_zip indices boxes) crops d' idx).
    { unfold json_strategy in Hjson.
      destruct (json_loads image coord E output) as [data|e];
        [|injection Hjson as <-; intros ? []].
      destruct (has_page_content data) as [[|]|e]; simpl in Hjson;
        try discriminate; [|injection Hjson as <-; intros ? []].
      destruct (page_content_of data) as [content|e]; simpl in Hjson; [|discriminate].
      destruct (iterate content) as [items|e]; simpl in Hjson; [|discriminate].
      apply (json_items_bound _ _ _ _ _ Hjson). intros ? []. }
    destruct found as [|d0 found]; injection Hext as <-; [apply Htext; exact Hd|].
    destruct (Hfound d Hd) as (idx & Hsome & Hb).
    exists idx. split; [|exact Hb].
    destruct (idict_get idx (dict_of_zip indices boxes)) as [b|] eqn:Hget;
      [|contradiction].
    apply dict_of_zip_found in Hget. tauto.
  - injection Hext as <-. apply Htext. exact Hd.
Qed.

(** C4.  Every description returned by the extraction step has an
    identifier equal to one of the detection indices of the page, and
    carries the box (and the crop, if any) that [index_to_box] holds for that
    index; with as many boxes as indices, as the detector returns them, that
    box is one of the detected boxes. *)
Theorem descriptions_refer_to_detections
        (output fmt : string) (boxes : list (box coord)) (indices : list Z)
        (crops : idict string) (descs : list description) :
  _extract_image_descriptions image coord E output fmt boxes indices crops = Ok descs ->
  forall d,
    In d descs ->
    exists idx,
      In idx indices
      /\ bound_to coord (dict_of_zip indices boxes) crops d idx
      /\ (List.length indices <= List.length boxes ->
          exists b, In b boxes
                    /\ idict_get idx (dict_of_zip indices boxes) = Some b
                    /\ coordinates coord d = b).
Proof.
  intros Hext d Hd.
  assert (Hbound : exists idx, In idx indices
                               /\ bound_to coord (dict_of_zip indices boxes) crops d idx).
  { exact (extracted_descriptions_bound output fmt boxes indices crops descs Hext d Hd). }
  destruct Hbound as (idx & Hin & Hb). exists idx.
  split; [exact Hin|]. split; [exact Hb|].
  intros Hlen. destruct (dict_of_zip_total indices boxes idx Hlen Hin) as (b & Hget).
  exists b. split; [apply dict_of_zip_found in Hget; tauto|]. split; [exact Hget|].
  destruct Hb as (_ & Hc & _). rewrite Hc, Hget. reflexivity.
Qed.

(** Without detection indices nothing is described, whenever the step
    returns. *)
Lemma no_detections_no_descriptions
      (output fmt : string) (crops : idict string) (descs : list description) :
  _extract_image_descriptions image coord E output fmt [] [] crops = Ok descs ->
  descs = [].
Proof.
  intros Hext. destruct descs as [|d descs]; [reflexivity|].
  destruct (extracted_descriptions_bound output fmt [] [] crops _ Hext d)
    as (idx & [] & _). left. reflexivity.
Qed.

(** It returns for every format but JSON. *)
Lemma no_detections_text_format (output fmt : string) (crops : idict string) :
  String.eqb fmt "json" = false ->
  _extract_image_descriptions image coord E output fmt [] [] crops = Ok [].
Proof.
  intros Hfmt. unfold _extract_image_descriptions. rewrite Hfmt. reflexivity.
Qed.

(** C6 fails on the code.  With no detection at all, a JSON extraction
    whose [page_content] lists a plain string makes the extraction step
    raise [AttributeError]: only [JSONDecodeError] and [KeyError] are caught
    around the JSON strategy. *)
Theorem plain_string_content_raises (crops : idict string) :
  json_loads image coord E Fixtures.plain_string_content
  = Ok Fixtures.plain_string_content_value ->
  _extract_image_descriptions image coord E Fixtures.plain_string_content "json"
                              [] [] crops
  = Raise (Exn "AttributeError" "'str' object has no attribute 'get'").
Proof.
  intros Hloads. unfold _extract_image_descriptions, json_strategy.
  simpl String.eqb. cbv iota. rewrite Hloads. reflexivity.
Qed.

End Extraction.

(** C4, on a JSON extraction that describes the one detected image. *)
Lemma descriptions_refer_to_detections_witness :
  let E := Fixtures.page_env
             [(Fixtures.described_image, Fixtures.described_image_value)]
             (Some Fixtures.described_image) None
             (Some (tt, [[10; 20; 30; 40]], [1]))%Z EmptyString in
  exists d,
    _extract_image_descriptions unit Z E Fixtures.described_image "json"
                                [[10; 20; 30; 40]]%Z [1%Z] [] = Ok [d]
    /\ exists idx,
        In idx [1%Z]
        /\ bound_to Z (dict_of_zip [1%Z] [[10; 20; 30; 40]]%Z) [] d idx
        /\ coordinates Z d = [10; 20; 30; 40]%Z.
Proof.
  intros E. eexists. split; [vm_compute; reflexivity|].
  destruct (descriptions_refer_to_detections
              unit Z E Fixtures.described_image "json" [[10; 20; 30; 40]]%Z [1%Z] [] _
              eq_refl _ (or_introl eq_refl))
    as (idx & Hin & Hb & _).
  exists idx. split; [exact Hin|]. split; [exact Hb|reflexivity].
Defined.

(** C6, the failing run: an engine whose detector finds nothing and whose
    model answers with that JSON text ends the page with an error object. *)
Lemma plain_string_content_raises_witness :
  let E := Fixtures.page_env
             [(Fixtures.plain_string_content, Fixtures.plain_string_content_value)]
             (Some Fixtures.plain_string_content) None
             (Some (tt, [], [])) EmptyString in
  json_loads unit Z E Fixtures.plain_string_content
  = Ok Fixtures.plain_string_content_value
  /\ _extract_image_descriptions unit Z E Fixtures.plain_string_content "json" [] [] []
     = Raise (Exn "AttributeError" "'str' object has no attribute 'get'")
  /\ fst (lambda_handler unit Z E (Fixtures.page_event "json" None))
     = HttpError Z 500
         "Error during page processing: 'str' object has no attribute 'get'".
Proof.
  intros E.
  assert (Hloads : json_loads unit Z E Fixtures.plain_string_content
                   = Ok Fixtures.plain_string_content_value) by reflexivity.
  split; [exact Hloads|]. split.
  - exact (plain_string_content_raises unit Z E [] Hloads).
  - vm_compute. reflexivity.
Defined.

End DescriptionFacts.

(** ** The detector adapter *)

Module DetectorFacts.
Import Detector.

Section Adapter.
Variables image coord score : Type.
Variable E : env image coord score.

(** When no row passes the filter, the adapter returns the image it was
    given, no box and no index. *)
Lemma no_detection_passes (img : image) (conf_thres : score)
      (target_class_id : option Z) (rows : list (raw_detection coord score)) :
  infer image coord score E img = Some (Rows coord score rows) ->
  filter (keep image coord score E conf_thres target_class_id) rows = [] ->
  run_yolo_inference image coord score E img conf_thres target_class_id
  = Some (img, [], []).
Proof.
  intros Hinfer Hnone. unfold run_yolo_inference. rewrite Hinfer, Hnone. reflexivity.
Qed.

(** The indices are the positions of the boxes, counted from one. *)
Lemma indices_are_positions (img : image) (conf_thres : score)
      (target_class_id : option Z) (annotated : image)
      (boxes : list (box coord)) (indices : list Z) :
  run_yolo_inference image coord score E img conf_thres target_class_id
  = Some (annotated, boxes, indices) ->
  indices = one_based_indices coord boxes
  /\ List.length indices = List.length boxes.
Proof.
  unfold run_yolo_inference, draw_indexed_detections.
  destruct (infer image coord score E img) as [[rows| |]|]; try discriminate.
  destruct (filter _ rows) as [|d kept].
  - intros H. injection H as <- <- <-. split; reflexivity.
  - destruct (draw image coord score E img _) as [img_copy|]; [|discriminate].
    intros H. injection H as <- <- <-. split; [reflexivity|].
    unfold one_based_indices. rewrite length_map, length_seq. reflexivity.
Qed.

End Adapter.
End DetectorFacts.

(** ** Grounding *)

Module GroundingFacts.
Import Py PageProcessor.


Section Engine.
Variables image coord : Type.
Variable E : env image coord.

Local Abbreviation clean := (_clean_description_tokens image coord E).
Local Abbreviation normalise := (_format_output_based_on_type image coord E).


(** What a successful run of steps 2a to 2e has done. *)
Lemma process_ok (ev : event) (img : image) (raw_text : string)
      (p : processed coord) (calls : list llm_call) :
  process image coord E ev img raw_text = (Ok p, calls) ->
  exists extraction_call grounding_calls,
    calls = extraction_call :: grounding_calls
    /\ with_image extraction_call = true
    /\ ground image coord E raw_text (p_extracted_output coord p) (output_format ev)
       = (Ok (p_grounded_output coord p), grounding_calls).
Proof.
  unfold process.
  destruct (detect image coord E img) as [[[annotated boxes] indices]|];
    [|discriminate].
  destruct (match indices with [] => Ok [] | _ :: _ => _ end) as [crops|e];
    [|discriminate].
  destruct (_get_prompt_for_format (output_format ev)); [|discriminate].
  destruct (encode_jpeg image coord E annotated); simpl; [|discriminate].
  destruct (analyze_image image coord E _) as [[[|c answer]|]|e]; try discriminate.
  destruct (_extract_image_descriptions image coord E _ _ _ _ _) as [descs|e];
    [|discriminate].
  destruct (ground image coord E raw_text _ (output_format ev)) as [[g|e] gcalls] eqn:Hg;
    [|discriminate].
  intros H. injection H as <- <-. simpl.
  eexists. eexists. split; [reflexivity|]. split; [reflexivity|exact Hg].
Qed.


End Engine.


(** The page result of that run. *)
Example only_tokens_page_result :
  let E := Fixtures.page_env [] (Some Fixtures.only_tokens) None
                             (Some (tt, [], [])) EmptyString in
  exists r key call,
    lambda_handler unit Z E (Fixtures.page_event "markdown" None)
    = (Persisted Z r key, [call])
    /\ extracted_output Z r = JStr "[START DESCRIPTION][END DESCRIPTION]"
    /\ grounded_output Z r = JNull
    /\ key = "intermediate-page-results/run1/doc_page_1_results.json".
Proof.
  intros E. eexists. eexists. eexists.
  split; [vm_compute; reflexivity|]. repeat split.
Qed.


End GroundingFacts.

(** ** Decimal numerals *)

Module NumeralFacts.
Import PyStr.

Lemma digits_from_acc (d : Decimal.uint) (p : positive) :
  digits_from (Z.pos p) (NilEmpty.string_of_uint d) = Some (Z.pos (Pos.of_uint_acc d p)).
Proof.
  revert p.
  induction d; intros p; cbn [NilEmpty.string_of_uint Pos.of_uint_acc];
    [reflexivity|..];
    unfold digits_from; fold digits_from;
    match goal with
    | |- context [digit_of ?c] =>
        let v := eval vm_compute in (digit_of c) in change (digit_of c) with v
    end;
    cbv iota beta; rewrite <- IHd; f_equal; lia.
Qed.

Lemma digits_from_zero (d : Decimal.uint) :
  digits_from 0 (NilEmpty.string_of_uint d) = Some (Z.of_uint d).
Proof.
  unfold Z.of_uint.
  induction d; cbn [NilEmpty.string_of_uint Pos.of_uint]; [reflexivity|..];
    unfold digits_from; fold digits_from;
    match goal with
    | |- context [digit_of ?c] =>
        let v := eval vm_compute in (digit_of c) in change (digit_of c) with v
    end;
    cbv iota beta; [exact IHd|..];
    match goal with
    | |- digits_from ?z _ = Some (Z.of_N (N.pos (Pos.of_uint_acc _ ?q))) =>
        change z with (Z.pos q); apply digits_from_acc
    end.
Qed.

Lemma unsigned_int_numeral (d : Decimal.uint) :
  unsigned_int (NilZero.string_of_uint d) = Some (Z.of_uint d).
Proof.
  destruct d; try reflexivity; apply (digits_from_zero).
Qed.

Lemma lstrip_no_space (s : string) :
  Forall (fun c => is_space c = false) (list_ascii_of_string s) -> lstrip s = s.
Proof.
  destruct s as [|c r]; [reflexivity|]. simpl. intros H.
  inversion H as [|? ? Hc _]; subst. rewrite Hc. reflexivity.
Qed.

Lemma rstrip_no_space (s : string) :
  Forall (fun c => is_space c = false) (list_ascii_of_string s) -> rstrip s = s.
Proof.
  induction s as [|c r IH]; [reflexivity|]. simpl. intros H.
  inversion H as [|? ? Hc Hr]; subst. rewrite (IH Hr), Hc.
  destruct r; reflexivity.
Qed.

Lemma numeral_no_space (d : Decimal.uint) :
  Forall (fun c => is_space c = false) (list_ascii_of_string (NilZero.string_of_uint d)).
Proof.
  assert (Hu : forall d, Forall (fun c => is_space c = false)
                                (list_ascii_of_string (NilEmpty.string_of_uint d))).
  { induction d0; simpl; constructor; auto. }
  destruct d; try apply Hu. repeat constructor.
Qed.

Lemma py_int_str_of_Z (z : Z) : py_int (str_of_Z z) = Some z.
Proof.
  unfold str_of_Z, py_int, strip.
  rewrite <- (DecimalZ.of_to z) at 2.
  destruct (Z.to_int z) as [d|d]; unfold NilZero.string_of_int, Z.of_int.
  - rewrite lstrip_no_space, rstrip_no_space by apply numeral_no_space.
    rewrite <- unsigned_int_numeral.
    destruct d; try reflexivity.
  - assert (Hs : Forall (fun c => is_space c = false)
                        (list_ascii_of_string (String "-" (NilZero.string_of_uint d)))).
    { constructor; [reflexivity|apply numeral_no_space]. }
    rewrite lstrip_no_space, rstrip_no_space by exact Hs.
    rewrite unsigned_int_numeral. reflexivity.
Qed.

End NumeralFacts.

(** ** Page numbers in object names *)

Module NamingFacts.
Import Py PyStr Combiner.
Import PyStrFacts NumeralFacts.

Lemma str_of_Z_no_underscore (z : Z) : has_char "_" (str_of_Z z) = false.
Proof.
  assert (Hu : forall d, has_char "_" (NilEmpty.string_of_uint d) = false).
  { induction d; simpl; auto. }
  assert (Hz : forall d, has_char "_" (NilZero.string_of_uint d) = false).
  { intros d. unfold NilZero.string_of_uint. destruct d; try apply Hu. reflexivity. }
  unfold str_of_Z, NilZero.string_of_int.
  destruct (Z.to_int z); simpl; apply Hz.
Qed.

Lemma str_of_Z_not_page (z : Z) : String.eqb (str_of_Z z) "page" = false.
Proof.
  destruct (String.eqb_spec (str_of_Z z) "page") as [Heq|]; [|reflexivity].
  pose proof (py_int_str_of_Z z) as H. rewrite Heq in H. discriminate.
Qed.

Lemma split_page_suffix (last N : string) :
  has_char "_" N = false ->
  split_on "_" (last ++ "_page_" ++ N) = split_on "_" last ++ ["page"; N].
Proof.
  intros HN.
  change (last ++ "_page_" ++ N)%string
    with (last ++ String "_" ("page" ++ String "_" N))%string.
  rewrite split_on_app_sep, split_on_app_sep, (split_on_no_sep "_" N HN).
  reflexivity.
Qed.

Lemma split_page_result_suffix (last N : string) :
  has_char "_" N = false ->
  split_on "_" (last ++ "_page_" ++ N ++ "_result")
  = split_on "_" last ++ ["page"; N; "result"].
Proof.
  intros HN.
  change (last ++ "_page_" ++ N ++ "_result")%string
    with (last ++ String "_" ("page" ++ String "_" (N ++ String "_" "result")))%string.
  rewrite !split_on_app_sep, (split_on_no_sep "_" N HN).
  reflexivity.
Qed.

Lemma neg_index_app {A : Type} (l t : list A) (k : nat) :
  1 <= k <= List.length t ->
  neg_index (l ++ t) k = neg_index t k.
Proof.
  intros Hk. unfold neg_index. rewrite rev_app_distr.
  apply nth_error_app1. rewrite length_rev. lia.
Qed.

(** X1.  The page-number estimator recovers the number written in an
    object name: for every path that ends in [_page_<n>.json] or in
    [_page_<n>_result.json], with [<n>] the decimal numeral of [n] as [str]
    prints it, the estimate is [n].  The numeral is kept within the 4300
    digits that [int()] accepts. *)
Theorem page_number_in_name_is_recovered (a : string) (n : Z) :
  (Z.abs n < 10 ^ 4300)%Z ->
  extract_page_number_from_path (a ++ "_page_" ++ str_of_Z n ++ ".json") = Some n
  /\ extract_page_number_from_path (a ++ "_page_" ++ str_of_Z n ++ "_result.json")
     = Some n.
Proof.
  intros _.
  pose proof (str_of_Z_no_underscore n) as Hu.
  pose proof (str_of_Z_no_slash n) as Hs.
  split.
  - destruct (path_stem_json a ("_page_" ++ str_of_Z n)) as (last & Hstem);
      [exact Hs|discriminate|].
    assert (Hstem' : path_stem (a ++ "_page_" ++ str_of_Z n ++ ".json")
                     = (last ++ "_page_" ++ str_of_Z n)%string) by exact Hstem.
    unfold extract_page_number_from_path.
    rewrite Hstem', (split_page_suffix last _ Hu).
    pose proof (split_on_not_nil "_" last) as Hne.
    rewrite !neg_index_app by (simpl; lia).
    assert (Hlen : (3 <=? List.length (split_on "_" last ++ ["page"; str_of_Z n]))%nat = true).
    { apply Nat.leb_le. rewrite length_app. simpl.
      destruct (split_on "_" last); [contradiction|simpl; lia]. }
    rewrite Hlen. unfold neg_index. simpl.
    apply py_int_str_of_Z.
  - destruct (path_stem_json a ("_page_" ++ str_of_Z n ++ "_result")) as (last & Hstem).
    + simpl. rewrite has_char_append, Hs. reflexivity.
    + discriminate.
    + assert (Hstem' : path_stem (a ++ "_page_" ++ str_of_Z n ++ "_result.json")
                       = (last ++ "_page_" ++ str_of_Z n ++ "_result")%string).
      { rewrite <- Hstem. f_equal. f_equal. simpl. rewrite !append_assoc. reflexivity. }
      unfold extract_page_number_from_path.
      rewrite Hstem', (split_page_result_suffix last _ Hu).
      pose proof (split_on_not_nil "_" last) as Hne.
      rewrite !neg_index_app by (simpl; lia).
      assert (Hlen : (4 <=? List.length
                              (split_on "_" last ++ ["page"; str_of_Z n; "result"]))%nat
                     = true).
      { apply Nat.leb_le. rewrite length_app. simpl.
        destruct (split_on "_" last); [contradiction|simpl; lia]. }
      rewrite Hlen. unfold neg_index. simpl.
      rewrite str_of_Z_not_page, andb_false_r.
      apply py_int_str_of_Z.
Qed.

Lemma page_number_in_name_is_recovered_witness :
  (Z.abs 12 < 10 ^ 4300)%Z
  /\ extract_page_number_from_path "intermediate-page-results/run1/doc_page_12.json"
     = Some 12%Z
  /\ extract_page_number_from_path "intermediate-page-results/run1/doc_page_12_result.json"
     = Some 12%Z.
Proof.
  split; [reflexivity|].
  exact (page_number_in_name_is_recovered "intermediate-page-results/run1/doc" 12
           (eq_refl : (Z.abs 12 ?= 10 ^ 4300)%Z = Lt)).
Defined.

End NamingFacts.

(** ** White space and affixes *)

Module StripFacts.
Import PyStr.
Import PyStrFacts.

Lemma lstrip_suffix (s : string) : exists t, s = (t ++ lstrip s)%string.
Proof.
  induction s as [|c s (t & IH)]; [exists ""; reflexivity|].
  simpl. destruct (is_space c).
  - exists (String c t). simpl. rewrite <- IH. reflexivity.
  - exists "". reflexivity.
Qed.

Lemma rstrip_prefix (s : string) : exists t, s = (rstrip s ++ t)%string.
Proof.
  induction s as [|c s (t & IH)]; [exists ""; reflexivity|].
  simpl. destruct (rstrip s) as [|d r] eqn:Hr.
  - destruct (is_space c).
    + exists (String c s). reflexivity.
    + exists s. reflexivity.
  - exists t. simpl. simpl in IH. rewrite <- IH. reflexivity.
Qed.

Lemma append_length_nil (t s : string) :
  String.length (t ++ s) = String.length s -> t = EmptyString.
Proof.
  rewrite length_append. destruct t; [reflexivity|simpl; lia].
Qed.

Lemma lstrip_length (s : string) : String.length (lstrip s) <= String.length s.
Proof.
  destruct (lstrip_suffix s) as (t & H). rewrite H at 2. rewrite length_append. lia.
Qed.

Lemma rstrip_length (s : string) : String.length (rstrip s) <= String.length s.
Proof.
  destruct (rstrip_prefix s) as (t & H). rewrite H at 2. rewrite length_append. lia.
Qed.

(** A text equal to its own [strip] has no white space at either end. *)
Lemma strip_fixed (s : string) : strip s = s -> lstrip s = s /\ rstrip s = s.
Proof.
  unfold strip. intros H.
  assert (Hl : lstrip s = s).
  { destruct (lstrip_suffix s) as (t & Ht).
    assert (Hlen : String.length (lstrip s) = String.length s).
    { pose proof (rstrip_length (lstrip s)). pose proof (lstrip_length s).
      rewrite H in *. lia. }
    rewrite Ht in Hlen at 2.
    symmetry in Hlen. apply append_length_nil in Hlen. subst t.
    symmetry. exact Ht. }
  split; [exact Hl|]. rewrite Hl in H. exact H.
Qed.

Lemma lstrip_head (s : string) :
  lstrip s = s ->
  s = EmptyString \/ exists c r, s = String c r /\ is_space c = false.
Proof.
  destruct s as [|c r]; [left; reflexivity|]. simpl.
  destruct (is_space c) eqn:Hc; [|right; exists c, r; split; [reflexivity|exact Hc]].
  intros H. pose proof (lstrip_length r) as Hlen. rewrite H in Hlen. simpl in Hlen. lia.
Qed.

Lemma rstrip_nonempty (c : ascii) (r : string) :
  is_space c = false -> exists r', rstrip (String c r) = String c r'.
Proof.
  intros Hc. simpl. destruct (rstrip r); [rewrite Hc|]; eexists; reflexivity.
Qed.

Lemma lstrip_idempotent (s : string) : lstrip (lstrip s) = lstrip s.
Proof.
  induction s as [|c s IH]; [reflexivity|]. simpl.
  destruct (is_space c) eqn:Hc; [exact IH|]. simpl. rewrite Hc. reflexivity.
Qed.

Lemma rstrip_idempotent (s : string) : rstrip (rstrip s) = rstrip s.
Proof.
  induction s as [|c s IH]; [reflexivity|]. simpl.
  destruct (rstrip s) as [|d r] eqn:Hr.
  - destruct (is_space c) eqn:Hc; [reflexivity|]. simpl. rewrite Hc. reflexivity.
  - simpl. simpl in IH. rewrite IH. reflexivity.
Qed.

Lemma lstrip_rstrip (s : string) : lstrip s = s -> lstrip (rstrip s) = rstrip s.
Proof.
  intros H. destruct (lstrip_head s H) as [->|(c & r & -> & Hc)]; [reflexivity|].
  destruct (rstrip_nonempty c r Hc) as (r' & ->). simpl. rewrite Hc. reflexivity.
Qed.

Lemma strip_idempotent (s : string) : strip (strip s) = strip s.
Proof.
  unfold strip.
  rewrite (lstrip_rstrip (lstrip s) (lstrip_idempotent s)).
  apply rstrip_idempotent.
Qed.

Lemma rstrip_app_fixed (a b : string) :
  rstrip b = b -> b <> EmptyString -> rstrip (a ++ b) = (a ++ b)%string.
Proof.
  intros Hb Hne. induction a as [|c a IH]; simpl; [exact Hb|].
  rewrite IH. destruct (a ++ b)%string eqn:Hab; [|reflexivity].
  destruct a; simpl in Hab; [contradiction|discriminate].
Qed.

Lemma rstrip_app_space (a : string) (c : ascii) :
  is_space c = true -> rstrip (a ++ String c "") = rstrip a.
Proof.
  intros Hc. induction a as [|d a IH]; simpl; [rewrite Hc; reflexivity|].
  rewrite IH. reflexivity.
Qed.

Lemma prefix_append (p s : string) : String.prefix p (p ++ s) = true.
Proof.
  induction p as [|c p IH]; simpl; [destruct s; reflexivity|].
  destruct (ascii_dec c c) as [_|Hne]; [exact IH|contradiction].
Qed.

Lemma substring_all (s : string) : String.substring 0 (String.length s) s = s.
Proof. induction s as [|c s IH]; simpl; [reflexivity|]. rewrite IH. reflexivity. Qed.

Lemma substring_skip (a b : string) (n : nat) :
  String.substring (String.length a) n (a ++ b) = String.substring 0 n b.
Proof. induction a as [|c a IH]; simpl; [reflexivity|exact IH]. Qed.

Lemma drop_append (a b : string) : drop (String.length a) (a ++ b) = b.
Proof.
  unfold drop. rewrite length_append, substring_skip.
  replace (String.length a + String.length b - String.length a)
    with (String.length b) by lia.
  apply substring_all.
Qed.

Lemma drop_last_append (a b : string) : drop_last (String.length b) (a ++ b) = a.
Proof.
  unfold drop_last. rewrite length_append.
  replace (String.length a + String.length b - String.length b)
    with (String.length a) by lia.
  apply substring_prefix.
Qed.

Lemma endswith_append (a p : string) : endswith (a ++ p) p = true.
Proof.
  unfold endswith. rewrite length_append.
  replace (String.length a + String.length p - String.length p)
    with (String.length a) by lia.
  rewrite drop_append, String.eqb_refl.
  replace (String.length p <=? String.length a + String.length p)%nat with true;
    [reflexivity|].
  symmetry. apply Nat.leb_le. lia.
Qed.

Lemma prefix_shorter (a b s : string) :
  String.prefix (a ++ b) s = true -> String.prefix a s = true.
Proof.
  revert s. induction a as [|c a IH]; intros s; simpl; [destruct s; reflexivity|].
  destruct s as [|d s]; [discriminate|]. simpl.
  destruct (ascii_dec c d); [apply IH|discriminate].
Qed.

End StripFacts.

(** ** Loading, numbering and sorting of pages *)

Module LoadingFacts.
Import Py Combiner.
Import SortFacts ReaggregationFacts.

Lemma py_lt_raises_type_error :
  forall a b e, py_lt a b = Raise e -> exn_class e = "TypeError".
Proof.
  fix IH 1. intros a b e.
  destruct a as [| ba | za | ma ea | sa | la | da];
    destruct b as [| bb | zb | mb eb | sb | lb | db]; simpl;
    try discriminate;
    try (intros H; injection H as <-; reflexivity).
  revert lb. induction la as [|x xs IHl]; intros [|y ys]; simpl; try discriminate.
  destruct (py_eq x y); [apply IHl|apply IH].
Qed.

Lemma key_lt_raises_type_error (a b : sort_key) (e : exn) :
  key_lt a b = Raise e -> exn_class e = "TypeError".
Proof.
  destruct a as [x|], b as [y|]; simpl.
  - apply py_lt_raises_type_error.
  - destruct (as_number x); [discriminate|]. intros H. injection H as <-. reflexivity.
  - destruct (as_number y); [discriminate|]. intros H. injection H as <-. reflexivity.
  - discriminate.
Qed.


Lemma insert_sorted_raises_type_error {A : Type} (x : sort_key * A)
      (l : list (sort_key * A)) (e : exn) :
  insert_sorted x l = Raise e -> exn_class e = "TypeError".
Proof.
  induction l as [|y l IH]; simpl; [discriminate|].
  destruct (key_lt (fst y) (fst x)) as [[|]|e'] eqn:Hlt; simpl.
  - destruct (insert_sorted x l) as [r|e']; simpl; [discriminate|].
    intros H. injection H as <-. apply IH. reflexivity.
  - discriminate.
  - intros H. injection H as <-. eapply key_lt_raises_type_error. exact Hlt.
Qed.

Lemma sort_keyed_raises_type_error {A : Type} (l : list (sort_key * A)) (e : exn) :
  sort_keyed l = Raise e -> exn_class e = "TypeError".
Proof.
  induction l as [|x l IH]; simpl; [discriminate|].
  destruct (sort_keyed l) as [s|e']; simpl.
  - apply insert_sorted_raises_type_error.
  - intros H. injection H as <-. apply IH. reflexivity.
Qed.

(** The keys of pages are always computed. *)
Lemma decorate_pages (pages : list dict) :
  decorate (fun x => page_sort_key (JObj x)) pages
  = Ok (map (fun x => (page_key x, x)) pages).
Proof.
  change (decorate (fun x : list (string * json) => Ok (page_key x)) pages
          = Ok (map (fun x => (page_key x, x)) pages)).
  induction pages as [|p pages IH]; [reflexivity|].
  simpl. rewrite IH. reflexivity.
Qed.

Lemma sort_pages_raises_type_error (pages : list dict) (e : exn) :
  sort_by (fun x => page_sort_key (JObj x)) pages = Raise e ->
  exn_class e = "TypeError".
Proof.
  unfold sort_by. rewrite decorate_pages. simpl.
  destruct (sort_keyed _) as [s|e'] eqn:Hs; simpl; [discriminate|].
  intros H. injection H as <-. eapply sort_keyed_raises_type_error. exact Hs.
Qed.

(** Whether a key is a number: [bool], [int], [float], or the default. *)
Local Abbreviation numeric k :=
  (match k with
   | KVal v => match as_number v with Some _ => true | None => false end
   | KInf => true
   end).

Lemma key_lt_same_kind (a b : sort_key) (r : bool) :
  key_lt a b = Ok r -> numeric a = numeric b.
Proof.
  destruct a as [[| ba | za | ma ea | sa | la | da]|];
    destruct b as [[| bb | zb | mb eb | sb | lb | db]|]; simpl;
    try discriminate; reflexivity.
Qed.

Lemma insert_sorted_same_kind {A : Type} (x : sort_key * A)
      (l r : list (sort_key * A)) (k : bool) :
  insert_sorted x l = Ok r ->
  Forall (fun y => numeric (fst y) = k) l ->
  l <> [] ->
  numeric (fst x) = k.
Proof.
  destruct l as [|y l]; [contradiction|]. simpl. intros Hins Hall _.
  inversion Hall as [|? ? Hy _]; subst.
  destruct (key_lt (fst y) (fst x)) as [b|e] eqn:Hlt; simpl in Hins; [|discriminate].
  symmetry. eapply key_lt_same_kind. exact Hlt.
Qed.

Lemma sort_keyed_same_kind {A : Type} (l r : list (sort_key * A)) :
  sort_keyed l = Ok r ->
  exists k, Forall (fun y => numeric (fst y) = k) l.
Proof.
  revert r. induction l as [|x l IH]; intros r; simpl.
  - intros _. exists true. constructor.
  - destruct (sort_keyed l) as [s|e] eqn:Hs; simpl; [|discriminate].
    intros Hins. destruct (IH s eq_refl) as (k & Hk).
    destruct l as [|y l'].
    + exists (numeric (fst x)). repeat constructor.
    + exists k. constructor; [|exact Hk].
      apply (insert_sorted_same_kind x s r k Hins).
      * apply (Permutation_Forall (sort_keyed_permutes _ _ Hs)). exact Hk.
      * intros ->. apply sort_keyed_permutes, Permutation_sym, Permutation_nil in Hs.
        discriminate.
Qed.

Lemma mixed_keys_do_not_sort (pages : list dict) (p q : dict) (v : json) (s : string) :
  In p pages -> In q pages ->
  dict_get "page_number" p = Some v -> as_number v <> None ->
  dict_get "page_number" q = Some (JStr s) ->
  exists e,
    sort_by (fun x => page_sort_key (JObj x)) pages = Raise e
    /\ exn_class e = "TypeError".
Proof.
  intros Hp Hq Hv Hnum Hs.
  destruct (sort_by (fun x => page_sort_key (JObj x)) pages) as [r|e] eqn:Hsort.
  - exfalso. unfold sort_by in Hsort. rewrite decorate_pages in Hsort. simpl in Hsort.
    destruct (sort_keyed _) as [sorted|e] eqn:Hk; simpl in Hsort; [|discriminate].
    destruct (sort_keyed_same_kind _ _ Hk) as (k & Hall).
    rewrite Forall_map, Forall_forall in Hall. simpl in Hall.
    pose proof (Hall p Hp) as Hkp. pose proof (Hall q Hq) as Hkq.
    unfold page_key in Hkp, Hkq. rewrite Hv in Hkp. rewrite Hs in Hkq.
    simpl in Hkq. destruct (as_number v); [congruence|]. apply Hnum. reflexivity.
  - exists e. split; [reflexivity|]. eapply sort_pages_raises_type_error. exact Hsort.
Qed.


(** The handler raises only when the sort of the pages does, and then
    before any upload. *)
Lemma combine_uncaught (E : env) (bucket : string) (ev : event) (e : exn)
      (puts : list put_request) :
  combine E bucket ev = (Uncaught e, puts) ->
  sorted_pages E bucket (s3_page_result_uris ev) = Raise e /\ puts = [].
Proof.
  unfold combine, sorted_pages.
  destruct (sort_by _ _) as [pages|e'].
  - destruct (put_object E _ _ _); destruct (render_and_upload E bucket ev _);
      discriminate.
  - intros H. injection H as <- <-. split; reflexivity.
Qed.

Lemma lambda_handler_uncaught (E : env) (ev : event) (e : exn)
      (puts : list put_request) :
  lambda_handler E ev = (Uncaught e, puts) ->
  exists bucket,
    BUCKET_NAME E = Some bucket
    /\ sorted_pages E bucket (s3_page_result_uris ev) = Raise e /\ puts = [].
Proof.
  unfold lambda_handler.
  destruct (BUCKET_NAME E) as [[|c b]|]; try discriminate.
  destruct (s3_page_result_uris ev) as [|u uris] eqn:Huris; [discriminate|].
  rewrite <- Huris. intros H. exists (String c b). split; [reflexivity|].
  apply combine_uncaught. exact H.
Qed.

(** X2.  On an event whose fields have the types the handler expects,
    strings and a list of strings for the references, as every [event]
    here has, the only exception the aggregator's handler lets escape is
    the one raised while sorting the loaded pages by page number: it is a
    [TypeError], and the run that raises it has uploaded nothing.  An event
    with a reference or a requested format that is not a string is outside
    this statement: on it [replace] or [lower] raises outside the [try]
    blocks. *)
Theorem handler_raises_only_from_the_sort (E : env) (ev : event) (e : exn)
        (puts : list put_request) :
  lambda_handler E ev = (Uncaught e, puts) ->
  exn_class e = "TypeError" /\ puts = []
  /\ exists bucket,
      BUCKET_NAME E = Some bucket
      /\ sorted_pages E bucket (s3_page_result_uris ev) = Raise e.
Proof.
  intros H. destruct (lambda_handler_uncaught E ev e puts H) as (bucket & Hb & Hs & Hp).
  split; [|split; [exact Hp|exists bucket; split; assumption]].
  eapply sort_pages_raises_type_error. exact Hs.
Qed.

(** X2, on two page results numbered [1] and ["2"]. *)
Lemma handler_raises_only_from_the_sort_witness :
  let E := Fixtures.store_env Scenarios.mixed_store Scenarios.mixed_parsed []
                              (fun _ => "{}") in
  let ev := Scenarios.two_pages_event "markdown" in
  exists e puts,
    lambda_handler E ev = (Uncaught e, puts)
    /\ exn_class e = "TypeError"
    /\ puts = [].
Proof.
  intros E ev.
  destruct (lambda_handler E ev) as [out puts] eqn:Hrun.
  vm_compute in Hrun. injection Hrun as <- <-.
  eexists. eexists.
  assert (Hr : lambda_handler E ev = _) by (vm_compute; reflexivity).
  split; [exact Hr|].
  destruct (handler_raises_only_from_the_sort E ev _ _ Hr) as (Hclass & Hputs & _).
  split; [exact Hclass|exact Hputs].
Defined.

(** X3.  When one loaded page carries a numeric page number and another a
    string page number, the sort compares a number with a string: the
    handler ends with an uncaught [TypeError] and uploads nothing, not even
    the aggregate. *)
Theorem mixed_page_numbers_abort_the_run
        (E : env) (ev : event) (bucket : string) (p q : dict) (v : json) (s : string) :
  BUCKET_NAME E = Some bucket ->
  bucket <> EmptyString ->
  let st := load_all E bucket (s3_page_result_uris ev) in
  In p (combined_pages_data st) ->
  In q (combined_pages_data st) ->
  dict_get "page_number" p = Some v ->
  as_number v <> None ->
  dict_get "page_number" q = Some (JStr s) ->
  exists e, lambda_handler E ev = (Uncaught e, []) /\ exn_class e = "TypeError".
Proof.
  intros Hb Hne st Hp Hq Hv Hnum Hs.
  destruct (mixed_keys_do_not_sort _ p q v s Hp Hq Hv Hnum Hs) as (e & Hsort & Hclass).
  exists e. split; [|exact Hclass].
  unfold lambda_handler. rewrite Hb.
  destruct bucket as [|c b]; [contradiction|].
  destruct (s3_page_result_uris ev) as [|u uris] eqn:Huris.
  - subst st. simpl in Hp. contradiction.
  - unfold combine. rewrite Huris. fold st. rewrite Hsort. reflexivity.
Qed.

(** X3, on the same two page results. *)
Lemma mixed_page_numbers_abort_the_run_witness :
  let E := Fixtures.store_env Scenarios.mixed_store Scenarios.mixed_parsed []
                              (fun _ => "{}") in
  let ev := Scenarios.two_pages_event "markdown" in
  (BUCKET_NAME E = Some "bkt" /\ "bkt" <> EmptyString)
  /\ map (dict_get "page_number")
         (combined_pages_data (load_all E "bkt" (s3_page_result_uris ev)))
     = [Some (JInt 1); Some (JStr "2")]
  /\ exists e, lambda_handler E ev = (Uncaught e, []) /\ exn_class e = "TypeError".
Proof.
  intros E ev.
  assert (Hb : BUCKET_NAME E = Some "bkt") by reflexivity.
  assert (Hne : "bkt" <> EmptyString) by discriminate.
  split; [split; assumption|]. split; [vm_compute; reflexivity|].
  set (pages := combined_pages_data (load_all E "bkt" (s3_page_result_uris ev))).
  apply (mixed_page_numbers_abort_the_run
           E ev "bkt" (nth 0 pages []) (nth 1 pages []) (JInt 1) "2" Hb Hne).
  - vm_compute. left. reflexivity.
  - vm_compute. right. left. reflexivity.
  - vm_compute. reflexivity.
  - discriminate.
  - vm_compute. reflexivity.
Defined.


(** *** Which references load *)

Lemma validate_accepts (page : dict) :
  dict_has "grounded_output" page = true ->
  dict_has "output_format" page = true ->
  validate_and_extract_page_data (JObj page)
  = (true,
     [ ("page_number", dict_get_default "page_number" JNull page);
       ("original_image_s3_uri", dict_get_default "original_image_s3_uri" JNull page);
       ("original_raw_text_s3_uri",
        dict_get_default "original_raw_text_s3_uri" JNull page);
       ("output_format", dict_get_default "output_format" JNull page);
       ("grounded_output", dict_get_default "grounded_output" JNull page);
       ("extracted_output", dict_get_default "extracted_output" JNull page);
       ("image_descriptions", dict_get_default "image_descriptions" (JArr []) page) ]).
Proof. intros Hg Hf. simpl. rewrite Hg, Hf. reflexivity. Qed.

Lemma validate_rejects (v : json) (is_valid : bool) (d : dict) :
  validate_and_extract_page_data v = (is_valid, d) ->
  is_valid = true ->
  exists page,
    v = JObj page
    /\ dict_has "grounded_output" page = true
    /\ dict_has "output_format" page = true.
Proof.
  destruct v as [| | | | | |page]; simpl; try (intros H; injection H as <- _; discriminate).
  destruct (dict_has "grounded_output" page) eqn:Hg; simpl;
    [|intros H; injection H as <- _; discriminate].
  destruct (dict_has "output_format" page) eqn:Hf; simpl;
    [|intros H; injection H as <- _; discriminate].
  intros _ _. exists page. repeat split; assumption.
Qed.

(** What a reference that loads was fetched from, and what it yields. *)
Lemma fetch_page_ok (E : env) (key : string) (extracted_data : dict) (fmt : string) :
  fetch_page E key = Ok (extracted_data, fmt) ->
  exists text page f,
    get_object_text E key = Ok text
    /\ json_loads E text = Ok (JObj page)
    /\ dict_has "grounded_output" page = true
    /\ dict_get "output_format" page = Some (JStr f)
    /\ fmt = PyStr.lower f
    /\ validate_and_extract_page_data (JObj page) = (true, extracted_data).
Proof.
  unfold fetch_page. intros Hfetch.
  destruct (get_object_text E key) as [text|e] eqn:Hget; simpl in Hfetch; [|discriminate].
  destruct (json_loads E text) as [v|e] eqn:Hparse; simpl in Hfetch; [|discriminate].
  destruct (validate_and_extract_page_data v) as [is_valid d] eqn:Hv.
  destruct is_valid; simpl in Hfetch; [|discriminate].
  destruct (validate_rejects v true d Hv eq_refl) as (page & -> & Hg & Hf).
  pose proof Hv as Hd. rewrite (validate_accepts page Hg Hf) in Hd. injection Hd as <-.
  unfold dict_get_default at 1 in Hfetch. simpl dict_get in Hfetch.
  unfold dict_has in Hf. unfold dict_get_default at 1 in Hfetch.
  destruct (dict_get "output_format" page) as [w|] eqn:Hw; [|discriminate].
  destruct w as [| | | |f| |]; simpl in Hfetch; try discriminate.
  injection Hfetch as <- <-.
  exists text, page, f. repeat split; try assumption; try reflexivity.
Qed.

Lemma fetch_page_accepts (E : env) (key text : string) (page : dict) (f : string) :
  get_object_text E key = Ok text ->
  json_loads E text = Ok (JObj page) ->
  dict_has "grounded_output" page = true ->
  dict_get "output_format" page = Some (JStr f) ->
  exists extracted_data, fetch_page E key = Ok (extracted_data, PyStr.lower f).
Proof.
  intros Hget Hparse Hg Hfmt.
  unfold fetch_page. rewrite Hget. simpl. rewrite Hparse. simpl.
  assert (Hf : dict_has "output_format" page = true)
    by (unfold dict_has; rewrite Hfmt; reflexivity).
  rewrite Hg, Hf. simpl. unfold dict_get_default. rewrite Hfmt. simpl.
  eexists. reflexivity.
Qed.

(** X4.  A page result reference is loaded exactly when its object can be
    read, its text parses to a JSON object, that object has the key
    [grounded_output] and its [output_format] is a string; in every other
    case the reference becomes a load error. *)
Theorem reference_loads_iff (E : env) (bucket uri : string) :
  loads E bucket uri = true
  <-> exists text page f,
        get_object_text E (s3_key_of bucket uri) = Ok text
        /\ json_loads E text = Ok (JObj page)
        /\ dict_has "grounded_output" page = true
        /\ dict_get "output_format" page = Some (JStr f).
Proof.
  unfold loads. split.
  - destruct (fetch_page E (s3_key_of bucket uri)) as [[d fmt]|e] eqn:Hf; [|discriminate].
    intros _. destruct (fetch_page_ok E _ d fmt Hf) as (text & page & f & H1 & H2 & H3 & H4 & _).
    exists text, page, f. repeat split; assumption.
  - intros (text & page & f & Hget & Hparse & Hg & Hfmt).
    destruct (fetch_page_accepts E _ text page f Hget Hparse Hg Hfmt) as (d & ->).
    reflexivity.
Qed.

(** X4, on three references of which the second is not JSON. *)
Lemma reference_loads_iff_witness :
  let E := Fixtures.store_env Fixtures.three_pages_store Fixtures.three_pages_parsed []
                              (fun _ => "{}") in
  loads E "bkt" (Fixtures.result_uri 1) = true
  /\ loads E "bkt" (Fixtures.result_uri 2) = false
  /\ exists text page f,
      get_object_text E (s3_key_of "bkt" (Fixtures.result_uri 1)) = Ok text
      /\ json_loads E text = Ok (JObj page)
      /\ dict_has "grounded_output" page = true
      /\ dict_get "output_format" page = Some (JStr f).
Proof.
  intros E. split; [reflexivity|]. split; [reflexivity|].
  exact (proj1 (reference_loads_iff E "bkt" (Fixtures.result_uri 1)) eq_refl).
Defined.


(** *** The pages of the aggregate *)

Section Pages.
Variable E : env.
Variable bucket : string.

(** A property of every page a reference can contribute holds of every
    page loaded. *)
Lemma loaded_pages_forall (P : dict -> Prop) (uris : list string) (st : load_state) :
  (forall n u p, In u uris -> In p (page_of E bucket n u) -> P p) ->
  Forall P (combined_pages_data st) ->
  Forall P (combined_pages_data (fold_left (process_uri E bucket) uris st)).
Proof.
  revert st. induction uris as [|u uris IH]; intros st HP Hst; simpl; [exact Hst|].
  apply IH.
  - intros n v p Hv. apply HP. right. exact Hv.
  - destruct (process_uri_views E bucket st u) as (-> & _).
    apply Forall_app. split; [exact Hst|].
    apply Forall_forall. intros p. apply HP. left. reflexivity.
Qed.

Lemma sorted_pages_forall (P : dict -> Prop) (uris : list string) (pages : list dict) :
  (forall n u p, In u uris -> In p (page_of E bucket n u) -> P p) ->
  sorted_pages E bucket uris = Ok pages ->
  Forall P pages.
Proof.
  intros HP Hsort. unfold sorted_pages in Hsort.
  apply sort_by_permutes in Hsort. apply (Permutation_Forall Hsort).
  apply loaded_pages_forall; [exact HP|constructor].
Qed.

Lemma page_of_ok (n : nat) (u : string) (p : dict) :
  In p (page_of E bucket n u) ->
  exists extracted_data fmt,
    fetch_page E (s3_key_of bucket u) = Ok (extracted_data, fmt)
    /\ p = backfill_page_number extracted_data
             (extract_page_number_from_path (s3_key_of bucket u)) n.
Proof.
  unfold page_of.
  destruct (fetch_page E (s3_key_of bucket u)) as [[d fmt]|e]; simpl; [|contradiction].
  intros [<-|[]]. exists d, fmt. split; reflexivity.
Qed.
End Pages.

(** X5.  Every page of the aggregate has exactly the seven keys
    [page_number], [original_image_s3_uri], [original_raw_text_s3_uri],
    [output_format], [grounded_output], [extracted_output] and
    [image_descriptions], in that order, with a page number that is not
    null and a string format; the aggregate has as many pages as were
    loaded. *)
Theorem aggregate_pages_have_the_page_schema
        (E : env) (bucket : string) (uris : list string) (pages : list dict) :
  sorted_pages E bucket uris = Ok pages ->
  Forall (fun p =>
            map fst p
            = [ "page_number"; "original_image_s3_uri"; "original_raw_text_s3_uri";
                "output_format"; "grounded_output"; "extracted_output";
                "image_descriptions" ]
            /\ dict_get_default "page_number" JNull p <> JNull
            /\ exists f, dict_get "output_format" p = Some (JStr f))
         pages
  /\ List.length pages = successful_page_count (load_all E bucket uris).
Proof.
  intros Hsort. split.
  - apply (sorted_pages_forall E bucket _ uris pages); [|exact Hsort].
    intros n u p _ Hp.
    destruct (page_of_ok E bucket n u p Hp) as (d & fmt & Hfetch & ->).
    destruct (fetch_page_ok E _ d fmt Hfetch)
      as (text & page & f & _ & _ & Hg & Hfmt & _ & Hv).
    assert (Hf : dict_has "output_format" page = true)
      by (unfold dict_has; rewrite Hfmt; reflexivity).
    rewrite (validate_accepts page Hg Hf) in Hv. injection Hv as <-.
    unfold backfill_page_number.
    unfold dict_get_default at 1. simpl dict_get.
    assert (Hformat : dict_get_default "output_format" JNull page = JStr f)
      by (unfold dict_get_default; rewrite Hfmt; reflexivity).
    destruct (dict_get_default "page_number" JNull page) eqn:Hn;
      [destruct (extract_page_number_from_path (s3_key_of bucket u))|..];
      (split; [reflexivity|split;
         [unfold dict_get_default; simpl; discriminate
         |exists f; simpl; rewrite Hformat; reflexivity]]).
  - unfold sorted_pages in Hsort. apply sort_by_permutes in Hsort.
    rewrite <- (Permutation_length Hsort).
    apply (LoadFacts.load_all_counts E bucket uris).
Qed.

(** X5, on the same three references. *)
Lemma aggregate_pages_have_the_page_schema_witness :
  let E := Fixtures.store_env Fixtures.three_pages_store Fixtures.three_pages_parsed []
                              (fun _ => "{}") in
  let uris := [Fixtures.result_uri 1; Fixtures.result_uri 2; Fixtures.result_uri 3] in
  exists pages,
    sorted_pages E "bkt" uris = Ok pages
    /\ map (dict_get "page_number") pages = [Some (JInt 1); Some (JInt 3)]
    /\ Forall (fun p => List.length p = 7) pages
    /\ List.length pages = successful_page_count (load_all E "bkt" uris).
Proof.
  intros E uris.
  destruct (sorted_pages E "bkt" uris) as [pages|e] eqn:Hsort;
    [|vm_compute in Hsort; discriminate].
  exists pages. split; [reflexivity|].
  destruct (aggregate_pages_have_the_page_schema E "bkt" uris pages Hsort)
    as (Hschema & Hlen).
  split; [vm_compute in Hsort; injection Hsort as <-; reflexivity|].
  split; [|exact Hlen].
  eapply Forall_impl; [|exact Hschema].
  intros p (Hkeys & _). rewrite <- (length_map fst), Hkeys. reflexivity.
Defined.


(** *** The counter of pages loaded so far *)

Lemma dict_get_set_same (k : string) (v : json) (d : dict) :
  dict_get k (dict_set k v d) = Some v.
Proof.
  induction d as [|[k' v'] d IH]; simpl.
  - rewrite String.eqb_refl. reflexivity.
  - destruct (String.eqb k k') eqn:Hk; simpl; rewrite ?String.eqb_refl, ?Hk; auto.
Qed.

(** A list whose keys already ascend is left as it is. *)
Lemma sort_keyed_ascending {A : Type} (l : list (sort_key * A)) :
  Sorted (fun a b => key_lt (fst b) (fst a) = Ok false) l ->
  sort_keyed l = Ok l.
Proof.
  induction 1 as [|x r Hr IH Hhd]; [reflexivity|].
  simpl. rewrite IH. simpl.
  destruct Hhd as [|y r' Hlt]; [reflexivity|].
  simpl. rewrite Hlt. reflexivity.
Qed.

Lemma consecutive_numbers_ascend (l : list dict) (start : nat) :
  map (dict_get "page_number") l
  = map (fun i => Some (JInt (Z.of_nat i + 1))) (seq start (List.length l)) ->
  Sorted (fun a b : sort_key * dict => key_lt (fst b) (fst a) = Ok false)
         (map (fun x => (page_key x, x)) l).
Proof.
  revert start. induction l as [|p l IH]; intros start; simpl; [constructor|].
  intros H. injection H as Hp Hl.
  constructor; [apply (IH (S start)); exact Hl|].
  destruct l as [|q l']; simpl; constructor.
  simpl in Hl. injection Hl as Hq _.
  unfold page_key. simpl. rewrite Hp, Hq.
  rewrite key_lt_orderable by exact I. simpl. f_equal.
  apply Z.ltb_ge. lia.
Qed.

Section Counter.
Variable E : env.
Variable bucket : string.

Local Abbreviation number i := (Some (JInt (Z.of_nat i + 1))).

Lemma counter_numbers_fold (uris : list string) (st : load_state) :
  (forall u page fmt,
      In u uris ->
      fetch_page E (s3_key_of bucket u) = Ok (page, fmt) ->
      dict_get_default "page_number" JNull page = JNull
      /\ extract_page_number_from_path (s3_key_of bucket u) = None) ->
  let st' := fold_left (process_uri E bucket) uris st in
  successful_page_count st <= successful_page_count st'
  /\ map (dict_get "page_number") (combined_pages_data st')
     = map (dict_get "page_number") (combined_pages_data st)
         ++ map (fun i => number i)
                (seq (successful_page_count st)
                     (successful_page_count st' - successful_page_count st)).
Proof.
  revert st. induction uris as [|u uris IH]; intros st Hall; simpl.
  - split; [lia|]. rewrite Nat.sub_diag. simpl. rewrite app_nil_r. reflexivity.
  - assert (Hrest : forall v page fmt,
               In v uris ->
               fetch_page E (s3_key_of bucket v) = Ok (page, fmt) ->
               dict_get_default "page_number" JNull page = JNull
               /\ extract_page_number_from_path (s3_key_of bucket v) = None)
      by (intros v page fmt Hv; apply Hall; right; exact Hv).
    destruct (IH (process_uri E bucket st u) Hrest) as (Hle & Hmap).
    set (st1 := process_uri E bucket st u) in *.
    set (c' := successful_page_count (fold_left (process_uri E bucket) uris st1)) in *.
    destruct (loads E bucket u) eqn:Hloads.
    + destruct (LoadFacts.process_uri_loaded E bucket st u Hloads)
        as (page & fmt & Hfetch & Hstep).
      fold st1 in Hstep.
      destruct (Hall u page fmt (or_introl eq_refl) Hfetch) as (Hnull & Hest).
      assert (Hc : successful_page_count st1 = S (successful_page_count st))
        by (rewrite Hstep; reflexivity).
      assert (Hd : combined_pages_data st1
                   = combined_pages_data st
                       ++ [dict_set "page_number"
                             (JInt (Z.of_nat (successful_page_count st) + 1)) page]).
      { rewrite Hstep. simpl. unfold backfill_page_number.
        rewrite Hnull, Hest. reflexivity. }
      rewrite Hc in Hle, Hmap. rewrite Hd in Hmap.
      split; [lia|]. rewrite Hmap.
      rewrite map_app. simpl map at 2. rewrite dict_get_set_same.
      rewrite <- app_assoc. f_equal. simpl app.
      replace (c' - successful_page_count st)
        with (S (c' - S (successful_page_count st))) by lia.
      reflexivity.
    + destruct (LoadFacts.process_uri_failed E bucket st u Hloads) as (e & _ & Hstep).
      fold st1 in Hstep.
      assert (Hc : successful_page_count st1 = successful_page_count st)
        by (rewrite Hstep; reflexivity).
      assert (Hd : combined_pages_data st1 = combined_pages_data st)
        by (rewrite Hstep; reflexivity).
      rewrite Hc in Hle, Hmap. rewrite Hd in Hmap.
      split; [exact Hle|exact Hmap].
Qed.
End Counter.

(** X6.  When no loaded page carries a page number and no reference name
    yields an estimate, the pages are numbered [1], [2], ... in the order
    in which they were loaded, and sorting leaves them in that order. *)
Theorem unnumbered_pages_are_numbered_by_arrival
        (E : env) (bucket : string) (uris : list string) :
  (forall u page fmt,
      In u uris ->
      fetch_page E (s3_key_of bucket u) = Ok (page, fmt) ->
      dict_get_default "page_number" JNull page = JNull
      /\ extract_page_number_from_path (s3_key_of bucket u) = None) ->
  let st := load_all E bucket uris in
  map (dict_get "page_number") (combined_pages_data st)
  = map (fun i => Some (JInt (Z.of_nat i + 1))) (seq 0 (successful_page_count st))
  /\ sorted_pages E bucket uris = Ok (combined_pages_data st).
Proof.
  intros Hall st.
  destruct (counter_numbers_fold E bucket uris initial_state Hall) as (_ & Hmap).
  simpl in Hmap. rewrite Nat.sub_0_r in Hmap. fold (load_all E bucket uris) in Hmap.
  fold st in Hmap. split; [exact Hmap|].
  unfold sorted_pages. fold st. unfold sort_by. rewrite decorate_pages. simpl.
  rewrite sort_keyed_ascending.
  - simpl. rewrite map_map. simpl. rewrite map_id. reflexivity.
  - apply (consecutive_numbers_ascend _ 0).
    rewrite Hmap. f_equal. f_equal.
    destruct (LoadFacts.load_all_counts E bucket uris) as (Hlen & _).
    symmetry. exact Hlen.
Qed.

(** X6, on two unnumbered page results listed second page first. *)
Lemma unnumbered_pages_are_numbered_by_arrival_witness :
  let E := Fixtures.store_env Fixtures.unnumbered_store Fixtures.unnumbered_parsed []
                              (fun _ => "{}") in
  let uris := [Fixtures.result_uri 2; Fixtures.result_uri 1] in
  let st := load_all E "bkt" uris in
  map (dict_get "page_number") (combined_pages_data st)
  = [Some (JInt 1); Some (JInt 2)]
  /\ map (dict_get "grounded_output") (combined_pages_data st)
     = [Some (JStr "Second"); Some (JStr "First")]
  /\ sorted_pages E "bkt" uris = Ok (combined_pages_data st).
Proof.
  intros E uris st.
  assert (Hall : forall u page fmt,
             In u uris ->
             fetch_page E (s3_key_of "bkt" u) = Ok (page, fmt) ->
             dict_get_default "page_number" JNull page = JNull
             /\ extract_page_number_from_path (s3_key_of "bkt" u) = None).
  { intros u page fmt [<-|[<-|[]]] Hf; vm_compute in Hf; injection Hf as <- <-;
      split; reflexivity. }
  destruct (unnumbered_pages_are_numbered_by_arrival E "bkt" uris Hall)
    as (Hnumbers & Hsorted).
  split; [exact Hnumbers|]. split; [reflexivity|exact Hsorted].
Defined.

End LoadingFacts.

(** ** Uploads and the outputs reported *)

Module UploadFacts.
Import Py Combiner.
Import AggregatorFacts.

(** The three ways step 4b can end. *)
Lemma render_and_upload_cases (E : env) (bucket : string) (ev : event) (agg : json) :
  let fmt := PyStr.lower (output_format ev) in
  let key := (FINAL_OUTPUT_PREFIX E ++ "/" ++ run_uuid ev ++ "/"
                ++ original_base_filename ev ++ "_combined"
                ++ format_extension fmt)%string in
  render_and_upload E bucket ev agg = ([], [])
  /\ (in_list fmt supported_formats = false
      \/ generate_format_from_json (json_dumps E) agg fmt = None
      \/ generate_format_from_json (json_dumps E) agg fmt = Some "")
  \/ exists content,
      in_list fmt supported_formats = true
      /\ generate_format_from_json (json_dumps E) agg fmt = Some content
      /\ content <> ""
      /\ (put_object E key content (format_content_type fmt) = Ok tt
          /\ render_and_upload E bucket ev agg
             = ([(fmt, ("s3://" ++ bucket ++ "/" ++ key)%string)],
                [Put key content (format_content_type fmt)])
          \/ (exists e, put_object E key content (format_content_type fmt) = Raise e)
             /\ render_and_upload E bucket ev agg
                = ([], [Put key content (format_content_type fmt)])).
Proof.
  intros fmt key. unfold render_and_upload. fold fmt.
  destruct (in_list fmt supported_formats) eqn:Hin; [|left; split; auto].
  destruct (generate_format_from_json (json_dumps E) agg fmt) as [content|] eqn:Hgen;
    [|left; split; auto].
  destruct (String.eqb_spec content "") as [->|Hne]; [left; split; auto|].
  right. exists content. repeat split; try assumption. fold key.
  destruct (put_object E key content (format_content_type fmt)) as [[]|e] eqn:Hput.
  - left. split; reflexivity.
  - right. split; [exists e; reflexivity|reflexivity].
Qed.

(** X7.  The output references a run reports are exactly its uploads that
    succeeded: each reported reference is the [s3://] address of an object
    the run put successfully, and each successful put is reported.  The
    first put is always the aggregate JSON, at most one more follows, and
    [json] is reported exactly when the first put succeeded. *)
Theorem reported_outputs_are_the_successful_uploads
        (E : env) (ev : event) (bucket : string)
        (r : response) (puts : list put_request) :
  BUCKET_NAME E = Some bucket ->
  s3_page_result_uris ev <> [] ->
  lambda_handler E ev = (Returned r, puts) ->
  let succeeded p :=
    put_object E (put_key p) (put_body p) (put_content_type p) = Ok tt in
  (forall fmt uri,
      In (fmt, uri) (final_outputs_s3_uris r) ->
      exists p, In p puts
                /\ uri = ("s3://" ++ bucket ++ "/" ++ put_key p)%string
                /\ succeeded p)
  /\ (forall p, In p puts -> succeeded p ->
                exists fmt,
                  In (fmt, ("s3://" ++ bucket ++ "/" ++ put_key p)%string)
                     (final_outputs_s3_uris r))
  /\ (exists first rest,
         puts = first :: rest
         /\ put_key first = s3_final_key_of E ev
         /\ put_content_type first = "application/json"
         /\ List.length rest <= 1
         /\ (succeeded first <-> In "json" (map fst (final_outputs_s3_uris r)))).
Proof.
  intros Hb Hne Hrun succeeded.
  apply (lambda_handler_combine E ev bucket r puts Hb Hne) in Hrun.
  unfold combine in Hrun.
  destruct (sort_by _ _) as [pages|e]; [|discriminate].
  set (agg := aggregated_json ev (load_all E bucket (s3_page_result_uris ev)) pages) in *.
  set (body := json_dumps E agg) in *.
  pose proof (render_and_upload_cases E bucket ev agg) as Hcases.
  cbv zeta in Hcases.
  set (fmt := PyStr.lower (output_format ev)) in *.
  set (key := (FINAL_OUTPUT_PREFIX E ++ "/" ++ run_uuid ev ++ "/"
                 ++ original_base_filename ev ++ "_combined"
                 ++ format_extension fmt)%string) in *.
  destruct (render_and_upload E bucket ev agg) as [format_uris format_puts].
  assert (Hfmt : fmt <> "json" \/ format_uris = []).
  { destruct Hcases as [(H & _)|(content & Hin & _)].
    - right. congruence.
    - left. intros Heq. rewrite Heq in Hin. discriminate. }
  destruct (put_object E (s3_final_key_of E ev) body "application/json")
    as [[]|e] eqn:Hjson;
    injection Hrun as <- <-; simpl.
  - split; [|split].
    + intros f uri [H|H].
      * injection H as <- <-.
        exists (Put (s3_final_key_of E ev) body "application/json").
        split; [left; reflexivity|]. split; [reflexivity|exact Hjson].
      * destruct Hcases as [(Hr & _)|(content & _ & _ & _ & [(Hput & Hr)|(_ & Hr)])];
          injection Hr as -> ->; try contradiction.
        destruct H as [H|[]]. injection H as <- <-.
        exists (Put key content (format_content_type fmt)).
        split; [right; left; reflexivity|]. split; [reflexivity|exact Hput].
    + intros p [<-|Hp] Hok.
      * exists "json". left. reflexivity.
      * destruct Hcases as [(Hr & _)|(content & _ & _ & _ & [(Hput & Hr)|((e & Hput) & Hr)])];
          injection Hr as -> ->; try contradiction.
        -- destruct Hp as [<-|[]]. exists fmt. right. left. reflexivity.
        -- destruct Hp as [<-|[]]. unfold succeeded in Hok. simpl in Hok. congruence.
    + exists (Put (s3_final_key_of E ev) body "application/json"), format_puts.
      repeat split; try reflexivity.
      * destruct Hcases as [(Hr & _)|(content & _ & _ & _ & [(_ & Hr)|(_ & Hr)])];
          injection Hr as _ ->; simpl; lia.
      * intros _. left. reflexivity.
      * intros _. exact Hjson.
  - split; [|split].
    + intros f uri H.
      destruct Hcases as [(Hr & _)|(content & _ & _ & _ & [(Hput & Hr)|(_ & Hr)])];
        injection Hr as -> ->; try contradiction.
      destruct H as [H|[]]. injection H as <- <-.
      exists (Put key content (format_content_type fmt)).
      split; [right; left; reflexivity|]. split; [reflexivity|exact Hput].
    + intros p [<-|Hp] Hok.
      * unfold succeeded in Hok. simpl in Hok. congruence.
      * destruct Hcases as [(Hr & _)|(content & _ & _ & _ & [(Hput & Hr)|((e' & Hput) & Hr)])];
          injection Hr as -> ->; try contradiction.
        -- destruct Hp as [<-|[]]. exists fmt. left. reflexivity.
        -- destruct Hp as [<-|[]]. unfold succeeded in Hok. simpl in Hok. congruence.
    + exists (Put (s3_final_key_of E ev) body "application/json"), format_puts.
      repeat split; try reflexivity.
      * destruct Hcases as [(Hr & _)|(content & _ & _ & _ & [(_ & Hr)|(_ & Hr)])];
          injection Hr as _ ->; simpl; lia.
      * unfold succeeded. simpl. congruence.
      * intros Hin. exfalso.
        destruct Hfmt as [Hfmt| ->]; [|contradiction].
        destruct Hcases as [(Hr & _)|(content & _ & _ & _ & [(_ & Hr)|(_ & Hr)])];
          injection Hr as -> _; simpl in Hin; try contradiction.
        destruct Hin as [Hin|[]]. apply Hfmt. exact Hin.
Qed.

(** X7, on three references, with the upload of the rendered artifact
    failing. *)
Lemma reported_outputs_are_the_successful_uploads_witness :
  let E := Fixtures.store_env Fixtures.three_pages_store Fixtures.three_pages_parsed
                              ["final-outputs/run1/doc_combined.md"] (fun _ => "{}") in
  let ev := Fixtures.three_pages_event "markdown" in
  exists r puts,
    (BUCKET_NAME E = Some "bkt"
     /\ s3_page_result_uris ev <> []
     /\ lambda_handler E ev = (Returned r, puts))
    /\ map put_key puts
       = ["final-outputs/run1/doc_aggregated_results.json";
          "final-outputs/run1/doc_combined.md"]
    /\ final_outputs_s3_uris r
       = [("json", "s3://bkt/final-outputs/run1/doc_aggregated_results.json")]
    /\ forall fmt uri,
        In (fmt, uri) (final_outputs_s3_uris r) ->
        exists p, In p puts
                  /\ uri = ("s3://bkt/" ++ put_key p)%string
                  /\ put_object E (put_key p) (put_body p) (put_content_type p) = Ok tt.
Proof.
  intros E ev.
  destruct (lambda_handler E ev) as [out puts] eqn:Hrun.
  vm_compute in Hrun. injection Hrun as <- <-.
  eexists. eexists.
  assert (Hb : BUCKET_NAME E = Some "bkt") by reflexivity.
  assert (Hne : s3_page_result_uris ev <> []) by discriminate.
  assert (Hr : lambda_handler E ev = _) by (vm_compute; reflexivity).
  split; [split; [exact Hb|split; [exact Hne|exact Hr]]|].
  split; [reflexivity|]. split; [reflexivity|].
  exact (proj1 (reported_outputs_are_the_successful_uploads E ev "bkt" _ _ Hb Hne Hr)).
Defined.


Lemma supported_format_table (fmt : string) :
  in_list fmt supported_formats = true ->
  fmt = "markdown" /\ format_extension fmt = ".md"
    /\ format_content_type fmt = "text/markdown"
  \/ fmt = "html" /\ format_extension fmt = ".html"
     /\ format_content_type fmt = "text/html"
  \/ fmt = "txt" /\ format_extension fmt = ".txt"
     /\ format_content_type fmt = "text/plain".
Proof.
  unfold in_list, supported_formats. simpl.
  destruct (String.eqb_spec fmt "markdown") as [->|_]; [left; repeat split|].
  destruct (String.eqb_spec fmt "html") as [->|_]; [right; left; repeat split|].
  destruct (String.eqb_spec fmt "txt") as [->|_]; [right; right; repeat split|].
  discriminate.
Qed.

(** X8.  The requested format is compared in lower case.  For a format
    other than [markdown], [html] and [txt] only the aggregate is uploaded.
    A second upload, when there is one, has a non-empty body, which is the
    rendering of the aggregate in the requested format, and its key ends in
    [_combined] followed by [.md], [.html] or [.txt] with the content type
    [text/markdown], [text/html] or [text/plain] of that format. *)
Theorem rendered_artifact_follows_the_requested_format
        (E : env) (ev : event) (bucket : string)
        (r : response) (puts : list put_request) :
  BUCKET_NAME E = Some bucket ->
  s3_page_result_uris ev <> [] ->
  lambda_handler E ev = (Returned r, puts) ->
  let fmt := PyStr.lower (output_format ev) in
  (in_list fmt supported_formats = false -> List.length puts = 1)
  /\ (forall p,
         nth_error puts 1 = Some p ->
         put_body p <> ""
         /\ (exists pages,
                sorted_pages E bucket (s3_page_result_uris ev) = Ok pages
                /\ generate_format_from_json
                     (json_dumps E)
                     (aggregated_json ev (load_all E bucket (s3_page_result_uris ev))
                                      pages)
                     fmt
                   = Some (put_body p))
         /\ exists extension,
             put_key p = (FINAL_OUTPUT_PREFIX E ++ "/" ++ run_uuid ev ++ "/"
                            ++ original_base_filename ev ++ "_combined"
                            ++ extension)%string
             /\ (fmt = "markdown" /\ extension = ".md"
                   /\ put_content_type p = "text/markdown"
                 \/ fmt = "html" /\ extension = ".html"
                    /\ put_content_type p = "text/html"
                 \/ fmt = "txt" /\ extension = ".txt"
                    /\ put_content_type p = "text/plain")).
Proof.
  intros Hb Hne Hrun fmt.
  apply (lambda_handler_combine E ev bucket r puts Hb Hne) in Hrun.
  destruct (combine_returned E ev bucket r puts Hrun)
    as (pages & format_uris & format_puts & Hsort & Hrender & -> & _).
  pose proof (render_and_upload_cases
                E bucket ev
                (aggregated_json ev (load_all E bucket (s3_page_result_uris ev)) pages))
    as Hcases.
  cbv zeta in Hcases. fold fmt in Hcases. rewrite Hrender in Hcases.
  split.
  - intros Hno.
    destruct Hcases as [(Hr & _)|(content & Hin & _)]; [|congruence].
    injection Hr as _ ->. reflexivity.
  - intros p Hp. simpl in Hp.
    destruct Hcases as [(Hr & _)|(content & Hin & Hgen & Hcontent & Hput)].
    + injection Hr as _ ->. discriminate.
    + assert (Hputs : format_puts
                      = [Put (FINAL_OUTPUT_PREFIX E ++ "/" ++ run_uuid ev ++ "/"
                                ++ original_base_filename ev ++ "_combined"
                                ++ format_extension fmt)
                             content (format_content_type fmt)]).
      { destruct Hput as [(_ & Hr)|(_ & Hr)]; injection Hr as _ ->; reflexivity. }
      rewrite Hputs in Hp. injection Hp as <-. simpl.
      split; [exact Hcontent|]. split; [exists pages; split; assumption|].
      exists (format_extension fmt). split; [reflexivity|].
      destruct (supported_format_table fmt Hin) as [(-> & -> & ->)|[(-> & -> & ->)|(-> & -> & ->)]];
        [left|right; left|right; right]; repeat split.
Qed.

(** X8, on three references and the format written [Markdown]. *)
Lemma rendered_artifact_follows_the_requested_format_witness :
  let E := Fixtures.store_env Fixtures.three_pages_store Fixtures.three_pages_parsed []
                              (fun _ => "{}") in
  let ev := Fixtures.three_pages_event "Markdown" in
  exists r puts,
    (BUCKET_NAME E = Some "bkt"
     /\ s3_page_result_uris ev <> []
     /\ lambda_handler E ev = (Returned r, puts))
    /\ map put_key puts
       = ["final-outputs/run1/doc_aggregated_results.json";
          "final-outputs/run1/doc_combined.md"]
    /\ forall p,
        nth_error puts 1 = Some p ->
        put_body p <> EmptyString /\ put_content_type p = "text/markdown".
Proof.
  intros E ev.
  destruct (lambda_handler E ev) as [out puts] eqn:Hrun.
  vm_compute in Hrun. injection Hrun as <- <-.
  eexists. eexists.
  assert (Hb : BUCKET_NAME E = Some "bkt") by reflexivity.
  assert (Hne : s3_page_result_uris ev <> []) by discriminate.
  assert (Hr : lambda_handler E ev = _) by (vm_compute; reflexivity).
  split; [split; [exact Hb|split; [exact Hne|exact Hr]]|].
  split; [reflexivity|].
  intros p Hp.
  destruct (proj2 (rendered_artifact_follows_the_requested_format
                     E ev "bkt" _ _ Hb Hne Hr) p Hp)
    as (Hbody & _ & extension & _ & [(_ & _ & Hct)|[(Hf & _)|(Hf & _)]]).
  - split; assumption.
  - discriminate Hf.
  - discriminate Hf.
Defined.

End UploadFacts.

(** ** Rendering of plain text and of empty pages *)

Module PlainRenderFacts.
Import Py Combiner.
Import PyStrFacts RenderFacts.

Lemma flat_map_nothing {A B : Type} (f : A -> list B) (l : list A) :
  Forall (fun x => f x = []) l -> flat_map f l = [].
Proof.
  induction 1 as [|x l Hx _ IH]; [reflexivity|]. simpl. rewrite Hx, IH. reflexivity.
Qed.

(** X9.  When the aggregate has at least one page and no page has
    grounded content, the Markdown and the text rendering are the empty
    string and nothing is uploaded for them, while the HTML rendering is
    the bare page shell, which is uploaded.  When the aggregate has no page
    at all, nothing is rendered and nothing is uploaded, whatever the
    format. *)
Theorem pages_without_content_render_empty
        (E : env) (bucket : string) (ev : event) (agg : dict) (pages : list dict) :
  dict_get "pages" agg = Some (JArr (map JObj pages)) ->
  Forall (fun p => orderable (page_key p) /\ format_is_text p) pages ->
  Forall (fun p => truthy (dict_get_default "grounded_output" JNull p) = false) pages ->
  let dumps := json_dumps E in
  (pages = [] ->
   (forall fmt, generate_format_from_json dumps (JObj agg) fmt = None)
   /\ render_and_upload E bucket ev (JObj agg) = ([], []))
  /\ (pages <> [] ->
      (generate_format_from_json dumps (JObj agg) "markdown" = Some ""
       /\ generate_format_from_json dumps (JObj agg) "txt" = Some ""
       /\ generate_format_from_json dumps (JObj agg) "html"
          = Some (html_head ++ html_foot)%string)
      /\ (PyStr.lower (output_format ev) = "markdown"
          \/ PyStr.lower (output_format ev) = "txt" ->
          render_and_upload E bucket ev (JObj agg) = ([], []))
      /\ (PyStr.lower (output_format ev) = "html" ->
          snd (render_and_upload E bucket ev (JObj agg))
          = [Put (FINAL_OUTPUT_PREFIX E ++ "/" ++ run_uuid ev ++ "/"
                    ++ original_base_filename ev ++ "_combined.html")
                 (html_head ++ html_foot) "text/html"])).
Proof.
  intros Hpages Hall Hempty dumps. split.
  { intros ->.
    assert (Hnone : forall fmt, generate_format_from_json dumps (JObj agg) fmt = None).
    { intros fmt. unfold generate_format_from_json, generate_body, dict_get_default.
      rewrite Hpages. simpl. destruct (negb _); reflexivity. }
    split; [exact Hnone|].
    unfold render_and_upload. fold dumps. rewrite Hnone.
    destruct (in_list _ supported_formats); reflexivity. }
  intros Hne.
  assert (Hkeys : Forall (fun p => orderable (page_key p)) pages)
    by (eapply Forall_impl; [|exact Hall]; intros p [H _]; exact H).
  assert (Hfmt : Forall format_is_text pages)
    by (eapply Forall_impl; [|exact Hall]; intros p [_ H]; exact H).
  assert (Hgen : forall fmt,
             in_list fmt supported_formats = true ->
             generate_format_from_json dumps (JObj agg) fmt
             = join_parts (PyStr.lower fmt) []).
  { intros fmt Hin.
    destruct (generate_sorted_parts dumps agg pages fmt Hpages Hne Hin Hkeys Hfmt)
      as (sorted & Hperm & _ & ->).
    f_equal. apply flat_map_nothing.
    apply (Permutation_Forall Hperm).
    eapply Forall_impl; [|exact Hempty].
    intros p Hp. apply page_part_skipped. exact Hp. }
  assert (Hmd := Hgen "markdown" eq_refl).
  assert (Htxt := Hgen "txt" eq_refl).
  assert (Hhtml := Hgen "html" eq_refl).
  change (join_parts (PyStr.lower "markdown") []) with (Some "") in Hmd.
  change (join_parts (PyStr.lower "txt") []) with (Some "") in Htxt.
  change (join_parts (PyStr.lower "html") [])
    with (Some (html_head ++ "" ++ html_foot)%string) in Hhtml.
  change ("" ++ html_foot)%string with html_foot in Hhtml.
  split; [repeat split; assumption|]. split.
  - intros [Hf|Hf]; unfold render_and_upload; rewrite Hf; simpl in_list; cbv iota.
    + fold dumps. rewrite Hmd. reflexivity.
    + fold dumps. rewrite Htxt. reflexivity.
  - intros Hf. unfold render_and_upload. rewrite Hf. simpl in_list. cbv iota.
    fold dumps. rewrite Hhtml.
    replace (String.eqb (html_head ++ html_foot) "") with false by reflexivity.
    destruct (put_object E _ _ _); reflexivity.
Qed.

(** X9, on an aggregate of one page with empty content and on an aggregate
    without pages. *)
Lemma pages_without_content_render_empty_witness :
  let E := Fixtures.store_env [] [] [] (fun _ => "{}") in
  let ev := Combiner.Event "run1" [Fixtures.result_uri 1] "doc"
                           "s3://bkt/inputs/doc.pdf" "HTML" in
  let pages := [Fixtures.text_page 1 "html" ""] in
  let no_page : dict := [("pages", JArr [])] in
  (dict_get "pages" Scenarios.empty_page_doc = Some (JArr (map JObj pages))
   /\ pages <> [])
  /\ generate_format_from_json (json_dumps E) (JObj Scenarios.empty_page_doc) "markdown"
     = Some EmptyString
  /\ generate_format_from_json (json_dumps E) (JObj Scenarios.empty_page_doc) "html"
     = Some (html_head ++ html_foot)%string
  /\ map put_key (snd (render_and_upload E "bkt" ev (JObj Scenarios.empty_page_doc)))
     = ["final-outputs/run1/doc_combined.html"]
  /\ generate_format_from_json (json_dumps E) (JObj no_page) "html" = None
  /\ render_and_upload E "bkt" ev (JObj no_page) = ([], []).
Proof.
  intros E ev pages no_page.
  assert (Hpages : dict_get "pages" Scenarios.empty_page_doc
                   = Some (JArr (map JObj pages))) by reflexivity.
  assert (Hne : pages <> []) by discriminate.
  split; [split; assumption|].
  assert (Hall : Forall (fun p => orderable (page_key p) /\ format_is_text p) pages).
  { repeat constructor. exists "html". reflexivity. }
  assert (Hempty : Forall (fun p => truthy (dict_get_default "grounded_output" JNull p)
                                    = false) pages).
  { repeat constructor. }
  destruct (proj2 (pages_without_content_render_empty
                     E "bkt" ev Scenarios.empty_page_doc pages Hpages Hall Hempty)
                  Hne)
    as ((Hmd & _ & Hhtml) & _ & Hupload).
  split; [exact Hmd|]. split; [exact Hhtml|].
  split; [rewrite (Hupload eq_refl); reflexivity|].
  destruct (proj1 (pages_without_content_render_empty
                     E "bkt" ev no_page [] eq_refl (Forall_nil _) (Forall_nil _))
                  eq_refl)
    as (Hnone & Hnothing).
  split; [apply Hnone|exact Hnothing].
Defined.


(** X10.  The text rendering joins the parts of the pages, taken in page
    order, with one blank line.  A single page with text renders as that
    text alone, in text and in Markdown, and two pages with text between
    which every page is without content are separated by exactly one blank
    line. *)
Theorem text_pages_are_separated_by_a_blank_line
        (dumps : json -> string) (agg : dict) (pages : list dict) :
  dict_get "pages" agg = Some (JArr (map JObj pages)) ->
  pages <> [] ->
  Forall (fun p => orderable (page_key p) /\ format_is_text p) pages ->
  exists sorted,
    Permutation pages sorted
    /\ StronglySorted page_order sorted
    /\ generate_format_from_json dumps (JObj agg) "txt"
       = Some (String.concat (nl ++ nl) (flat_map (page_part dumps) sorted))
    /\ (forall p,
           pages = [p] ->
           carries_text p = true ->
           generate_format_from_json dumps (JObj agg) "txt" = Some (grounded_text p)
           /\ generate_format_from_json dumps (JObj agg) "markdown"
              = Some (grounded_text p))
    /\ (forall before p skipped q after,
           sorted = before ++ p :: skipped ++ q :: after ->
           carries_text p = true ->
           carries_text q = true ->
           (forall m, In m skipped ->
                      truthy (dict_get_default "grounded_output" JNull m) = false) ->
           exists front back,
             generate_format_from_json dumps (JObj agg) "txt"
             = Some (front ++ grounded_text p ++ (nl ++ nl)
                           ++ grounded_text q ++ back)%string).
Proof.
  intros Hpages Hne Hall.
  assert (Hkeys : Forall (fun p => orderable (page_key p)) pages)
    by (eapply Forall_impl; [|exact Hall]; intros p [H _]; exact H).
  assert (Hfmt : Forall format_is_text pages)
    by (eapply Forall_impl; [|exact Hall]; intros p [_ H]; exact H).
  destruct (generate_sorted_parts dumps agg pages "txt" Hpages Hne eq_refl Hkeys Hfmt)
    as (sorted & Hperm & Hsorted & Htxt).
  change (join_parts (PyStr.lower "txt") (flat_map (page_part dumps) sorted))
    with (Some (String.concat (nl ++ nl) (flat_map (page_part dumps) sorted))) in Htxt.
  exists sorted. split; [exact Hperm|]. split; [exact Hsorted|].
  split; [exact Htxt|]. split.
  - intros p -> Hp.
    apply Permutation_length_1_inv in Hperm. subst sorted.
    split.
    + rewrite Htxt. simpl. rewrite app_nil_r, (page_part_text dumps p Hp). reflexivity.
    + destruct (generate_sorted_parts dumps agg [p] "markdown" Hpages Hne eq_refl
                                      Hkeys Hfmt)
        as (sorted & Hperm & _ & ->).
      apply Permutation_length_1_inv in Hperm. subst sorted.
      simpl. rewrite app_nil_r, (page_part_text dumps p Hp). reflexivity.
  - intros before p skipped q after -> Hp Hq Hskipped.
    rewrite Htxt.
    rewrite flat_map_app. simpl flat_map. rewrite flat_map_app. simpl flat_map.
    rewrite (page_part_text dumps p Hp), (page_part_text dumps q Hq).
    rewrite (flat_map_nothing (page_part dumps) skipped).
    + simpl app.
      destruct (concat_between (nl ++ nl) (grounded_text p) (grounded_text q)
                               (flat_map (page_part dumps) before)
                               (flat_map (page_part dumps) after))
        as (front & back & ->).
      exists front, back. reflexivity.
    + apply Forall_forall. intros m Hm. apply page_part_skipped. apply Hskipped. exact Hm.
Qed.

(** X10, on two pages listed in the wrong order. *)
Lemma text_pages_are_separated_by_a_blank_line_witness :
  let pages := [Fixtures.text_page 2 "txt" "Second";
                Fixtures.text_page 1 "txt" "First"] in
  let agg := Fixtures.two_pages_doc "txt" in
  let dumps := fun _ : json => "{}" in
  (dict_get "pages" agg = Some (JArr (map JObj pages)) /\ pages <> [])
  /\ exists sorted,
      Permutation pages sorted
      /\ StronglySorted page_order sorted
      /\ generate_format_from_json dumps (JObj agg) "txt"
         = Some (String.concat (nl ++ nl) (flat_map (page_part dumps) sorted)).
Proof.
  intros pages agg dumps.
  assert (Hpages : dict_get "pages" agg = Some (JArr (map JObj pages))) by reflexivity.
  assert (Hne : pages <> []) by discriminate.
  split; [split; assumption|].
  assert (Hall : Forall (fun p => orderable (page_key p) /\ format_is_text p) pages).
  { repeat constructor; exists "txt"; reflexivity. }
  destruct (text_pages_are_separated_by_a_blank_line dumps agg pages Hpages Hne Hall)
    as (sorted & Hperm & Hsorted & Htxt & _).
  exists sorted. repeat split; assumption.
Defined.

End PlainRenderFacts.

(** ** The formats met in the page results *)

Module FormatSetFacts.
Import Py Combiner.

Lemma in_list_In (s : string) (l : list string) : in_list s l = true <-> In s l.
Proof.
  unfold in_list. rewrite existsb_exists. split.
  - intros (x & Hx & Heq). apply String.eqb_eq in Heq. subst. exact Hx.
  - intros H. exists s. split; [exact H|apply String.eqb_refl].
Qed.

Lemma set_add_In (s f : string) (l : list string) :
  In f (set_add s l) <-> f = s \/ In f l.
Proof.
  unfold set_add. destruct (in_list s l) eqn:Hin.
  - apply in_list_In in Hin. split; [auto|]. intros [->|H]; assumption.
  - rewrite in_app_iff. simpl. split.
    + intros [H|[H|[]]]; auto.
    + intros [->|H]; auto.
Qed.

Lemma set_add_NoDup (s : string) (l : list string) :
  NoDup l -> NoDup (set_add s l).
Proof.
  intros Hl. unfold set_add. destruct (in_list s l) eqn:Hin; [exact Hl|].
  assert (Hnot : ~ In s l).
  { intros H. apply in_list_In in H. congruence. }
  clear Hin. induction Hl as [|x l Hx Hl IH]; simpl.
  - constructor; [intros []|constructor].
  - constructor.
    + rewrite in_app_iff. simpl. intros [H|[H|[]]]; [contradiction|].
      apply Hnot. left. symmetry. exact H.
    + apply IH. intros H. apply Hnot. right. exact H.
Qed.

Lemma insert_string_permutes (s : string) (l : list string) :
  Permutation (s :: l) (insert_string s l).
Proof.
  induction l as [|t l IH]; simpl; [apply Permutation_refl|].
  destruct (String.leb s t); [apply Permutation_refl|].
  apply (perm_trans (perm_swap t s l)). apply perm_skip. exact IH.
Qed.

Lemma sorted_strings_permutes (l : list string) :
  Permutation l (sorted_strings l).
Proof.
  induction l as [|s l IH]; simpl; [constructor|].
  apply (perm_trans (l' := s :: sorted_strings l)); [apply perm_skip; exact IH|].
  apply insert_string_permutes.
Qed.

Lemma insert_string_sorted (s : string) (l : list string) :
  Sorted (fun a b => String.leb a b = true) l ->
  Sorted (fun a b => String.leb a b = true) (insert_string s l).
Proof.
  induction 1 as [|t l Hl IH Hhd]; simpl.
  - repeat constructor.
  - destruct (String.leb s t) eqn:Hst.
    + constructor; [constructor; assumption|]. constructor. exact Hst.
    + constructor; [exact IH|].
      destruct Hhd as [|u l' Htu]; simpl.
      * constructor. destruct (String.leb_total s t) as [H|H]; congruence.
      * destruct (String.leb s u); constructor;
          [destruct (String.leb_total s t) as [H|H]; congruence|exact Htu].
Qed.

Lemma sorted_strings_sorted (l : list string) :
  Sorted (fun a b => String.leb a b = true) (sorted_strings l).
Proof.
  induction l as [|s l IH]; simpl; [constructor|].
  apply insert_string_sorted. exact IH.
Qed.

Section Formats.
Variable E : env.
Variable bucket : string.

Lemma process_uri_formats (st : load_state) (u : string) :
  encountered_formats (process_uri E bucket st u)
  = match fetch_page E (s3_key_of bucket u) with
    | Ok fetched => set_add (snd fetched) (encountered_formats st)
    | Raise _ => encountered_formats st
    end.
Proof.
  unfold process_uri, load_page.
  destruct (fetch_page E (s3_key_of bucket u)) as [fetched|e]; reflexivity.
Qed.

Lemma formats_fold (uris : list string) (st : load_state) :
  let st' := fold_left (process_uri E bucket) uris st in
  (NoDup (encountered_formats st) -> NoDup (encountered_formats st'))
  /\ forall f,
      In f (encountered_formats st')
      <-> In f (encountered_formats st)
          \/ exists u page, In u uris
                            /\ fetch_page E (s3_key_of bucket u) = Ok (page, f).
Proof.
  revert st. induction uris as [|u uris IH]; intros st; simpl.
  - split; [auto|]. intros f. split; [auto|].
    intros [H|(u & page & [] & _)]. exact H.
  - destruct (IH (process_uri E bucket st u)) as (Hnodup & Hin).
    rewrite process_uri_formats in Hnodup, Hin.
    split.
    + intros Hst. apply Hnodup.
      destruct (fetch_page E (s3_key_of bucket u)) as [fetched|e]; [|exact Hst].
      apply set_add_NoDup. exact Hst.
    + intros f. rewrite Hin. clear Hin Hnodup.
      destruct (fetch_page E (s3_key_of bucket u)) as [[page fmt]|e] eqn:Hfetch.
      * simpl. rewrite set_add_In. split.
        -- intros [[->|H]|(v & q & Hv & Hq)].
           ++ right. exists u, page. split; [left; reflexivity|exact Hfetch].
           ++ left. exact H.
           ++ right. exists v, q. split; [right; exact Hv|exact Hq].
        -- intros [H|(v & q & [<-|Hv] & Hq)].
           ++ left. right. exact H.
           ++ left. left. rewrite Hfetch in Hq. injection Hq as _ <-. reflexivity.
           ++ right. exists v, q. split; assumption.
      * split.
        -- intros [H|(v & q & Hv & Hq)]; [left; exact H|].
           right. exists v, q. split; [right; exact Hv|exact Hq].
        -- intros [H|(v & q & [<-|Hv] & Hq)]; [left; exact H| |].
           ++ rewrite Hfetch in Hq. discriminate.
           ++ right. exists v, q. split; assumption.
Qed.
End Formats.

(** X11.  The formats reported in the summary are sorted, without
    repetition, and are exactly the lower-cased formats of the page results
    that loaded. *)
Theorem formats_in_page_results_are_sorted_and_distinct
        (E : env) (bucket : string) (uris : list string) :
  let formats := sorted_strings (encountered_formats (load_all E bucket uris)) in
  Sorted (fun a b => String.leb a b = true) formats
  /\ NoDup formats
  /\ (forall f,
         In f formats
         <-> exists u text page f0,
               In u uris
               /\ get_object_text E (s3_key_of bucket u) = Ok text
               /\ json_loads E text = Ok (JObj page)
               /\ dict_has "grounded_output" page = true
               /\ dict_get "output_format" page = Some (JStr f0)
               /\ f = PyStr.lower f0).
Proof.
  intros formats. subst formats.
  destruct (formats_fold E bucket uris initial_state) as (Hnodup & Hin).
  fold (load_all E bucket uris) in Hnodup, Hin.
  split; [apply sorted_strings_sorted|]. split.
  - apply (Permutation_NoDup (sorted_strings_permutes _)). apply Hnodup. constructor.
  - intros f. split.
    + intros Hf.
      apply (Permutation_in _ (Permutation_sym (sorted_strings_permutes _))) in Hf.
      apply Hin in Hf. destruct Hf as [[]|(u & page & Hu & Hfetch)].
      destruct (LoadingFacts.fetch_page_ok E _ page f Hfetch)
        as (text & raw & f0 & Hget & Hparse & Hg & Hfmt & Hlow & _).
      exists u, text, raw, f0. repeat split; assumption.
    + intros (u & text & page & f0 & Hu & Hget & Hparse & Hg & Hfmt & ->).
      apply (Permutation_in _ (sorted_strings_permutes _)).
      apply Hin. right.
      destruct (LoadingFacts.fetch_page_accepts E _ text page f0 Hget Hparse Hg Hfmt)
        as (d & Hfetch).
      exists u, d. split; assumption.
Qed.

(** X11, on three references of which two load, both in Markdown. *)
Lemma formats_in_page_results_are_sorted_and_distinct_witness :
  let E := Fixtures.store_env Fixtures.three_pages_store Fixtures.three_pages_parsed []
                              (fun _ => "{}") in
  let uris := [Fixtures.result_uri 1; Fixtures.result_uri 2; Fixtures.result_uri 3] in
  sorted_strings (encountered_formats (load_all E "bkt" uris)) = ["markdown"]
  /\ exists u text page f0,
      In u uris
      /\ get_object_text E (s3_key_of "bkt" u) = Ok text
      /\ json_loads E text = Ok (JObj page)
      /\ dict_has "grounded_output" page = true
      /\ dict_get "output_format" page = Some (JStr f0)
      /\ "markdown" = PyStr.lower f0.
Proof.
  intros E uris. split; [reflexivity|].
  pose proof (formats_in_page_results_are_sorted_and_distinct E "bkt" uris) as H.
  cbv zeta in H. destruct H as (_ & _ & H).
  apply (proj1 (H "markdown")). left. reflexivity.
Defined.

End FormatSetFacts.

(** ** References and keys *)

Module KeyFacts.
Import Py PyStr Combiner.
Import PyStrFacts StripFacts.

Lemma remove_all_from_skip (pat a s : string) :
  remove_all_from pat (String.length a) (a ++ s) = remove_all_from pat 0 s.
Proof.
  induction a as [|c a IH]; simpl; [reflexivity|exact IH].
Qed.

Lemma remove_all_prefix (pat s : string) :
  pat <> EmptyString -> remove_all pat (pat ++ s) = remove_all pat s.
Proof.
  intros Hne. unfold remove_all.
  destruct pat as [|c p]; [contradiction|].
  change (String c p ++ s)%string with (String c (p ++ s)).
  cbn [remove_all_from].
  change (String c (p ++ s)) with (String c p ++ s)%string.
  rewrite prefix_append.
  replace (String.length (String c p) - 1) with (String.length p)
    by (simpl; lia).
  apply remove_all_from_skip.
Qed.

Lemma remove_all_absent (pat s : string) :
  PageProcessor.contains pat s = false -> remove_all pat s = s.
Proof.
  unfold remove_all. induction s as [|c s IH]; intros H; [reflexivity|].
  assert (Hp : String.prefix pat (String c s) = false
               /\ PageProcessor.contains pat s = false).
  { change (PageProcessor.contains pat (String c s))
      with (String.prefix pat (String c s) || PageProcessor.contains pat s) in H.
    apply orb_false_iff in H. exact H. }
  destruct Hp as (Hp & Hs).
  cbn [remove_all_from]. rewrite Hp. f_equal. apply IH. exact Hs.
Qed.

(** X12.  The object key read from [s3://<bucket>/<key>] is [<key>], and a
    bare key is left as it is, provided the key does not itself contain
    [s3://<bucket>/]. *)
Theorem result_reference_gives_back_its_key (bucket key : string) :
  PageProcessor.contains ("s3://" ++ bucket ++ "/") key = false ->
  s3_key_of bucket ("s3://" ++ bucket ++ "/" ++ key) = key
  /\ s3_key_of bucket key = key.
Proof.
  intros H. unfold s3_key_of. split.
  - change ("s3://" ++ bucket ++ "/" ++ key)%string
      with ("s3://" ++ (bucket ++ "/" ++ key))%string.
    replace ("s3://" ++ (bucket ++ "/" ++ key))%string
      with (("s3://" ++ bucket ++ "/") ++ key)%string.
    + rewrite remove_all_prefix by discriminate. apply remove_all_absent. exact H.
    + simpl. rewrite !append_assoc. reflexivity.
  - apply remove_all_absent. exact H.
Qed.

(** X12, on the key of the first page result. *)
Lemma result_reference_gives_back_its_key_witness :
  PageProcessor.contains "s3://bkt/" (Fixtures.result_key 1) = false
  /\ s3_key_of "bkt" (Fixtures.result_uri 1) = Fixtures.result_key 1
  /\ s3_key_of "bkt" (Fixtures.result_key 1) = Fixtures.result_key 1.
Proof.
  split; [reflexivity|].
  exact (result_reference_gives_back_its_key "bkt" (Fixtures.result_key 1) eq_refl).
Defined.

End KeyFacts.

(** ** Code fences *)

Module FenceFacts.
Import PyStr PageProcessor.
Import PyStrFacts StripFacts.

Local Abbreviation nl := Combiner.nl.

Lemma unwrap_stripped (start_fence text : string) :
  strip (unwrap start_fence text) = unwrap start_fence text.
Proof.
  unfold unwrap.
  destruct (endswith _ generic_fence); apply strip_idempotent.
Qed.

Lemma format_fence_generic (fmt fence : string) :
  format_fence fmt = Some fence -> exists tag, fence = (generic_fence ++ tag)%string.
Proof.
  unfold format_fence.
  destruct (String.eqb fmt "json"); [intros H; injection H as <-; exists "json"; reflexivity|].
  destruct (String.eqb fmt "markdown");
    [intros H; injection H as <-; exists "markdown"; reflexivity|].
  destruct (String.eqb fmt "html"); [intros H; injection H as <-; exists "html"; reflexivity|].
  discriminate.
Qed.

(** X13.  A cleaned model answer has no white space at either end, and an
    answer that does not open with a code fence is only stripped. *)
Theorem cleaned_answer_has_no_outer_white_space (text fmt : string) :
  strip (cleanup_gemini_response text fmt) = cleanup_gemini_response text fmt
  /\ (startswith (strip text) generic_fence = false ->
      cleanup_gemini_response text fmt = strip text).
Proof.
  unfold cleanup_gemini_response. split.
  - destruct (starts_with_format_fence (strip text) fmt); [apply unwrap_stripped|].
    destruct (startswith (strip text) generic_fence);
      [apply unwrap_stripped|apply strip_idempotent].
  - intros Hno. unfold starts_with_format_fence.
    destruct (format_fence fmt) as [fence|] eqn:Hfence; [|rewrite Hno; reflexivity].
    destruct (format_fence_generic fmt fence Hfence) as (tag & ->).
    destruct (startswith (strip text) (generic_fence ++ tag)) eqn:Hstart;
      [|rewrite Hno; reflexivity].
    unfold startswith in Hstart, Hno.
    apply prefix_shorter in Hstart. congruence.
Qed.

(** X13, on an answer padded with blanks and a line end. *)
Lemma cleaned_answer_has_no_outer_white_space_witness :
  startswith (strip ("  Hello " ++ Combiner.nl)) generic_fence = false
  /\ cleanup_gemini_response ("  Hello " ++ Combiner.nl) "markdown" = "Hello".
Proof.
  split; [reflexivity|].
  exact (proj2 (cleaned_answer_has_no_outer_white_space
                  ("  Hello " ++ Combiner.nl) "markdown") eq_refl).
Defined.

Lemma append_nonempty_r (a b : string) : b <> EmptyString -> (a ++ b)%string <> EmptyString.
Proof. destruct a; [auto|discriminate]. Qed.

Ltac ends_with_fence :=
  repeat (apply rstrip_app_fixed; [|repeat apply append_nonempty_r; discriminate]);
  reflexivity.

(** A text that begins with a fence and ends with one is its own [strip]. *)
Lemma strip_fenced (tag rest : string) :
  strip ((generic_fence ++ tag) ++ rest ++ generic_fence)
  = ((generic_fence ++ tag) ++ rest ++ generic_fence)%string.
Proof.
  unfold strip.
  change (lstrip ((generic_fence ++ tag) ++ rest ++ generic_fence))
    with ((generic_fence ++ tag) ++ rest ++ generic_fence)%string.
  ends_with_fence.
Qed.

(** What is left of a stripped body and its closing fence line. *)
Lemma unwrap_body (body : string) :
  strip body = body ->
  body <> EmptyString ->
  strip (body ++ nl ++ generic_fence) = ((body ++ nl) ++ generic_fence)%string
  /\ strip (body ++ nl) = body.
Proof.
  intros Hbody Hne. destruct (strip_fixed body Hbody) as (Hl & Hr).
  destruct (lstrip_head body Hl) as [->|(c & r & -> & Hc)]; [contradiction|].
  unfold strip. split.
  - change (lstrip (String c r ++ nl ++ generic_fence))
      with (if is_space c then lstrip (r ++ nl ++ generic_fence)
            else (String c r ++ nl ++ generic_fence)%string).
    rewrite Hc, <- append_assoc. ends_with_fence.
  - change (lstrip (String c r ++ nl))
      with (if is_space c then lstrip (r ++ nl) else (String c r ++ nl)%string).
    rewrite Hc. unfold nl, Combiner.nl. rewrite rstrip_app_space by reflexivity.
    exact Hr.
Qed.

(** A body enclosed between a fence line and a closing fence line. *)
Lemma unwrap_fenced (fence body : string) :
  strip body = body ->
  unwrap fence (fence ++ nl ++ body ++ nl ++ generic_fence) = body.
Proof.
  intros Hbody. unfold unwrap. rewrite drop_append.
  destruct (string_dec body EmptyString) as [->|Hne]; [reflexivity|].
  destruct (unwrap_body body Hbody Hne) as (Hinner & Hrest).
  assert (Hline : strip (nl ++ body ++ nl ++ generic_fence)
                  = ((body ++ nl) ++ generic_fence)%string) by exact Hinner.
  rewrite Hline, endswith_append, drop_last_append. exact Hrest.
Qed.

(** X14.  An answer wrapped in the fence of its format, or in a bare
    fence, is reduced to its body.  For a format without a fence of its own
    the text that follows the opening fence on its line, a language tag for
    instance, stays in the result. *)
Theorem fenced_answer_is_unwrapped (body fmt : string) :
  strip body = body ->
  (forall fence,
      format_fence fmt = Some fence ->
      cleanup_gemini_response (fence ++ nl ++ body ++ nl ++ generic_fence) fmt = body)
  /\ cleanup_gemini_response (generic_fence ++ nl ++ body ++ nl ++ generic_fence) fmt
     = body
  /\ (format_fence fmt = None ->
      body <> EmptyString ->
      cleanup_gemini_response (generic_fence ++ body ++ nl ++ generic_fence) fmt = body).
Proof.
  intros Hbody.
  assert (Hstrip : forall tag rest,
             strip ((generic_fence ++ tag) ++ nl ++ rest ++ nl ++ generic_fence)
             = ((generic_fence ++ tag) ++ nl ++ rest ++ nl ++ generic_fence)%string).
  { intros tag rest.
    replace (nl ++ rest ++ nl ++ generic_fence)%string
      with ((nl ++ rest ++ nl) ++ generic_fence)%string
      by (rewrite !append_assoc; reflexivity).
    apply strip_fenced. }
  split; [|split].
  - intros fence Hfence.
    destruct (format_fence_generic fmt fence Hfence) as (tag & ->).
    unfold cleanup_gemini_response. rewrite Hstrip.
    unfold starts_with_format_fence. rewrite Hfence.
    unfold startswith. rewrite prefix_append.
    apply unwrap_fenced. exact Hbody.
  - unfold cleanup_gemini_response.
    pose proof (Hstrip EmptyString body) as H0.
    change (generic_fence ++ "")%string with generic_fence in H0. rewrite H0.
    assert (Hnone : starts_with_format_fence
                      (generic_fence ++ nl ++ body ++ nl ++ generic_fence) fmt = None).
    { unfold starts_with_format_fence, format_fence.
      destruct (String.eqb fmt "json"); [reflexivity|].
      destruct (String.eqb fmt "markdown"); [reflexivity|].
      destruct (String.eqb fmt "html"); reflexivity. }
    rewrite Hnone.
    unfold startswith. rewrite prefix_append.
    apply unwrap_fenced. exact Hbody.
  - intros Hnone Hne.
    unfold cleanup_gemini_response.
    pose proof (strip_fenced EmptyString (body ++ nl)) as H0.
    change (generic_fence ++ "")%string with generic_fence in H0.
    rewrite append_assoc in H0. rewrite H0.
    unfold starts_with_format_fence. rewrite Hnone.
    unfold startswith. rewrite prefix_append.
    unfold unwrap. rewrite drop_append.
    destruct (unwrap_body body Hbody Hne) as (Hinner & Hrest).
    rewrite Hinner, endswith_append, drop_last_append. exact Hrest.
Qed.

(** X14, on a Markdown answer in its fence and on a [json] fence cleaned
    for the text format. *)
Lemma fenced_answer_is_unwrapped_witness :
  strip "# Title" = "# Title"
  /\ cleanup_gemini_response
       ("```markdown" ++ Combiner.nl ++ "# Title" ++ Combiner.nl ++ "```") "markdown"
     = "# Title"
  /\ cleanup_gemini_response
       ("```json" ++ Combiner.nl ++ "{}" ++ Combiner.nl ++ "```") "txt"
     = ("json" ++ Combiner.nl ++ "{}")%string.
Proof.
  split; [reflexivity|]. split.
  - exact (proj1 (fenced_answer_is_unwrapped "# Title" "markdown" eq_refl)
                 "```markdown" eq_refl).
  - refine (proj2 (proj2 (fenced_answer_is_unwrapped
                            ("json" ++ Combiner.nl ++ "{}") "txt" eq_refl))
                  eq_refl _).
    discriminate.
Defined.

End FenceFacts.

(** ** Description markers *)

Module TokenFacts.
Import Py PyStr PageProcessor.
Import PyStrFacts StripFacts.

Lemma strip_tokens_from_skip (a s : string) :
  strip_tokens_from (String.length a) (a ++ s) = strip_tokens_from 0 s.
Proof. induction a as [|c a IH]; simpl; [reflexivity|exact IH]. Qed.

Lemma strip_tokens_from_cons (c : ascii) (r : string) :
  strip_tokens_from 0 (String c r)
  = if String.prefix START_DESCRIPTION (String c r)
    then strip_tokens_from (String.length START_DESCRIPTION - 1) r
    else if String.prefix END_DESCRIPTION (String c r)
    then strip_tokens_from (String.length END_DESCRIPTION - 1) r
    else String c (strip_tokens_from 0 r).
Proof. reflexivity. Qed.

Lemma strip_tokens_start (s : string) :
  strip_tokens (START_DESCRIPTION ++ s) = strip_tokens s.
Proof.
  unfold strip_tokens.
  pose proof (strip_tokens_from_cons "[" ("START DESCRIPTION]" ++ s)) as H.
  pose proof (prefix_append START_DESCRIPTION s) as Hp.
  pose proof (strip_tokens_from_skip "START DESCRIPTION]" s) as Hk.
  unfold START_DESCRIPTION in *. simpl append in *.
  rewrite Hp in H. rewrite H. exact Hk.
Qed.

Lemma strip_tokens_end (s : string) :
  strip_tokens (END_DESCRIPTION ++ s) = strip_tokens s.
Proof.
  unfold strip_tokens.
  pose proof (strip_tokens_from_cons "[" ("END DESCRIPTION]" ++ s)) as H.
  pose proof (prefix_append END_DESCRIPTION s) as Hp.
  pose proof (strip_tokens_from_skip "END DESCRIPTION]" s) as Hk.
  assert (Hs : String.prefix START_DESCRIPTION (String "[" ("END DESCRIPTION]" ++ s))
               = false) by reflexivity.
  rewrite Hs in H.
  unfold END_DESCRIPTION in *. simpl append in *.
  rewrite Hp in H. rewrite H. exact Hk.
Qed.

(** Text without an opening bracket is copied. *)
Lemma strip_tokens_plain (a s : string) :
  has_char "[" a = false ->
  strip_tokens (a ++ s) = (a ++ strip_tokens s)%string.
Proof.
  unfold strip_tokens. induction a as [|c a IH]; [reflexivity|].
  simpl has_char. intros H. apply orb_false_iff in H. destruct H as (Hc & Ha).
  change (String c a ++ s)%string with (String c (a ++ s)).
  rewrite strip_tokens_from_cons.
  assert (Hne : "["%char <> c).
  { intros <-. discriminate. }
  assert (Hs : String.prefix START_DESCRIPTION (String c (a ++ s)) = false).
  { unfold START_DESCRIPTION. cbn [String.prefix].
    destruct (ascii_dec "[" c); [contradiction|reflexivity]. }
  assert (He : String.prefix END_DESCRIPTION (String c (a ++ s)) = false).
  { unfold END_DESCRIPTION. cbn [String.prefix].
    destruct (ascii_dec "[" c); [contradiction|reflexivity]. }
  rewrite Hs, He, (IH Ha). reflexivity.
Qed.

Lemma strip_tokens_absent (s : string) :
  contains START_DESCRIPTION s = false ->
  contains END_DESCRIPTION s = false ->
  strip_tokens s = s.
Proof.
  unfold strip_tokens. induction s as [|c s IH]; intros Hs He; [reflexivity|].
  change (contains START_DESCRIPTION (String c s))
    with (String.prefix START_DESCRIPTION (String c s) || contains START_DESCRIPTION s)
    in Hs.
  change (contains END_DESCRIPTION (String c s))
    with (String.prefix END_DESCRIPTION (String c s) || contains END_DESCRIPTION s)
    in He.
  apply orb_false_iff in Hs. apply orb_false_iff in He.
  destruct Hs as (Hs1 & Hs2). destruct He as (He1 & He2).
  rewrite strip_tokens_from_cons, Hs1, He1, (IH Hs2 He2). reflexivity.
Qed.

(** X15.  In a text without any other opening bracket, the markers
    [[START DESCRIPTION]] and [[END DESCRIPTION]] around a description are
    removed and everything else is kept; a text without markers is
    unchanged. *)
Theorem description_markers_are_removed (a b c : string) :
  has_char "[" a = false ->
  has_char "[" b = false ->
  has_char "[" c = false ->
  strip_tokens (a ++ START_DESCRIPTION ++ b ++ END_DESCRIPTION ++ c)
  = (a ++ b ++ c)%string
  /\ strip_tokens (a ++ b ++ c) = (a ++ b ++ c)%string.
Proof.
  intros Ha Hb Hc.
  assert (Hplain : strip_tokens c = c).
  { rewrite <- (append_empty_r c) at 1. rewrite (strip_tokens_plain c "" Hc).
    apply append_empty_r. }
  split.
  - rewrite (strip_tokens_plain a _ Ha), strip_tokens_start.
    rewrite (strip_tokens_plain b _ Hb), strip_tokens_end, Hplain. reflexivity.
  - rewrite (strip_tokens_plain a _ Ha), (strip_tokens_plain b _ Hb), Hplain.
    reflexivity.
Qed.

(** X15, on one described image. *)
Lemma description_markers_are_removed_witness :
  (has_char "[" "Image #1: " = false
   /\ has_char "[" "A chart" = false
   /\ has_char "[" "." = false)
  /\ strip_tokens "Image #1: [START DESCRIPTION]A chart[END DESCRIPTION]."
     = "Image #1: A chart.".
Proof.
  split; [repeat split|].
  exact (proj1 (description_markers_are_removed "Image #1: " "A chart" "."
                  eq_refl eq_refl eq_refl)).
Defined.

End TokenFacts.

(** ** Calls of the vision model *)

Module ModelCallFacts.
Import Py PageProcessor.

Section Engine.
Variables image coord : Type.
Variable E : env image coord.

(** The model calls of step 2e: none, or one without the image. *)
Lemma ground_calls (raw_text extracted fmt : string) :
  let calls := snd (ground image coord E raw_text extracted fmt) in
  (raw_text = EmptyString /\ calls = [])
  \/ (raw_text <> EmptyString
      /\ exists g, calls = [g] /\ with_image g = false).
Proof.
  unfold ground.
  destruct (String.eqb_spec raw_text "") as [->|Hne]; simpl.
  - left. split; reflexivity.
  - right. split; [exact Hne|].
    exists (LlmCall (format_grounding_prompt image coord E raw_text extracted) false).
    split; [|reflexivity].
    destruct (analyze_image image coord E _) as [[[|c r]|]|e]; reflexivity.
Qed.

Lemma process_calls (ev : event) (img : image) (raw_text : string) :
  let calls := snd (process image coord E ev img raw_text) in
  calls = []
  \/ (exists c, calls = [c] /\ with_image c = true)
  \/ (exists c g,
         calls = [c; g] /\ with_image c = true /\ with_image g = false
         /\ raw_text <> EmptyString).
Proof.
  unfold process.
  destruct (detect image coord E img) as [[[annotated boxes] indices]|];
    [|left; reflexivity].
  destruct (match indices with
            | [] => Ok []
            | _ :: _ => crop_and_upload image coord E img boxes indices
            end) as [crops|e]; [|left; reflexivity].
  destruct (_get_prompt_for_format (output_format ev)) as [tpl|]; [|left; reflexivity].
  destruct (encode_jpeg image coord E annotated); simpl; [|left; reflexivity].
  destruct (analyze_image image coord E _) as [[[|c r]|]|e];
    try (right; left; eexists; split; reflexivity).
  destruct (_extract_image_descriptions image coord E _ _ _ _ _) as [descs|e];
    [|right; left; eexists; split; reflexivity].
  pose proof (ground_calls raw_text
                (cleanup_gemini_response (String c r) (output_format ev))
                (output_format ev)) as Hg.
  destruct (ground image coord E raw_text _ (output_format ev)) as [grounded calls].
  simpl in Hg.
  destruct Hg as [(_ & ->)|(Hne & g & -> & Hg)].
  - right. left. destruct grounded; eexists; split; reflexivity.
  - right. right. destruct grounded; eexists; exists g; repeat split; assumption.
Qed.
End Engine.

(** X16.  One page costs at most two model calls: an extraction call with
    the page image and, only when the page has non-empty raw text, a
    grounding call without the image that comes after it. *)
Theorem model_is_called_at_most_twice
        (image coord : Type) (E : env image coord) (ev : event) :
  let calls := snd (lambda_handler image coord E ev) in
  calls = []
  \/ (exists c, calls = [c] /\ with_image c = true)
  \/ (exists c g uri raw_text,
         calls = [c; g] /\ with_image c = true /\ with_image g = false
         /\ s3_raw_text_uri ev = Some uri
         /\ read_raw_text image coord E uri = Ok raw_text
         /\ raw_text <> EmptyString).
Proof.
  unfold lambda_handler.
  destruct (BUCKET_NAME image coord E) as [[|b0 b]|]; try (left; reflexivity).
  destruct (read_image image coord E (s3_image_uri ev)) as [img|e]; simpl;
    [|left; reflexivity].
  assert (Hraw : match s3_raw_text_uri ev with
                 | Some uri => read_raw_text image coord E uri
                 | None => Ok EmptyString
                 end
                 = match s3_raw_text_uri ev with
                   | Some uri => read_raw_text image coord E uri
                   | None => Ok EmptyString
                   end) by reflexivity.
  destruct (match s3_raw_text_uri ev with
            | Some uri => read_raw_text image coord E uri
            | None => Ok EmptyString
            end) as [raw_text|e] eqn:Hread; simpl; [|left; reflexivity].
  clear Hraw.
  assert (Hcalls : let calls := snd (read_and_process image coord E ev img raw_text) in
                   calls = []
                   \/ (exists c, calls = [c] /\ with_image c = true)
                   \/ (exists c g,
                          calls = [c; g] /\ with_image c = true
                          /\ with_image g = false /\ raw_text <> EmptyString)).
  { unfold read_and_process. destruct img as [img|]; [|left; reflexivity].
    apply process_calls. }
  destruct (read_and_process image coord E ev img raw_text) as [[p|e] calls];
    simpl in Hcalls.
  - assert (Hend : calls = []
                   \/ (exists c, calls = [c] /\ with_image c = true)
                   \/ (exists c g uri raw_text,
                          calls = [c; g] /\ with_image c = true /\ with_image g = false
                          /\ s3_raw_text_uri ev = Some uri
                          /\ read_raw_text image coord E uri = Ok raw_text
                          /\ raw_text <> EmptyString)).
    { destruct Hcalls as [H|[H|(c & g & H1 & H2 & H3 & Hne)]];
        [left; exact H|right; left; exact H|].
      right. right.
      destruct (s3_raw_text_uri ev) as [uri|]; [|injection Hread as <-; contradiction].
      exists c, g, uri, raw_text. repeat split; assumption. }
    destruct (build_result image coord E ev p); [|exact Hend].
    destruct (write_result image coord E _); exact Hend.
  - simpl.
    destruct Hcalls as [H|[H|(c & g & H1 & H2 & H3 & Hne)]];
      [left; exact H|right; left; exact H|].
    right. right.
    destruct (s3_raw_text_uri ev) as [uri|]; [|injection Hread as <-; contradiction].
    exists c, g, uri, raw_text. repeat split; assumption.
Qed.

End ModelCallFacts.

(** ** Detections and their boxes *)

Module BoxFacts.
Import Py PageProcessor.
Import DescriptionFacts.

Section Lookup.
Context {V : Type}.

Lemma idict_get_fold_other (kvs : list (Z * V)) (d : idict V) (k : Z) :
  ~ In k (map fst kvs) ->
  idict_get k (fold_left (fun d kv => idict_set (fst kv) (snd kv) d) kvs d)
  = idict_get k d.
Proof.
  revert d. induction kvs as [|[k' v'] kvs IH]; intros d Hk; simpl; [reflexivity|].
  rewrite IH by (intros H; apply Hk; right; exact H).
  rewrite idict_get_set.
  destruct (Z.eqb_spec k k') as [->|_]; [|reflexivity].
  exfalso. apply Hk. left. reflexivity.
Qed.

Lemma idict_get_fold_nodup (kvs : list (Z * V)) (d : idict V) (k : Z) (v : V) :
  NoDup (map fst kvs) ->
  In (k, v) kvs ->
  idict_get k (fold_left (fun d kv => idict_set (fst kv) (snd kv) d) kvs d) = Some v.
Proof.
  revert d. induction kvs as [|[k' v'] kvs IH]; intros d Hnd Hin; [contradiction|].
  simpl in Hnd. inversion Hnd as [|? ? Hk' Hnd']; subst.
  simpl. destruct Hin as [Heq|Hin].
  - injection Heq as -> ->.
    rewrite idict_get_fold_other by exact Hk'.
    rewrite idict_get_set, Z.eqb_refl. reflexivity.
  - apply IH; assumption.
Qed.
End Lookup.

Lemma map_fst_combine {A B : Type} (l : list A) (l' : list B) :
  List.length l = List.length l' -> map fst (List.combine l l') = l.
Proof.
  revert l'. induction l as [|a l IH]; intros [|b l']; simpl; try discriminate.
  - reflexivity.
  - intros H. injection H as H. rewrite (IH l' H). reflexivity.
Qed.

Lemma nth_error_combine {A B : Type} (l : list A) (l' : list B) (i : nat) (a : A) (b : B) :
  nth_error l i = Some a -> nth_error l' i = Some b ->
  nth_error (List.combine l l') i = Some (a, b).
Proof.
  revert l l'. induction i as [|i IH]; intros [|x l] [|y l']; simpl; try discriminate.
  - intros H1 H2. injection H1 as ->. injection H2 as ->. reflexivity.
  - apply IH.
Qed.

Lemma NoDup_map_injective {A B : Type} (f : A -> B) (l : list A) :
  (forall a b, f a = f b -> a = b) -> NoDup l -> NoDup (map f l).
Proof.
  intros Hinj. induction 1 as [|x l Hx _ IH]; simpl; constructor; [|exact IH].
  rewrite in_map_iff. intros (y & Hy & Hin). apply Hinj in Hy. subst. contradiction.
Qed.

Section Boxes.
Variable coord : Type.
Local Abbreviation indices_of := (Detector.one_based_indices coord).

Lemma one_based_indices_nth (boxes : list (list coord)) (i : nat) :
  i < List.length boxes ->
  nth_error (indices_of boxes) i = Some (Z.of_nat i + 1)%Z.
Proof.
  intros Hi. unfold Detector.one_based_indices.
  rewrite nth_error_map, nth_error_seq.
  unfold Detector.box. apply Nat.ltb_lt in Hi. rewrite Hi. reflexivity.
Qed.

Lemma one_based_indices_In (boxes : list (list coord)) (idx : Z) :
  In idx (indices_of boxes)
  <-> exists i, i < List.length boxes /\ idx = (Z.of_nat i + 1)%Z.
Proof.
  unfold Detector.one_based_indices, Detector.box. rewrite in_map_iff. split.
  - intros (i & <- & Hi). apply in_seq in Hi. exists i. split; [lia|reflexivity].
  - intros (i & Hi & ->). exists i. split; [reflexivity|]. apply in_seq. lia.
Qed.

Lemma one_based_indices_NoDup (boxes : list (list coord)) : NoDup (indices_of boxes).
Proof.
  unfold Detector.one_based_indices.
  apply NoDup_map_injective; [|apply seq_NoDup].
  intros a b H. lia.
Qed.

Lemma one_based_indices_length (boxes : list (list coord)) :
  List.length (indices_of boxes) = List.length boxes.
Proof. unfold Detector.one_based_indices. rewrite length_map, length_seq. reflexivity. Qed.

(** The box found under the index of a detection is the box of that
    detection. *)
Lemma index_to_box_nth (boxes : list (list coord)) (i : nat) (b : list coord) :
  nth_error boxes i = Some b ->
  idict_get (Z.of_nat i + 1) (dict_of_zip (indices_of boxes) boxes) = Some b.
Proof.
  intros Hb. unfold dict_of_zip.
  assert (Hi : i < List.length boxes) by (apply nth_error_Some; congruence).
  apply idict_get_fold_nodup.
  - rewrite map_fst_combine by apply one_based_indices_length.
    apply one_based_indices_NoDup.
  - apply (nth_error_In _ i).
    apply nth_error_combine; [apply one_based_indices_nth; exact Hi|exact Hb].
Qed.
End Boxes.


(** X17.  With the indices the detector assigns, every image description
    that is returned carries the box of the detection its identifier
    names, and the crop path recorded for that index. *)
Theorem descriptions_carry_the_box_of_their_detection
        (image coord : Type) (E : env image coord)
        (output fmt : string) (boxes : list (list coord))
        (crops : idict string) (descs : list (image_description coord)) :
  _extract_image_descriptions image coord E output fmt boxes
                              (Detector.one_based_indices coord boxes) crops
  = Ok descs ->
  forall d,
    In d descs ->
    exists i,
      i < List.length boxes
      /\ as_index_key (image_id coord d) = Ok (Some (Z.of_nat i + 1)%Z)
      /\ nth_error boxes i = Some (coordinates coord d)
      /\ cropped_image_path coord d = idict_get (Z.of_nat i + 1) crops.
Proof.
  intros Hrun d Hd.
  destruct (extracted_descriptions_bound image coord E output fmt boxes _ crops descs
                                         Hrun d Hd)
    as (idx & Hidx & Hkey & Hbox & Hcrop).
  apply one_based_indices_In in Hidx. destruct Hidx as (i & Hi & ->).
  exists i. split; [exact Hi|]. split; [exact Hkey|]. split; [|exact Hcrop].
  destruct (nth_error boxes i) as [b|] eqn:Hb.
  - pose proof (index_to_box_nth coord boxes i b Hb) as Hfound.
    unfold box, Detector.box in *. rewrite Hfound in Hbox. congruence.
  - apply nth_error_None in Hb. lia.
Qed.

(** X17, on a JSON extraction that describes the one detected image. *)
Lemma descriptions_carry_the_box_of_their_detection_witness :
  let E := Fixtures.page_env
             [(Fixtures.described_image, Fixtures.described_image_value)]
             (Some Fixtures.described_image) None
             (Some (tt, [[10; 20; 30; 40]], [1]))%Z EmptyString in
  let boxes := [[10; 20; 30; 40]]%Z in
  exists d,
    _extract_image_descriptions unit Z E Fixtures.described_image "json" boxes
                                (Detector.one_based_indices Z boxes) []
    = Ok [d]
    /\ exists i, i < List.length boxes
                 /\ nth_error boxes i = Some (coordinates Z d).
Proof.
  intros E boxes.
  destruct (_extract_image_descriptions unit Z E Fixtures.described_image "json" boxes
                                        (Detector.one_based_indices Z boxes) [])
    as [descs|e] eqn:Hrun; [|vm_compute in Hrun; discriminate].
  vm_compute in Hrun. injection Hrun as <-.
  eexists. 
  assert (Hr : _extract_image_descriptions unit Z E Fixtures.described_image "json"
                 boxes (Detector.one_based_indices Z boxes) [] = _)
    by (vm_compute; reflexivity).
  split; [exact Hr|].
  destruct (descriptions_carry_the_box_of_their_detection
              unit Z E Fixtures.described_image "json" boxes [] _ Hr _
              (or_introl eq_refl))
    as (i & Hi & _ & Hbox & _).
  exists i. split; assumption.
Defined.

Lemma fold_max_indices (n s : nat) (acc : Z) :
  fold_left Z.max (map (fun i => Z.of_nat i + 1)%Z (seq s n)) acc
  = match n with
    | O => acc
    | S _ => Z.max acc (Z.of_nat (s + n))
    end.
Proof.
  revert s acc. induction n as [|n IH]; intros s acc; [reflexivity|].
  simpl. rewrite IH. destruct n; lia.
Qed.

(** X18.  The highest index the detector assigns is the number of
    detections, and [-1] when nothing is detected. *)
Theorem highest_index_is_the_number_of_detections
        (coord : Type) (boxes : list (list coord)) :
  max_image_index (Detector.one_based_indices coord boxes)
  = match boxes with
    | [] => (-1)%Z
    | _ :: _ => Z.of_nat (List.length boxes)
    end.
Proof.
  unfold Detector.one_based_indices.
  destruct boxes as [|b boxes]; [reflexivity|].
  simpl List.length. simpl seq. simpl map. unfold max_image_index.
  rewrite fold_max_indices. unfold Detector.box.
  destruct (List.length boxes) as [|n]; [reflexivity|].
  rewrite Z.max_r by lia. reflexivity.
Qed.

End BoxFacts.

(** ** The result dictionary *)

Module PersistFacts.
Import Py PageProcessor.

Section Engine.
Variables image coord : Type.
Variable E : env image coord.

(** A value that is neither a string nor a dictionary. *)
Local Abbreviation bare v :=
  (match v with JStr _ | JObj _ => False | _ => True end).

Lemma build_result_bare (ev : event) (p : processed coord) :
  output_format ev = "json" ->
  truthy (p_grounded_output coord p) = true ->
  bare (p_grounded_output coord p) ->
  build_result image coord E ev p
  = Raise (Exn "TypeError"
               ("the JSON object must be str, bytes or bytearray, not "
                  ++ type_name (p_grounded_output coord p))).
Proof.
  intros Hfmt Htruthy Hbare.
  unfold build_result, persisted_grounded, _format_output_based_on_type.
  rewrite Hfmt, Htruthy. simpl.
  destruct (p_grounded_output coord p); try contradiction; reflexivity.
Qed.

End Engine.

(** X19.  For the JSON format, a grounded output that is neither a string
    nor an object, such as an array or a number, is handed to [json.loads]
    when the result is assembled: the handler ends with an uncaught
    [TypeError] and no result is persisted.  Without raw text that output
    is the model's parsed answer after cleaning, of the same JSON type. *)
Theorem bare_json_answer_is_not_persisted
        (image coord : Type) (E : env image coord) (ev : event)
        (img : image) (raw_text : string) (p : processed coord)
        (calls : list llm_call) (bucket : string) :
  BUCKET_NAME image coord E = Some bucket ->
  bucket <> EmptyString ->
  read_image image coord E (s3_image_uri ev) = Ok (Some img) ->
  match s3_raw_text_uri ev with
  | Some uri => read_raw_text image coord E uri = Ok raw_text
  | None => raw_text = EmptyString
  end ->
  process image coord E ev img raw_text = (Ok p, calls) ->
  output_format ev = "json" ->
  truthy (p_grounded_output coord p) = true ->
  match p_grounded_output coord p with JStr _ | JObj _ => False | _ => True end ->
  lambda_handler image coord E ev
  = (Uncaught coord
       (Exn "TypeError"
            ("the JSON object must be str, bytes or bytearray, not "
               ++ type_name (p_grounded_output coord p))),
     calls)
  /\ (raw_text = EmptyString ->
      exists data,
        json_loads image coord E (p_extracted_output coord p) = Ok data
        /\ p_grounded_output coord p = clean_parsed data
        /\ type_name data = type_name (p_grounded_output coord p)).
Proof.
  intros Hb Hne Himg Hraw Hproc Hfmt Htruthy Hbare.
  split.
  - unfold lambda_handler. rewrite Hb.
    destruct bucket as [|b0 b]; [contradiction|].
    rewrite Himg. simpl.
    assert (Hread : match s3_raw_text_uri ev with
                    | Some uri => read_raw_text image coord E uri
                    | None => Ok EmptyString
                    end = Ok raw_text).
    { destruct (s3_raw_text_uri ev); [exact Hraw|rewrite Hraw; reflexivity]. }
    rewrite Hread. simpl. rewrite Hproc.
    rewrite (build_result_bare image coord E ev p Hfmt Htruthy Hbare). reflexivity.
  - intros ->.
    destruct (GroundingFacts.process_ok image coord E ev img EmptyString p calls Hproc)
      as (c & g & _ & _ & Hground).
    unfold ground in Hground. simpl in Hground. injection Hground as Hg _.
    unfold _clean_description_tokens in Hg. rewrite Hfmt in Hg. simpl in Hg.
    destruct (json_loads image coord E (p_extracted_output coord p)) as [data|e].
    + exists data. split; [reflexivity|]. split; [symmetry; exact Hg|].
      rewrite <- Hg in Hbare.
      destruct data as [| | | | s |items|fields]; simpl in *; try contradiction;
        rewrite <- Hg; reflexivity.
    + rewrite <- Hg in Hbare. contradiction.
Qed.

(** X19, on a model answer that is a JSON array. *)
Lemma bare_json_answer_is_not_persisted_witness :
  let E := Fixtures.page_env
             [(Scenarios.array_answer, Scenarios.array_answer_value)]
             (Some Scenarios.array_answer) None (Some (tt, [], [])) EmptyString in
  let ev := Fixtures.page_event "json" None in
  exists p calls,
    (BUCKET_NAME unit Z E = Some "bkt"
     /\ read_image unit Z E (s3_image_uri ev) = Ok (Some tt)
     /\ process unit Z E ev tt EmptyString = (Ok p, calls)
     /\ output_format ev = "json"
     /\ truthy (p_grounded_output Z p) = true)
    /\ p_grounded_output Z p = Scenarios.array_answer_value
    /\ lambda_handler unit Z E ev
       = (Uncaught Z
            (Exn "TypeError"
                 "the JSON object must be str, bytes or bytearray, not list"),
          calls).
Proof.
  intros E ev.
  destruct (process unit Z E ev tt EmptyString) as [[p|e] calls] eqn:Hp;
    [|vm_compute in Hp; discriminate].
  vm_compute in Hp. injection Hp as <- <-.
  eexists. eexists.
  assert (Hb : BUCKET_NAME unit Z E = Some "bkt") by reflexivity.
  assert (Himg : read_image unit Z E (s3_image_uri ev) = Ok (Some tt)) by reflexivity.
  assert (Hproc : process unit Z E ev tt EmptyString = _) by (vm_compute; reflexivity).
  assert (Hfmt : output_format ev = "json") by reflexivity.
  split;
    [split; [exact Hb|split; [exact Himg|split; [exact Hproc|split;
       [exact Hfmt|reflexivity]]]]|].
  split; [reflexivity|].
  exact (proj1 (bare_json_answer_is_not_persisted
                  unit Z E ev tt EmptyString _ _ "bkt" Hb ltac:(discriminate) Himg
                  eq_refl Hproc Hfmt eq_refl I)).
Defined.

End PersistFacts.

(** ** From the page processor to the aggregator *)

Module HandoffFacts.
Import Py Combiner Handoff.

(** What the handler persists records the event it was given. *)
Lemma persisted_result_fields
      (image coord : Type) (P : PageProcessor.env image coord)
      (page : PageProcessor.event) (r : PageProcessor.page_result coord)
      (key : string) (calls : list PageProcessor.llm_call) :
  PageProcessor.lambda_handler image coord P page
  = (PageProcessor.Persisted coord r key, calls) ->
  PageProcessor.res_page_number coord r = JInt (PageProcessor.page_number page)
  /\ PageProcessor.res_output_format coord r = PageProcessor.output_format page
  /\ PageProcessor.res_s3_image_uri coord r = PageProcessor.s3_image_uri page.
Proof.
  unfold PageProcessor.lambda_handler.
  destruct (PageProcessor.BUCKET_NAME image coord P) as [[|b0 b]|]; try discriminate.
  destruct (PageProcessor.read_image image coord P _) as [img|e]; simpl; [|discriminate].
  destruct (match PageProcessor.s3_raw_text_uri page with
            | Some uri => PageProcessor.read_raw_text image coord P uri
            | None => Ok EmptyString
            end) as [raw_text|e]; simpl; [|discriminate].
  destruct (PageProcessor.read_and_process image coord P page img raw_text)
    as [[p|e] cs]; [|discriminate].
  destruct (PageProcessor.build_result image coord P page p) as [r'|e] eqn:Hbuild;
    [|discriminate].
  destruct (PageProcessor.write_result image coord P _); [|discriminate].
  intros H. injection H as <- _ _.
  unfold PageProcessor.build_result in Hbuild.
  destruct (PageProcessor.persisted_grounded image coord P _ _) as [g|e];
    simpl in Hbuild; [|discriminate].
  destruct (PageProcessor._format_output_based_on_type image coord P _ _) as [x|e];
    simpl in Hbuild; [|discriminate].
  injection Hbuild as <-. repeat split.
Qed.

(** X20.  A result written by the page processor is accepted by the
    aggregator: it loads with the lower-cased format of the page, keeps the
    page number of the page event, so that no estimate or counter is
    used, and its outputs and descriptions are carried over.  The aggregate
    keys [original_image_s3_uri] and [original_raw_text_s3_uri] are null,
    since the page processor writes these references under other names. *)
Theorem persisted_page_result_loads_in_the_aggregator
        (image coord : Type) (P : PageProcessor.env image coord)
        (json_of_coord : coord -> json)
        (page : PageProcessor.event) (r : PageProcessor.page_result coord)
        (key : string) (calls : list PageProcessor.llm_call)
        (E : env) (s3_key text : string) :
  PageProcessor.lambda_handler image coord P page
  = (PageProcessor.Persisted coord r key, calls) ->
  get_object_text E s3_key = Ok text ->
  json_loads E text = Ok (JObj (json_of_page_result coord json_of_coord r)) ->
  exists extracted_data,
    fetch_page E s3_key
    = Ok (extracted_data, PyStr.lower (PageProcessor.output_format page))
    /\ dict_get "page_number" extracted_data
       = Some (JInt (PageProcessor.page_number page))
    /\ (forall page_num_estimated successful_page_count,
           backfill_page_number extracted_data page_num_estimated
                                successful_page_count
           = extracted_data)
    /\ dict_get "grounded_output" extracted_data
       = Some (PageProcessor.grounded_output coord r)
    /\ dict_get "extracted_output" extracted_data
       = Some (PageProcessor.extracted_output coord r)
    /\ dict_get "image_descriptions" extracted_data
       = Some (JArr (map (json_of_description coord json_of_coord)
                         (PageProcessor.image_descriptions coord r)))
    /\ dict_get "original_image_s3_uri" extracted_data = Some JNull
    /\ dict_get "original_raw_text_s3_uri" extracted_data = Some JNull.
Proof.
  intros Hrun Hget Hparse.
  destruct (persisted_result_fields image coord P page r key calls Hrun)
    as (Hnumber & Hformat & _).
  unfold fetch_page. rewrite Hget. simpl. rewrite Hparse. simpl.
  unfold dict_get_default. simpl. rewrite Hnumber, Hformat. simpl.
  eexists. split; [reflexivity|].
  repeat split.
Qed.

(** X20, on a Markdown page with raw text. *)
Lemma persisted_page_result_loads_in_the_aggregator_witness :
  let P := Fixtures.page_env [] (Some "# Title") None (Some (tt, [], [])) "Title" in
  let page := Fixtures.page_event "markdown"
                                  (Some "s3://bkt/raw/doc_page_1_text.txt") in
  let E := Fixtures.store_env
             [(Fixtures.result_key 1, Scenarios.title_page_body)]
             [(Scenarios.title_page_body,
               JObj (Handoff.json_of_page_result Z JInt Scenarios.title_page_result))]
             [] (fun _ => "{}") in
  exists calls,
    (PageProcessor.lambda_handler unit Z P page
     = (PageProcessor.Persisted Z Scenarios.title_page_result (Fixtures.result_key 1),
        calls)
     /\ get_object_text E (Fixtures.result_key 1) = Ok Scenarios.title_page_body)
    /\ exists extracted_data,
        fetch_page E (Fixtures.result_key 1) = Ok (extracted_data, "markdown")
        /\ dict_get "page_number" extracted_data = Some (JInt 1)
        /\ dict_get "grounded_output" extracted_data = Some (JStr "# Title")
        /\ dict_get "original_image_s3_uri" extracted_data = Some JNull.
Proof.
  intros P page E.
  destruct (PageProcessor.lambda_handler unit Z P page) as [out calls] eqn:Hrun.
  vm_compute in Hrun. injection Hrun as <- <-.
  eexists.
  assert (Hr : PageProcessor.lambda_handler unit Z P page
               = (PageProcessor.Persisted Z Scenarios.title_page_result
                                          (Fixtures.result_key 1), _))
    by (vm_compute; reflexivity).
  assert (Hget : get_object_text E (Fixtures.result_key 1)
                 = Ok Scenarios.title_page_body) by reflexivity.
  split; [split; [exact Hr|exact Hget]|].
  destruct (persisted_page_result_loads_in_the_aggregator
              unit Z P JInt page _ _ _ E _ _ Hr Hget eq_refl)
    as (d & Hfetch & Hnumber & _ & Hgrounded & _ & _ & Himage & _).
  exists d. repeat split; assumption.
Defined.

End HandoffFacts.

(** ** Splitter *)

Module SplitterFacts.
Import Py PyStr Splitter.
Import PyStrFacts.

Lemma split_on_parts (c : ascii) (s : string) :
  Forall (fun part => has_char c part = false) (split_on c s).
Proof.
  induction s as [|d s IH]; simpl; [repeat constructor|].
  destruct (Ascii.eqb d c) eqn:Hd; [constructor; [reflexivity|exact IH]|].
  destruct (split_on c s) as [|h t]; [repeat constructor; simpl; rewrite Hd; reflexivity|].
  inversion IH as [|? ? Hh Ht]; subst.
  constructor; [simpl; rewrite Hd; exact Hh|exact Ht].
Qed.

Lemma path_name_no_slash (p : string) : has_char "/" (path_name p) = false.
Proof.
  unfold path_name.
  assert (Hall : Forall (fun part => has_char "/" part = false)
                        (rev (filter is_path_component (split_on "/" p)))).
  { apply Forall_rev. apply Forall_forall. intros x Hx.
    apply filter_In in Hx. destruct Hx as (Hx & _).
    pose proof (split_on_parts "/" p) as H. rewrite Forall_forall in H. auto. }
  destruct (rev _) as [|n r]; [reflexivity|].
  inversion Hall; assumption.
Qed.

Lemma has_char_substring (c : ascii) (s : string) (n : nat) :
  has_char c s = false -> has_char c (String.substring 0 n s) = false.
Proof.
  revert n. induction s as [|d s IH]; intros [|n]; simpl; try reflexivity.
  intros H. apply orb_false_iff in H. destruct H as (Hd & Hs).
  rewrite Hd. simpl. apply IH. exact Hs.
Qed.

Lemma path_stem_no_slash (p : string) : has_char "/" (path_stem p) = false.
Proof.
  unfold path_stem.
  destruct (rfind "." (path_name p)) as [i|]; [|apply path_name_no_slash].
  destruct ((0 <? i) && (i <? String.length (path_name p) - 1))%nat;
    [|apply path_name_no_slash].
  apply has_char_substring. apply path_name_no_slash.
Qed.

(** The name of a file in a directory. *)
Lemma path_name_joinpath (dir name : string) :
  has_char "/" name = false ->
  is_path_component name = true ->
  path_name (joinpath dir name) = name.
Proof.
  intros Hslash Hcomp. unfold path_name, joinpath.
  change (dir ++ "/" ++ name)%string with (dir ++ String "/" name)%string.
  rewrite split_on_app_sep, (split_on_no_sep "/" name Hslash).
  rewrite filter_app, rev_app_distr. simpl. rewrite Hcomp. reflexivity.
Qed.

Lemma is_path_component_long (s : string) :
  2 <= String.length s -> is_path_component s = true.
Proof.
  intros Hlen. unfold is_path_component.
  destruct s as [|c1 [|c2 r]]; simpl in Hlen; try lia.
  simpl. destruct (Ascii.eqb c1 "."); reflexivity.
Qed.


Section Loops.
Variable page_image : Type.
Variable E : env page_image.

(** The text files of a document whose every save succeeds. *)
Lemma pdf_text_loop_saved (dir base : string) (texts : list string) (k : nat)
      (acc : list string) :
  (forall content path, save_content_to_local_file page_image E content path = true) ->
  pdf_text_loop page_image E dir base k texts acc
  = acc ++ map (fun n => joinpath dir (base ++ "_page_" ++ str_of_Z (Z.of_nat n)
                                            ++ "_text.txt"))
               (pages_with_text k texts).
Proof.
  intros Hsave. revert k acc.
  induction texts as [|t texts IH]; intros k acc; simpl; [rewrite app_nil_r; reflexivity|].
  destruct (negb (String.eqb (strip t) "")); [|apply IH].
  rewrite Hsave, IH, <- app_assoc. simpl. unfold page_text_filename.
  replace (Z.of_nat k + 1)%Z with (Z.of_nat (S k)) by lia. reflexivity.
Qed.

Lemma save_images_loop_saved (dir base : string) (images : list page_image) (k : nat)
      (acc : list string) :
  (forall img path, image_save page_image E img path = Ok tt) ->
  save_images_loop page_image E dir base k images acc
  = acc ++ map (fun i => joinpath dir (page_image_filename base i))
               (seq k (List.length images)).
Proof.
  intros Hsave. revert k acc.
  induction images as [|img images IH]; intros k acc; simpl;
    [rewrite app_nil_r; reflexivity|].
  rewrite Hsave, IH, <- app_assoc. reflexivity.
Qed.

Lemma upload_all (bucket prefix : string) (paths : list string) :
  (forall path, is_file page_image E path = true) ->
  (forall path key, write_file_to_s3 page_image E path key = Ok tt) ->
  async_upload_files_to_s3 page_image E bucket paths prefix
  = map (fun path => ("s3://" ++ bucket ++ "/" ++ prefix ++ path_name path)%string) paths.
Proof.
  intros Hfile Hwrite. induction paths as [|p paths IH]; simpl; [reflexivity|].
  rewrite Hfile, Hwrite, IH. reflexivity.
Qed.
End Loops.

(** The page numbers listed are those of the pages that have text, in
    ascending order: the [i]-th is at least [i + 1], with equality exactly
    when none of the pages before it is blank. *)
Lemma pages_with_text_nth (texts : list string) (k i n : nat) :
  nth_error (pages_with_text k texts) i = Some n ->
  k + i + 1 <= n
  /\ (n = k + i + 1
      <-> forall j, j <= i ->
                    exists t, nth_error texts j = Some t
                              /\ String.eqb (strip t) "" = false).
Proof.
  revert k i. induction texts as [|t texts IH]; intros k i; simpl.
  - destruct i; discriminate.
  - destruct (String.eqb (strip t) "") eqn:Ht; simpl.
    + intros H. destruct (IH (S k) i H) as (Hle & _).
      split; [lia|]. split; [lia|].
      intros Hall. destruct (Hall 0 (Nat.le_0_l i)) as (t0 & H0 & Hn).
      simpl in H0. injection H0 as <-. congruence.
    + destruct i as [|i]; simpl.
      * intros H. injection H as <-. split; [lia|]. split; [|lia].
        intros _ j Hj. assert (j = 0) by lia. subst j. exists t. split; [reflexivity|exact Ht].
      * intros H. destruct (IH (S k) i H) as (Hle & Hiff).
        split; [lia|]. split.
        -- intros Hn j Hj. destruct j as [|j]; [exists t; split; [reflexivity|exact Ht]|].
           simpl. apply Hiff; lia.
        -- intros Hall.
           assert (Hn : n = S k + i + 1).
           { apply Hiff. intros j Hj. apply (Hall (S j)). lia. }
           lia.
Qed.


(** The response to a PDF on which every local and remote operation
    succeeds. *)
Lemma pdf_response (page_image : Type) (E : env page_image) (ev : event)
      (bucket : string) (texts : list string) (images : list page_image) :
  let name := path_name (s3_input_uri ev) in
  let base := path_stem name in
  let source := joinpath "/tmp" (uuid4 page_image E ++ "_" ++ name) in
  BUCKET_NAME page_image E = Some bucket ->
  bucket <> EmptyString ->
  s3_input_uri ev <> EmptyString ->
  startswith (s3_input_uri ev) "s3://" = false ->
  get_doc_type (lower (path_suffix name)) = "pdf" ->
  read_file_from_s3_path page_image E (s3_input_uri ev) source = Ok tt ->
  (forall dir, mkdir page_image E dir = Ok tt) ->
  pdf_page_texts page_image E source = Ok texts ->
  convert_from_path page_image E source = Ok images ->
  (forall content path, save_content_to_local_file page_image E content path = true) ->
  (forall img path, image_save page_image E img path = Ok tt) ->
  (forall path, is_file page_image E path = true) ->
  (forall path key, write_file_to_s3 page_image E path key = Ok tt) ->
  lambda_handler page_image E ev
  = Returned
      (Response
         (uuid4 page_image E)
         ("s3://" ++ bucket ++ "/" ++ s3_input_uri ev)
         (s3_input_uri ev) base "pdf" (output_format ev)
         (map (fun n =>
                 Some ("s3://" ++ bucket ++ "/"
                         ++ INTERMEDIATE_RAW_TEXT_PREFIX page_image E ++ "/"
                         ++ uuid4 page_image E ++ "/"
                         ++ base ++ "_page_" ++ str_of_Z (Z.of_nat n)
                         ++ "_text.txt")%string)
              (pages_with_text 0 texts))
         (map (fun i =>
                 ("s3://" ++ bucket ++ "/"
                    ++ INTERMEDIATE_IMAGES_PREFIX page_image E ++ "/"
                    ++ uuid4 page_image E ++ "/"
                    ++ base ++ "_page_" ++ str_of_Z (Z.of_nat i + 1) ++ ".png")%string)
              (seq 0 (List.length images)))).
Proof.
  intros name base source Hb Hne Hkey Huri Htype Hread Hmkdir Htexts Himages
         Hsave Himg Hfile Hwrite.
  unfold lambda_handler. rewrite Hb.
  destruct bucket as [|b0 b]; [contradiction|].
  destruct (String.eqb_spec (s3_input_uri ev) "") as [Heq|_]; [contradiction|].
  rewrite Huri. fold name. fold base. rewrite Htype. simpl String.eqb. cbv iota.
  fold source. rewrite Hread. rewrite !Hmkdir. simpl bind.
  unfold run_splitter_logic. rewrite Htype. simpl String.eqb. cbv iota.
  unfold extract_text_from_pdf, convert_pdf_to_images.
  rewrite !Hmkdir, Htexts, Himages. simpl bind.
  rewrite (pdf_text_loop_saved page_image E _ _ texts 0 [] Hsave).
  rewrite (save_images_loop_saved page_image E _ _ images 0 [] Himg).
  simpl app.
  rewrite !(upload_all page_image E _ _ _ Hfile Hwrite).
  rewrite !map_map.
  assert (Hbase : has_char "/" base = false) by apply path_stem_no_slash.
  match goal with
  | |- Returned (Response _ _ _ _ _ _ (map ?f1 _) (map ?f2 _))
       = Returned (Response _ _ _ _ _ _ (map ?g1 _) (map ?g2 _)) =>
      rewrite (map_ext f1 g1), (map_ext f2 g2); [reflexivity| |]
  end.
  all: intros k; unfold page_image_filename; rewrite path_name_joinpath;
    [rewrite !append_assoc; reflexivity
    |rewrite has_char_append, Hbase; simpl;
     rewrite has_char_append, str_of_Z_no_slash; reflexivity
    |apply is_path_component_long; rewrite !length_append; simpl; lia].
Qed.


Lemma pages_with_text_In (texts : list string) (k n : nat) :
  In n (pages_with_text k texts)
  <-> exists j t, nth_error texts j = Some t
                  /\ n = k + j + 1
                  /\ String.eqb (strip t) "" = false.
Proof.
  revert k. induction texts as [|t texts IH]; intros k; simpl.
  - split; [intros []|]. intros (j & t & H & _). destruct j; discriminate.
  - assert (Hrest : In n (pages_with_text (S k) texts)
                    <-> exists j t', nth_error texts j = Some t'
                                     /\ n = k + S j + 1
                                     /\ String.eqb (strip t') "" = false).
    { rewrite IH. split; intros (j & t' & H1 & H2 & H3); exists j, t';
        repeat split; try assumption; lia. }
    destruct (String.eqb (strip t) "") eqn:Ht; simpl.
    + rewrite Hrest. split.
      * intros (j & t' & H1 & H2 & H3). exists (S j), t'. repeat split; assumption.
      * intros (j & t' & H1 & H2 & H3). destruct j as [|j].
        -- simpl in H1. injection H1 as <-. congruence.
        -- exists j, t'. repeat split; assumption.
    + rewrite Hrest. split.
      * intros [<-|(j & t' & H1 & H2 & H3)].
        -- exists 0, t. repeat split; [lia|exact Ht].
        -- exists (S j), t'. repeat split; assumption.
      * intros (j & t' & H1 & H2 & H3). destruct j as [|j].
        -- left. lia.
        -- right. exists j, t'. repeat split; assumption.
Qed.

Lemma pages_with_text_length (texts : list string) (k : nat) :
  List.length (pages_with_text k texts) <= List.length texts.
Proof.
  revert k. induction texts as [|t texts IH]; intros k; simpl; [lia|].
  destruct (negb (String.eqb (strip t) "")); simpl; specialize (IH (S k)); lia.
Qed.

(** X21.  For a PDF whose every local step succeeds, the splitter answers
    one image reference per page, numbered from one, and one text reference
    for each page whose text is not blank, named after that page's number;
    blank pages are left out of the text list, which is therefore never
    longer than the number of pages. *)
Theorem pdf_pages_without_text_get_no_text_reference
        (page_image : Type) (E : env page_image) (ev : event)
        (bucket : string) (texts : list string) (images : list page_image) :
  let name := path_name (s3_input_uri ev) in
  let base := path_stem name in
  let source := joinpath "/tmp" (uuid4 page_image E ++ "_" ++ name) in
  let text_reference n :=
    ("s3://" ++ bucket ++ "/" ++ INTERMEDIATE_RAW_TEXT_PREFIX page_image E ++ "/"
       ++ uuid4 page_image E ++ "/" ++ base ++ "_page_" ++ str_of_Z (Z.of_nat n)
       ++ "_text.txt")%string in
  let image_reference n :=
    ("s3://" ++ bucket ++ "/" ++ INTERMEDIATE_IMAGES_PREFIX page_image E ++ "/"
       ++ uuid4 page_image E ++ "/" ++ base ++ "_page_" ++ str_of_Z (Z.of_nat n)
       ++ ".png")%string in
  BUCKET_NAME page_image E = Some bucket ->
  bucket <> EmptyString ->
  s3_input_uri ev <> EmptyString ->
  startswith (s3_input_uri ev) "s3://" = false ->
  get_doc_type (lower (path_suffix name)) = "pdf" ->
  read_file_from_s3_path page_image E (s3_input_uri ev) source = Ok tt ->
  (forall dir, mkdir page_image E dir = Ok tt) ->
  pdf_page_texts page_image E source = Ok texts ->
  convert_from_path page_image E source = Ok images ->
  (forall content path, save_content_to_local_file page_image E content path = true) ->
  (forall img path, image_save page_image E img path = Ok tt) ->
  (forall path, is_file page_image E path = true) ->
  (forall path key, write_file_to_s3 page_image E path key = Ok tt) ->
  exists r,
    lambda_handler page_image E ev = Returned r
    /\ s3_page_image_uris r
       = map (fun i => image_reference (S i)) (seq 0 (List.length images))
    /\ s3_page_text_uris r
       = map (fun n => Some (text_reference n)) (pages_with_text 0 texts)
    /\ (forall n,
           In n (pages_with_text 0 texts)
           <-> 1 <= n
               /\ exists t, nth_error texts (n - 1) = Some t
                            /\ strip t <> EmptyString)
    /\ List.length (s3_page_text_uris r) <= List.length texts.
Proof.
  intros name base source text_reference image_reference
         Hb Hne Hkey Huri Htype Hread Hmkdir Htexts Himages Hsave Himg Hfile Hwrite.
  eexists. split;
    [exact (pdf_response page_image E ev bucket texts images Hb Hne Hkey Huri Htype
                         Hread Hmkdir Htexts Himages Hsave Himg Hfile Hwrite)|].
  simpl s3_page_image_uris. simpl s3_page_text_uris.
  split; [|split; [reflexivity|split]].
  - apply map_ext. intros i. unfold image_reference.
    replace (Z.of_nat (S i)) with (Z.of_nat i + 1)%Z by lia. reflexivity.
  - intros n. rewrite pages_with_text_In. split.
    + intros (j & t & Hj & -> & Ht). split; [lia|].
      exists t. replace (0 + j + 1 - 1) with j by lia. split; [exact Hj|].
      intros Hblank. rewrite Hblank in Ht. discriminate.
    + intros (Hn & t & Hj & Ht). exists (n - 1), t.
      split; [exact Hj|]. split; [lia|].
      destruct (String.eqb_spec (strip t) ""); [contradiction|reflexivity].
  - rewrite length_map. apply pages_with_text_length.
Qed.

(** X21, on a PDF of three pages whose second page is blank. *)
Lemma pdf_pages_without_text_get_no_text_reference_witness :
  let E := Scenarios.splitter_env Scenarios.blank_second_page [tt; tt; tt] in
  let ev := Event "inputs/doc.pdf" "markdown" in
  exists r,
    lambda_handler unit E ev = Returned r
    /\ s3_page_image_uris r
       = ["s3://bkt/intermediate-images/run1/doc_page_1.png";
          "s3://bkt/intermediate-images/run1/doc_page_2.png";
          "s3://bkt/intermediate-images/run1/doc_page_3.png"]
    /\ s3_page_text_uris r
       = [Some "s3://bkt/intermediate-raw-text/run1/doc_page_1_text.txt";
          Some "s3://bkt/intermediate-raw-text/run1/doc_page_3_text.txt"].
Proof.
  intros E ev.
  destruct (pdf_pages_without_text_get_no_text_reference
              unit E ev "bkt" Scenarios.blank_second_page [tt; tt; tt]
              eq_refl ltac:(discriminate) ltac:(discriminate)
              eq_refl eq_refl eq_refl (fun _ => eq_refl) eq_refl eq_refl
              (fun _ _ => eq_refl) (fun _ _ => eq_refl) (fun _ => eq_refl)
              (fun _ _ => eq_refl))
    as (r & Hrun & Himages & Htexts & _).
  exists r. split; [exact Hrun|]. split; [exact Himages|exact Htexts].
Defined.

(** A Word document has at most one text file, which holds the text of the
    whole document. *)
Lemma docx_text_references
      (page_image : Type) (E : env page_image) (ev : event) (r : response) :
  let name := path_name (s3_input_uri ev) in
  get_doc_type (lower (path_suffix name)) = "docx" ->
  lambda_handler page_image E ev = Returned r ->
  s3_page_text_uris r = []
  \/ exists bucket,
      BUCKET_NAME page_image E = Some bucket
      /\ s3_page_text_uris r
         = [Some ("s3://" ++ bucket ++ "/" ++ INTERMEDIATE_RAW_TEXT_PREFIX page_image E
                    ++ "/" ++ uuid4 page_image E ++ "/" ++ path_stem name
                    ++ "_full_text.txt")%string].
Proof.
  intros name Htype. unfold lambda_handler.
  destruct (BUCKET_NAME page_image E) as [[|c b]|]; try discriminate.
  set (bucket := String c b).
  destruct (String.eqb (s3_input_uri ev) ""); [discriminate|].
  destruct (startswith (s3_input_uri ev) "s3://"); [discriminate|].
  cbv zeta. fold name. rewrite Htype.
  change (String.eqb "docx" "unsupported") with false.
  change (String.eqb "docx" "image") with false. cbv iota.
  destruct (read_file_from_s3_path page_image E _ _); [|discriminate].
  destruct (mkdir page_image E (joinpath (joinpath "/tmp" (uuid4 page_image E)) "images"));
    simpl bind; [|discriminate].
  destruct (mkdir page_image E (joinpath (joinpath "/tmp" (uuid4 page_image E)) "text"));
    simpl bind; [|discriminate].
  unfold run_splitter_logic. rewrite Htype.
  change (String.eqb "docx" "pdf") with false.
  change (String.eqb "docx" "docx") with true.
  change (Combiner.in_list "docx" ["docx"; "pptx"]) with true. cbv iota.
  assert (Hname : path_name
                    (joinpath (joinpath (joinpath "/tmp" (uuid4 page_image E)) "text")
                              (path_stem name ++ "_full_text.txt"))
                  = (path_stem name ++ "_full_text.txt")%string).
  { apply path_name_joinpath.
    - rewrite has_char_append, path_stem_no_slash. reflexivity.
    - apply is_path_component_long. rewrite length_append. simpl. lia. }
  set (images := convert_office_to_images page_image E _ _ _ _).
  assert (Hnone : forall (out : response),
             s3_page_text_uris out = [] -> Returned out = Returned r ->
             s3_page_text_uris r = []
             \/ exists bucket0,
                 Some bucket = Some bucket0
                 /\ s3_page_text_uris r
                    = [Some ("s3://" ++ bucket0 ++ "/"
                               ++ INTERMEDIATE_RAW_TEXT_PREFIX page_image E ++ "/"
                               ++ uuid4 page_image E ++ "/" ++ path_stem name
                               ++ "_full_text.txt")%string]).
  { intros out Ht [= <-]. left. exact Ht. }
  unfold extract_text_from_docx.
  destruct (mkdir page_image E _); simpl bind;
    [|apply Hnone; reflexivity].
  destruct (docx2txt_process page_image E _) as [docx_text|e].
  - destruct (negb (String.eqb (strip docx_text) "")).
    + destruct (save_content_to_local_file page_image E docx_text _); simpl bind.
      * destruct images as [image_paths|e2]; simpl bind; [|apply Hnone; reflexivity].
        cbn [async_upload_files_to_s3].
        destruct (is_file page_image E
                    (joinpath (joinpath (joinpath "/tmp" (uuid4 page_image E)) "text")
                              (path_stem name ++ "_full_text.txt")));
          cbn [negb]; cbv iota; [|apply Hnone; reflexivity].
        rewrite Hname.
        destruct (write_file_to_s3 page_image E _ _); [|apply Hnone; reflexivity].
        clear Hnone. intros [= <-]. cbn [s3_page_text_uris map].
        right. exists bucket. split; [reflexivity|].
        unfold bucket. simpl. repeat (rewrite !append_assoc; simpl). reflexivity.
      * destruct images as [image_paths|e2]; simpl bind; apply Hnone; reflexivity.
    + simpl bind. destruct images as [image_paths|e2]; simpl bind; apply Hnone; reflexivity.
  - simpl bind. destruct images as [image_paths|e2]; simpl bind; apply Hnone; reflexivity.
Qed.

(** X24.  For an image input, whatever fails along the way, a response
    of the splitter lists at most one page image, named after the input
    with the ending [_image.png] under the run's image prefix, and its text
    list holds one null per image and no reference. *)
Theorem image_input_is_one_page_without_text
        (page_image : Type) (E : env page_image) (ev : event) (r : response) :
  let name := path_name (s3_input_uri ev) in
  get_doc_type (lower (path_suffix name)) = "image" ->
  lambda_handler page_image E ev = Returned r ->
  doc_type r = "image"
  /\ (s3_page_image_uris r = []
      \/ exists bucket,
          BUCKET_NAME page_image E = Some bucket
          /\ s3_page_image_uris r
             = [("s3://" ++ bucket ++ "/" ++ INTERMEDIATE_IMAGES_PREFIX page_image E
                   ++ "/" ++ uuid4 page_image E ++ "/" ++ path_stem name
                   ++ "_image.png")%string])
  /\ s3_page_text_uris r = map (fun _ => None) (s3_page_image_uris r).
Proof.
  intros name Htype. unfold lambda_handler.
  destruct (BUCKET_NAME page_image E) as [[|c b]|]; try discriminate.
  set (bucket := String c b).
  destruct (String.eqb (s3_input_uri ev) ""); [discriminate|].
  destruct (startswith (s3_input_uri ev) "s3://"); [discriminate|].
  cbv zeta. fold name. rewrite Htype.
  change (String.eqb "image" "unsupported") with false. cbv iota.
  destruct (read_file_from_s3_path page_image E _ _); [|discriminate].
  destruct (mkdir page_image E (joinpath (joinpath "/tmp" (uuid4 page_image E)) "images"));
    simpl bind; [|discriminate].
  destruct (mkdir page_image E (joinpath (joinpath "/tmp" (uuid4 page_image E)) "text"));
    simpl bind; [|discriminate].
  unfold run_splitter_logic. rewrite Htype.
  change (String.eqb "image" "pdf") with false.
  change (String.eqb "image" "docx") with false.
  change (String.eqb "image" "pptx") with false.
  change (Combiner.in_list "image" ["docx"; "pptx"]) with false.
  change (String.eqb "image" "image") with true. cbv iota. simpl bind.
  unfold process_input_image.
  assert (Hname : path_name
                    (joinpath (joinpath (joinpath "/tmp" (uuid4 page_image E)) "images")
                              (path_stem name ++ "_image.png"))
                  = (path_stem name ++ "_image.png")%string).
  { apply path_name_joinpath.
    - rewrite has_char_append, path_stem_no_slash. reflexivity.
    - apply is_path_component_long. rewrite length_append. simpl. lia. }
  assert (Hnone : forall out : response,
             s3_page_image_uris out = [] ->
             s3_page_text_uris out = [] ->
             doc_type out = "image" ->
             Returned out = Returned r ->
             doc_type r = "image"
             /\ (s3_page_image_uris r = []
                 \/ exists bucket0,
                     Some bucket = Some bucket0
                     /\ s3_page_image_uris r
                        = [("s3://" ++ bucket0 ++ "/"
                              ++ INTERMEDIATE_IMAGES_PREFIX page_image E ++ "/"
                              ++ uuid4 page_image E ++ "/" ++ path_stem name
                              ++ "_image.png")%string])
             /\ s3_page_text_uris r = map (fun _ => None) (s3_page_image_uris r)).
  { intros out Hi Ht Hd [= <-]. rewrite Hi, Ht. repeat split; try assumption.
    left. reflexivity. }
  destruct (mkdir page_image E _); simpl bind; [|apply Hnone; reflexivity].
  destruct (image_open page_image E _) as [img|e]; simpl bind;
    [|apply Hnone; reflexivity].
  destruct (image_save page_image E img _); simpl bind; [|apply Hnone; reflexivity].
  cbn [async_upload_files_to_s3].
  destruct (is_file page_image E _); cbn [negb]; cbv iota;
    [|apply Hnone; reflexivity].
  rewrite Hname.
  destruct (write_file_to_s3 page_image E _ _); [|apply Hnone; reflexivity].
  clear Hnone. intros [= <-].
  cbn [doc_type s3_page_image_uris s3_page_text_uris map].
  split; [reflexivity|]. split; [|reflexivity].
  right. exists bucket. split; [reflexivity|].
  unfold bucket. simpl. repeat (rewrite !append_assoc; simpl). reflexivity.
Qed.

(** X24, on a PNG whose extension is written in capitals. *)
Lemma image_input_is_one_page_without_text_witness :
  let E := Scenarios.splitter_env [] [] in
  let ev := Event "inputs/photo.PNG" "markdown" in
  exists r,
    (get_doc_type (lower (path_suffix (path_name (s3_input_uri ev)))) = "image"
     /\ lambda_handler unit E ev = Returned r)
    /\ s3_page_image_uris r = ["s3://bkt/intermediate-images/run1/photo_image.png"]
    /\ s3_page_text_uris r = [None].
Proof.
  intros E ev.
  destruct (lambda_handler unit E ev) as [code msg|r] eqn:Hrun;
    [vm_compute in Hrun; discriminate|].
  exists r.
  assert (Htype : get_doc_type (lower (path_suffix (path_name (s3_input_uri ev))))
                  = "image") by reflexivity.
  split; [split; [exact Htype|reflexivity]|].
  destruct (image_input_is_one_page_without_text unit E ev r Htype Hrun)
    as (_ & _ & Htexts).
  vm_compute in Hrun. injection Hrun as <-. split; [reflexivity|].
  rewrite Htexts. reflexivity.
Defined.

End SplitterFacts.

(** ** Local orchestration *)

Module PipelineFacts.
Import Py PyStr Pipeline.
Import PyStrFacts SplitterFacts.

Section Run.
Variable E : env.

(** The result reference a payload brought back, if any. *)
Local Abbreviation result_of :=
  (fun payload : PageProcessor.event =>
     match page_processor E payload with
     | Some s3_result_uri => [s3_result_uri]
     | None => []
     end).

Lemma process_pages_results (a : args) (r : Splitter.response) (uris : list string)
      (i : nat) :
  snd (process_pages E a r i uris)
  = flat_map result_of (fst (process_pages E a r i uris)).
Proof.
  revert i. induction uris as [|u uris IH]; intros i; simpl; [reflexivity|].
  specialize (IH (S i)).
  destruct (process_pages E a r (S i) uris) as [payloads results]. simpl in IH.
  destruct (String.eqb u ""); [exact IH|].
  destruct (page_processor E (page_processor_payload a r i u)) as [uri|] eqn:Hp;
    simpl; rewrite Hp; simpl; rewrite IH; reflexivity.
Qed.

Lemma process_pages_payloads (a : args) (r : Splitter.response) (uris : list string)
      (i : nat) :
  Forall (fun u => u <> EmptyString) uris ->
  fst (process_pages E a r i uris)
  = map (fun ju => page_processor_payload a r (fst ju) (snd ju))
        (List.combine (seq i (List.length uris)) uris).
Proof.
  intros Hall. revert i. induction Hall as [|u uris Hu _ IH]; intros i; simpl;
    [reflexivity|].
  specialize (IH (S i)).
  destruct (process_pages E a r (S i) uris) as [payloads results]. simpl in IH.
  destruct (String.eqb_spec u "") as [->|_]; [contradiction|].
  destruct (page_processor E (page_processor_payload a r i u)); simpl; rewrite IH;
    reflexivity.
Qed.

Lemma main_returned (a : args) (r : Splitter.response) :
  splitter E (Splitter.Event (s3_object_key a) (output_format a))
  = Some (Splitter.Returned r) ->
  let pages := process_pages E a r 0 (Splitter.s3_page_image_uris r) in
  page_processor_payloads (main E a) = fst pages
  /\ combiner_payload (main E a)
     = match snd pages with
       | [] => None
       | _ :: _ =>
           Some (Combiner.Event (Splitter.run_uuid r) (snd pages)
                                (Splitter.original_base_filename r)
                                (Splitter.original_s3_uri r) (output_format a))
       end.
Proof.
  intros Hs. unfold main. rewrite Hs.
  destruct (Splitter.s3_page_image_uris r) as [|u uris]; [split; reflexivity|].
  destruct (process_pages E a r 0 (u :: uris)) as [payloads [|res results]];
    split; reflexivity.
Qed.

Lemma main_not_returned (a : args) :
  (forall r, splitter E (Splitter.Event (s3_object_key a) (output_format a))
             <> Some (Splitter.Returned r)) ->
  main E a = Trace [] None.
Proof.
  intros Hs. unfold main.
  destruct (splitter E _) as [[code msg|r]|]; try reflexivity.
  exfalso. apply (Hs r). reflexivity.
Qed.
End Run.

(** X22.  The pipeline hands the combiner exactly the result references
    of the page processor calls that answered, in page order, with the run
    identifier and names the splitter returned; when no page call answered
    the combiner is not called. *)
Theorem combiner_is_given_the_pages_that_succeeded (E : env) (a : args) :
  let run := main E a in
  let results :=
    flat_map (fun payload =>
                match page_processor E payload with
                | Some s3_result_uri => [s3_result_uri]
                | None => []
                end)
             (page_processor_payloads run) in
  match results with
  | [] => combiner_payload run = None
  | _ :: _ =>
      exists r,
        splitter E (Splitter.Event (s3_object_key a) (output_format a))
        = Some (Splitter.Returned r)
        /\ combiner_payload run
           = Some (Combiner.Event (Splitter.run_uuid r) results
                                  (Splitter.original_base_filename r)
                                  (Splitter.original_s3_uri r) (output_format a))
  end.
Proof.
  intros run results. subst run results.
  destruct (splitter E (Splitter.Event (s3_object_key a) (output_format a)))
    as [[code msg|r]|] eqn:Hs.
  - rewrite main_not_returned by (intros r; rewrite Hs; discriminate). reflexivity.
  - destruct (main_returned E a r Hs) as (Hp & Hc).
    rewrite Hp, <- process_pages_results, Hc.
    destruct (snd (process_pages E a r 0 (Splitter.s3_page_image_uris r)));
      [reflexivity|].
    exists r. split; reflexivity.
  - rewrite main_not_returned by (intros r; rewrite Hs; discriminate). reflexivity.
Qed.


Lemma combine_with_image {A B : Type} (f : A -> B) (l : list A) :
  List.combine l (map f l) = map (fun x => (x, f x)) l.
Proof. induction l as [|x l IH]; simpl; [reflexivity|]. rewrite IH. reflexivity. Qed.

Lemma text_uri_at_map (reference : nat -> string) (pages : list nat) (i : nat) :
  text_uri_at (map (fun n => Some (reference n)) pages) i
  = option_map reference (nth_error pages i).
Proof.
  unfold text_uri_at. rewrite nth_error_map.
  destruct (nth_error pages i); reflexivity.
Qed.

(** X23.  The pipeline pairs the splitter's text references with the page
    images by position in the list.  For a PDF the [i]-th text reference
    belongs to the [i]-th page that has text, so the page processor of
    page [i] is given the text of a page numbered [i] or later, and of
    page [i] itself exactly when no earlier page is blank. *)
Theorem page_text_is_paired_by_position
        (page_image : Type) (S : Splitter.env page_image) (E : env) (a : args)
        (bucket : string) (texts : list string) (images : list page_image) :
  let ev := Splitter.Event (s3_object_key a) (output_format a) in
  let name := path_name (s3_object_key a) in
  let base := path_stem name in
  let source :=
    Splitter.joinpath "/tmp" (Splitter.uuid4 page_image S ++ "_" ++ name) in
  let text_reference n :=
    ("s3://" ++ bucket ++ "/" ++ Splitter.INTERMEDIATE_RAW_TEXT_PREFIX page_image S
       ++ "/" ++ Splitter.uuid4 page_image S ++ "/" ++ base ++ "_page_"
       ++ str_of_Z (Z.of_nat n) ++ "_text.txt")%string in
  let image_reference n :=
    ("s3://" ++ bucket ++ "/" ++ Splitter.INTERMEDIATE_IMAGES_PREFIX page_image S
       ++ "/" ++ Splitter.uuid4 page_image S ++ "/" ++ base ++ "_page_"
       ++ str_of_Z (Z.of_nat n) ++ ".png")%string in
  splitter E ev = Some (Splitter.lambda_handler page_image S ev) ->
  Splitter.BUCKET_NAME page_image S = Some bucket ->
  bucket <> EmptyString ->
  s3_object_key a <> EmptyString ->
  startswith (s3_object_key a) "s3://" = false ->
  Splitter.get_doc_type (lower (Splitter.path_suffix name)) = "pdf" ->
  Splitter.read_file_from_s3_path page_image S (s3_object_key a) source = Ok tt ->
  (forall dir, Splitter.mkdir page_image S dir = Ok tt) ->
  Splitter.pdf_page_texts page_image S source = Ok texts ->
  Splitter.convert_from_path page_image S source = Ok images ->
  (forall content path,
      Splitter.save_content_to_local_file page_image S content path = true) ->
  (forall img path, Splitter.image_save page_image S img path = Ok tt) ->
  (forall path, Splitter.is_file page_image S path = true) ->
  (forall path key, Splitter.write_file_to_s3 page_image S path key = Ok tt) ->
  page_processor_payloads (main E a)
  = map (fun i =>
           PageProcessor.Event
             (Splitter.uuid4 page_image S)
             (image_reference (Datatypes.S i))
             (option_map text_reference
                         (nth_error (Splitter.pages_with_text 0 texts) i))
             (output_format a) (Z.of_nat i + 1) base)
        (seq 0 (List.length images))
  /\ (forall i n,
         nth_error (Splitter.pages_with_text 0 texts) i = Some n ->
         i + 1 <= n
         /\ (n = i + 1
             <-> forall j, j <= i ->
                           exists t, nth_error texts j = Some t
                                     /\ String.eqb (strip t) "" = false)).
Proof.
  intros ev name base source text_reference image_reference
         Hs Hb Hne Hkey Huri Htype Hread Hmkdir Htexts Himages Hsave Himg Hfile Hwrite.
  split; [|intros i n Hn; exact (pages_with_text_nth texts 0 i n Hn)].
  pose proof (pdf_response page_image S ev bucket texts images Hb Hne Hkey Huri Htype
                           Hread Hmkdir Htexts Himages Hsave Himg Hfile Hwrite)
    as Hresponse.
  rewrite Hresponse in Hs.
  destruct (main_returned E a _ Hs) as (Hpayloads & _).
  rewrite Hpayloads. simpl Splitter.s3_page_image_uris.
  rewrite process_pages_payloads.
  - rewrite length_map, length_seq, combine_with_image, map_map.
    apply map_ext. intros i. unfold page_processor_payload. simpl.
    fold name. fold base.
    rewrite (text_uri_at_map text_reference).
    unfold image_reference.
    replace (Z.of_nat (Datatypes.S i)) with (Z.of_nat i + 1)%Z by lia.
    reflexivity.
  - apply Forall_forall. intros u Hu. apply in_map_iff in Hu.
    destruct Hu as (i & <- & _). discriminate.
Qed.

(** X23, on the same PDF: page two is given the text of page three. *)
Lemma page_text_is_paired_by_position_witness :
  let S := Scenarios.splitter_env Scenarios.blank_second_page [tt; tt; tt] in
  let E := Scenarios.pipeline_env Scenarios.blank_second_page [tt; tt; tt] in
  let a := Args "inputs/doc.pdf" "markdown" in
  map (fun payload => (PageProcessor.page_number payload,
                       PageProcessor.s3_raw_text_uri payload))
      (page_processor_payloads (main E a))
  = [ (1%Z, Some "s3://bkt/intermediate-raw-text/run1/doc_page_1_text.txt");
      (2%Z, Some "s3://bkt/intermediate-raw-text/run1/doc_page_3_text.txt");
      (3%Z, None) ].
Proof.
  intros S E a.
  destruct (page_text_is_paired_by_position
              unit S E a "bkt" Scenarios.blank_second_page [tt; tt; tt]
              eq_refl eq_refl ltac:(discriminate) ltac:(discriminate)
              eq_refl eq_refl eq_refl (fun _ => eq_refl) eq_refl eq_refl
              (fun _ _ => eq_refl) (fun _ _ => eq_refl) (fun _ => eq_refl)
              (fun _ _ => eq_refl))
    as (Hpayloads & _).
  rewrite Hpayloads. reflexivity.
Defined.

(** Every payload sent is the payload of a position in the list of page
    images. *)
Lemma process_pages_sent (E : env) (a : args) (r : Splitter.response)
      (uris : list string) (i : nat) (payload : PageProcessor.event) :
  In payload (fst (process_pages E a r i uris)) ->
  exists j u, i <= j /\ payload = page_processor_payload a r j u.
Proof.
  revert i. induction uris as [|u uris IH]; intros i; simpl; [intros []|].
  specialize (IH (S i)).
  destruct (process_pages E a r (S i) uris) as [payloads results]. simpl in IH.
  assert (Hrest : In payload payloads ->
                  exists j u0, i <= j /\ payload = page_processor_payload a r j u0).
  { intros H. destruct (IH H) as (j & u0 & Hj & Hp). exists j, u0. split; [lia|exact Hp]. }
  destruct (String.eqb u ""); [exact Hrest|].
  destruct (page_processor E (page_processor_payload a r i u)); simpl;
    (intros [<-|H]; [exists i, u; split; [lia|reflexivity]|exact (Hrest H)]).
Qed.

(** X25.  In a pipeline run on a Word document, whatever fails along the
    way, only the request for page one can carry a text reference, which
    is then that of the whole document's text, [<name>_full_text.txt] under
    the run's text prefix; every later page is processed without text. *)
Theorem word_text_goes_to_the_first_page
        (page_image : Type) (S : Splitter.env page_image) (E : env) (a : args)
        (payload : PageProcessor.event) :
  let ev := Splitter.Event (s3_object_key a) (output_format a) in
  let name := path_name (s3_object_key a) in
  splitter E ev = Some (Splitter.lambda_handler page_image S ev) ->
  Splitter.get_doc_type (lower (Splitter.path_suffix name)) = "docx" ->
  In payload (page_processor_payloads (main E a)) ->
  (PageProcessor.page_number payload <> 1%Z ->
   PageProcessor.s3_raw_text_uri payload = None)
  /\ (forall uri,
         PageProcessor.s3_raw_text_uri payload = Some uri ->
         exists bucket,
           Splitter.BUCKET_NAME page_image S = Some bucket
           /\ uri = ("s3://" ++ bucket ++ "/"
                       ++ Splitter.INTERMEDIATE_RAW_TEXT_PREFIX page_image S ++ "/"
                       ++ Splitter.uuid4 page_image S ++ "/" ++ path_stem name
                       ++ "_full_text.txt")%string).
Proof.
  intros ev name Hs Htype Hin.
  destruct (Splitter.lambda_handler page_image S ev) as [code msg|r] eqn:Hrun.
  - rewrite main_not_returned in Hin; [destruct Hin|].
    intros r. fold ev. rewrite Hs. discriminate.
  - destruct (main_returned E a r Hs) as (Hp & _). rewrite Hp in Hin.
    destruct (process_pages_sent E a r _ 0 payload Hin) as (j & u & _ & ->).
    unfold page_processor_payload. cbn [PageProcessor.page_number
                                          PageProcessor.s3_raw_text_uri].
    pose proof (docx_text_references page_image S ev r Htype Hrun) as Hdocx.
    unfold text_uri_at.
    destruct Hdocx as [Hnil|(bucket & Hb & Hone)].
    + rewrite Hnil. destruct j; simpl; split; try reflexivity; discriminate.
    + rewrite Hone. destruct j as [|j]; simpl.
      * split; [intros H; contradiction H; reflexivity|].
        intros uri [= <-]. exists bucket. split; [exact Hb|reflexivity].
      * destruct j; simpl; split; try reflexivity; discriminate.
Qed.

(** X25, on a Word document of two pages. *)
Lemma word_text_goes_to_the_first_page_witness :
  let S := Scenarios.word_splitter_env "Whole text" [tt; tt] in
  let E := Scenarios.word_pipeline_env "Whole text" [tt; tt] in
  let a := Args "inputs/report.docx" "markdown" in
  map (fun payload => (PageProcessor.page_number payload,
                       PageProcessor.s3_raw_text_uri payload))
      (page_processor_payloads (main E a))
  = [ (1%Z, Some "s3://bkt/intermediate-raw-text/run1/report_full_text.txt");
      (2%Z, None) ]
  /\ forall payload,
      In payload (page_processor_payloads (main E a)) ->
      PageProcessor.page_number payload <> 1%Z ->
      PageProcessor.s3_raw_text_uri payload = None.
Proof.
  intros S E a. split; [vm_compute; reflexivity|].
  intros payload Hin.
  exact (proj1 (word_text_goes_to_the_first_page unit S E a payload
                  eq_refl eq_refl Hin)).
Defined.

End PipelineFacts.
